(** * PDF-BE: the dispatch and execution core of the document converter

    A shallow embedding of the Go sources

      - models/models.go          Job, JobResult, Job.Cleanup
      - package workers           WorkerPool, EngineManager, the five pool handlers
      - converters/converters.go  the wrappers of the external tools
      - handlers/handlers.go      HandleConvert, selectPool, HandleMerge, HandleRotate
                                  and, in the second block of definitions, the
                                  handlers for split, reorder, compress and the
                                  two extractions

    together with the pieces of the Go standard library they rely on
    (strings.ToLower, path/filepath, fmt.Sscanf with the verb %d).

    Everything the program cannot decide on its own (the outcome of a
    system call or of an external tool, the fresh request id, whether a
    goroutine of a pool receives the Job a request sends) is read from a
    [World] record, so every handler is an executable function of
    its request and of the world it runs in. A handler runs in a small
    monad over the state of one request: the paths it made, the buffer of
    the result channel, and the trace of what it did. A statement ends in
    one of four ways: control goes on, the function returns, the
    goroutine blocks for ever, or it panics.

    Left out, as they change nothing that is observed here: the calls of
    log.Printf and the deferred Close calls. Of [main] the construction
    and the start of the manager are modelled; its ServeMux, the CORS
    middleware and the signal handling are not. [utils.ZipFiles] is no
    part of the sources at hand and is a parameter.

    The file has two parts: the embedding, then the theorems. *)

From Stdlib Require Import ZArith String Ascii List Lia Bool DecimalString.
From stdpp Require Import base decidable option list gmap strings sets.

Local Open Scope Z_scope.

(** Go's [error]: [None] is [nil], [Some msg] an error with that text. *)
Definition error : Type := option string.

Definition isNil (e : error) : bool :=
  match e with None => true | Some _ => false end.

(** The value of a byte, and the byte of a value. *)
Definition code (c : ascii) : Z := Z.of_N (N_of_ascii c).

Definition byte (n : Z) : ascii := ascii_of_N (Z.to_N n).

(** ** Package strings *)

Module GoStrings.

Definition isUpperByte (c : ascii) : bool :=
  (65 <=? code c) && (code c <=? 90).

(** [c += 'a' - 'A'] on an upper-case ASCII letter. *)
Definition lowerByte (c : ascii) : ascii :=
  if isUpperByte c then byte (code c + 32) else c.

(** No byte of the string reaches [utf8.RuneSelf]. *)
Fixpoint isASCII (s : string) : bool :=
  match s with
  | EmptyString => true
  | String c r => (code c <? 128) && isASCII r
  end.

Fixpoint lowerASCII (s : string) : string :=
  match s with
  | EmptyString => EmptyString
  | String c r => String (lowerByte c) (lowerASCII r)
  end.

Section ToLower.

(** [strings.Map(unicode.ToLower, s)]: the path [ToLower] takes for a
    string with a byte outside ASCII. It depends on the Unicode case
    tables of the Go runtime, which are no part of this repository. *)
Variable unicodeLower : string -> string.

Definition ToLower (s : string) : string :=
  if isASCII s then lowerASCII s else unicodeLower s.

End ToLower.

(** An instance of the Unicode path, exact on every valid string whose
    runes outside ASCII have no lower-case mapping: such runes are copied
    and the ASCII letters are lowered. *)
Definition caselessLower : string -> string := lowerASCII.

Fixpoint containsByte (c : ascii) (s : string) : bool :=
  match s with
  | EmptyString => false
  | String d r => Ascii.eqb d c || containsByte c r
  end.

End GoStrings.

(** ** Package path/filepath (Unix) *)

Module GoFilepath.

Definition Separator : ascii := "/"%char.

(** The elements of a path: the substrings between separators. *)
Fixpoint elems (s : string) : list string :=
  match s with
  | EmptyString => [EmptyString]
  | String c r =>
      if Ascii.eqb c Separator then EmptyString :: elems r
      else match elems r with
           | x :: xs => String c x :: xs
           | [] => [String c EmptyString]
           end
  end.

(** One round of the loop of [Clean]; [st] is the output so far, last
    element first. An empty element and a single dot are skipped, a double
    dot removes the last real element when there is one, and is kept in
    front of a path that is not rooted. *)
Definition cleanStep (rooted : bool) (st : list string) (e : string)
  : list string :=
  if String.eqb e "" || String.eqb e "." then st
  else if String.eqb e ".." then
    match st with
    | top :: rest =>
        if String.eqb top ".." then (if rooted then st else e :: st)
        else rest
    | [] => if rooted then [] else [e]
    end
  else e :: st.

Definition cleanElems (rooted : bool) (es : list string) : list string :=
  fold_left (cleanStep rooted) es [].

Definition isRooted (p : string) : bool :=
  match p with
  | String c _ => Ascii.eqb c Separator
  | EmptyString => false
  end.

Definition render (rooted : bool) (st : list string) : string :=
  if rooted then "/" +:+ String.concat "/" (rev st)
  else match st with
       | [] => "."
       | _ => String.concat "/" (rev st)
       end.

Definition Clean (p : string) : string :=
  if String.eqb p "" then "."
  else render (isRooted p) (cleanElems (isRooted p) (elems p)).

(** [Join]: leading empty elements are ignored, the rest is joined with
    separators and cleaned; no element at all gives the empty string. *)
Fixpoint Join (el : list string) : string :=
  match el with
  | [] => ""
  | e :: rest =>
      if String.eqb e "" then Join rest else Clean (String.concat "/" el)
  end.

(** [Ext]: the suffix that starts at the last dot of the last element.
    [extScan] answers [None] as long as neither a dot nor a separator was
    met, reading from the end of the string. *)
Fixpoint extScan (s : string) : option string :=
  match s with
  | EmptyString => None
  | String c r =>
      match extScan r with
      | Some e => Some e
      | None =>
          if Ascii.eqb c "."%char then Some s
          else if Ascii.eqb c Separator then Some ""
          else None
      end
  end.

Definition Ext (path : string) : string := default "" (extScan path).

(** [Base]: the last element of the path, trailing separators removed. *)
Definition Base (path : string) : string :=
  if String.eqb path "" then "."
  else match List.filter (fun e => negb (String.eqb e "")) (elems path) with
       | [] => "/"
       | ne => List.last ne ""
       end.

Definition IsAbs (p : string) : bool := isRooted p.

(** A plain file name: one element that [Clean] keeps as it is. *)
Definition plainName (n : string) : bool :=
  negb (String.eqb n "") && negb (String.eqb n ".")
  && negb (String.eqb n "..") && negb (GoStrings.containsByte Separator n).

(** What [Join] puts in front of a plain file name joined to [dir]. *)
Definition joinBase (dir : string) : string :=
  if String.eqb dir "" then ""
  else (if isRooted dir then "/" else "")
       +:+ match rev (cleanElems (isRooted dir) (elems dir)) with
           | [] => ""
           | l => String.concat "/" l +:+ "/"
           end.

(** [inside p dir]: the path [p] names an entry of the directory [dir],
    that is, [p] is [dir] joined with a plain file name. *)
Definition inside (p dir : string) : Prop :=
  exists n, plainName n = true /\ p = Join [dir; n].

End GoFilepath.

(** ** Package fmt: Sprintf and Sscanf with the verb %d *)

Module GoFmt.

(** [fmt.Sprintf] of an integer with %d. *)
Definition formatInt (z : Z) : string := NilZero.string_of_int (Z.to_int z).

Definition isDigit (c : ascii) : bool := (48 <=? code c) && (code c <=? 57).

(** [ss.SkipSpace] of fmt/scan.go, as Sscanf runs it (a newline is no
    space there): the input after its leading space runes, or [None] for
    the error raised by a newline. The space runes are U+0009 to U+000D,
    U+0020, U+0085, U+00A0, U+1680, U+2000 to U+200A, U+2028, U+2029,
    U+202F, U+205F and U+3000, met here in their UTF-8 encoding. *)
Fixpoint SkipSpace (s : string) : option string :=
  match s with
  | EmptyString => Some s
  | String c r =>
      let n := code c in
      if n =? 10 then None
      else if ((9 <=? n) && (n <=? 13)) || (n =? 32) then SkipSpace r
      else if n =? 194 then
        match r with
        | String d r1 =>
            if (code d =? 133) || (code d =? 160) then SkipSpace r1 else Some s
        | EmptyString => Some s
        end
      else if (n =? 225) || (n =? 226) || (n =? 227) then
        match r with
        | String d (String e r2) =>
            let hit :=
              ((n =? 225) && (code d =? 154) && (code e =? 128))
              || ((n =? 226) && (code d =? 128)
                  && (((128 <=? code e) && (code e <=? 138))
                      || (code e =? 168) || (code e =? 169) || (code e =? 175)))
              || ((n =? 226) && (code d =? 129) && (code e =? 159))
              || ((n =? 227) && (code d =? 128) && (code e =? 128)) in
            if hit then SkipSpace r2 else Some s
        | _ => Some s
        end
      else Some s
  end.

(** The value of the run of decimal digits at the head of the input,
    continuing from [acc]. *)
Fixpoint digitRun (acc : Z) (s : string) : Z :=
  match s with
  | String c r => if isDigit c then digitRun (10 * acc + (code c - 48)) r else acc
  | EmptyString => acc
  end.

(** [ss.scanInt] for %d and a 64-bit int: spaces, an optional sign, at
    least one digit; the token goes through [strconv.ParseInt], which
    refuses a value outside the int64 range. [None] stands for every
    error; whatever follows the digits stays unread. *)
Definition scanInt (s : string) : option Z :=
  match SkipSpace s with
  | None => None
  | Some s1 =>
      let '(neg, s2) :=
        match s1 with
        | String c r =>
            if Ascii.eqb c "+"%char then (false, r)
            else if Ascii.eqb c "-"%char then (true, r)
            else (false, s1)
        | EmptyString => (false, s1)
        end in
      match s2 with
      | String d _ =>
          if isDigit d then
            let v := if neg : bool then - digitRun 0 s2 else digitRun 0 s2 in
            if (- 2 ^ 63 <=? v) && (v <=? 2 ^ 63 - 1) then Some v else None
          else None
      | EmptyString => None
      end
  end.

(** [fmt.Sscanf(str, "%d", &v)]: on an error [v] keeps its value. *)
Definition Sscanf_d (str : string) (v : Z) : Z :=
  match scanInt str with
  | Some x => x
  | None => v
  end.

End GoFmt.

(** ** Package models *)

Module models.

(** [Job]. The field [ResultChan] is the capacity-1 channel the request
    created for this Job; its buffer is the component [chan] of the
    system state below. [Options] is never written nor read. *)
Record Job : Type := {
  ID : string;
  InputPath : string;
  OutputPath : string;
  FromFormat : string;
  ToFormat : string;
  TempDir : string
}.

Record JobResult : Type := {
  Success : bool;
  Error : error;
  Path : string
}.

End models.
Export models.

(** The five pools of the [EngineManager]; a [*workers.WorkerPool] that
    [selectPool] returns is one of them, or [nil]. *)
Inductive Engine : Type :=
| LibreOffice
| Poppler
| ImageMagick
| Pandoc
| Ghostscript.

#[global] Instance Engine_eq_dec : EqDecision Engine.
Proof. solve_decision. Defined.

(** ** The world and the state of one request *)

(** What becomes of a Job that a request sends to the queue of a pool.
    The request cannot decide it: it depends on the goroutines of the
    pool, on the other Jobs in the queue and on the moment the context is
    cancelled (a goroutine at its select may take [ctx.Done] while the
    queue holds the Job). *)
Inductive Fate : Type :=
| Handled     (* a goroutine of the pool receives the Job and runs the handler *)
| Stranded    (* the queue takes the Job and no goroutine ever receives it *)
| Refused.    (* the queue holds 100 Jobs and gets no room: the send blocks *)

(** What the environment answers. *)
Record World : Type := {
  w_uuid : string;                           (* uuid.New().String() *)
  w_mkdirAll : string -> error;              (* os.MkdirAll *)
  w_create : string -> error;                (* os.Create *)
  w_copyIn : string -> error;                (* io.Copy into the created file *)
  w_openUpload : string -> error;            (* fileHeader.Open *)
  w_open : string -> error;                  (* os.Open *)
  w_notExist : string -> bool;               (* os.IsNotExist of os.Stat *)
  w_getwd : string * error;                  (* os.Getwd *)
  w_exec : string -> list string -> string * error;
                                             (* exec.Command(..).CombinedOutput *)
  w_glob : string -> list string;            (* filepath.Glob, error dropped *)
  w_fate : Engine -> Fate                    (* pool.JobQueue <- job *)
}.

(** What a request does, in the order it does it. *)
Inductive Event : Type :=
| EvMkdirAll (path : string)
| EvCreate (path : string)
| EvCopyIn (path : string)
| EvOpenUpload (name : string)
| EvExec (name : string) (args : list string)
| EvGlob (pattern : string)
| EvEnqueue (pool : Engine) (job : Job)
| EvSend (r : JobResult)
| EvRecv (r : JobResult)
| EvRemoveAll (path : string)
| EvOpen (path : string)
| EvHeader (key value : string)
| EvCopyOut (path : string)
| EvHttpError (msg : string) (status : Z).

(** The state a request runs in: the paths that exist among those the
    request handlers create, the buffer of the Job's result channel, and
    the trace. Files written by the external tools are not tracked; the
    world answers [w_open] and [w_glob] for them. *)
Record Sys : Type := {
  fs : gset string;
  chan : list JobResult;
  trace : list Event
}.

Definition initSys (files : gset string) : Sys :=
  {| fs := files; chan := []; trace := [] |}.

(** The state right after [make(chan models.JobResult, 1)]. *)
Definition freshChan (s : Sys) : Sys :=
  {| fs := fs s; chan := []; trace := trace s |}.

(** *** Readings of a trace *)

(** The Results sent on the result channel. *)
Definition sent (tr : list Event) : list JobResult :=
  flat_map (fun e => match e with EvSend r => [r] | _ => [] end) tr.

(** The paths given to [os.RemoveAll]. *)
Definition removed (tr : list Event) : list string :=
  flat_map (fun e => match e with EvRemoveAll p => [p] | _ => [] end) tr.

(** The Jobs put into a pool's queue. *)
Definition enqueued (tr : list Event) : list (Engine * Job) :=
  flat_map (fun e => match e with EvEnqueue p j => [(p, j)] | _ => [] end) tr.

(** The status codes of the error responses. *)
Definition statuses (tr : list Event) : list Z :=
  flat_map (fun e => match e with EvHttpError _ c => [c] | _ => [] end) tr.

(** The external commands that ran. *)
Definition executed (tr : list Event) : list (string * list string) :=
  flat_map (fun e => match e with EvExec n a => [(n, a)] | _ => [] end) tr.

(** The events of system calls and tools, which touch neither a channel,
    nor a queue, nor the response, and remove nothing. *)
Definition benign (e : Event) : bool :=
  match e with
  | EvSend _ | EvRecv _ | EvEnqueue _ _ | EvRemoveAll _ | EvHttpError _ _ => false
  | _ => true
  end.

(** How a statement ends. *)
Inductive Step (A : Type) : Type :=
| Next (a : A)   (* control goes on with the value [a] *)
| Done           (* the function returned *)
| Hang           (* blocked on a channel for ever *)
| Panic.         (* run-time panic *)

Arguments Next {A} a.
Arguments Done {A}.
Arguments Hang {A}.
Arguments Panic {A}.

Definition M (A : Type) : Type := Sys -> Step A * Sys.

Definition ret {A : Type} (a : A) : M A := fun s => (Next a, s).

Definition bind {A B : Type} (m : M A) (k : A -> M B) : M B :=
  fun s =>
    match m s with
    | (Next a, s') => k a s'
    | (Done, s') => (Done, s')
    | (Hang, s') => (Hang, s')
    | (Panic, s') => (Panic, s')
    end.

#[global] Instance M_ret : MRet M := @ret.

#[global] Instance M_bind : MBind M := fun A B k m => bind m k.

(** [quiet m P]: from every state [m] runs to its end with a value that
    satisfies [P], leaves the channel alone and adds benign events only. *)
Definition quiet {A : Type} (m : M A) (P : A -> Prop) : Prop :=
  forall s, exists a tr f,
    m s = (Next a, {| fs := f; chan := chan s; trace := trace s ++ tr |})
    /\ forallb benign tr = true /\ P a.

(** [sendsOne m Q]: started with an empty result channel, [m] runs to its
    end, its last event is the send of a Result [r] that satisfies [Q],
    the events before it are benign, and the channel then holds [r]. *)
Definition sendsOne (m : M unit) (Q : JobResult -> Prop) : Prop :=
  forall s, chan s = [] -> exists r tr f,
    m s = (Next tt, {| fs := f; chan := [r]; trace := trace s ++ tr ++ [EvSend r] |})
    /\ forallb benign tr = true /\ Q r.

(** The statement [return]. *)
Definition return_ {A : Type} : M A := fun s => (Done, s).

(** [if c { body }]. *)
Definition If (c : bool) (body : M unit) : M unit :=
  if c then body else ret tt.

(** A call of a function with no result: its [return] ends the call. *)
Definition callFn (m : M unit) : M unit :=
  fun s =>
    match m s with
    | (Done, s') => (Next tt, s')
    | r => r
    end.

Definition emit (e : Event) : M unit :=
  fun s => (Next tt, {| fs := fs s; chan := chan s; trace := trace s ++ [e] |}).

Definition setFs (f : gset string -> gset string) : M unit :=
  fun s => (Next tt, {| fs := f (fs s); chan := chan s; trace := trace s |}).

(** [under dir p]: [p] is [dir] or lies below it. *)
Definition under (dir p : string) : bool :=
  String.eqb p dir || String.prefix (dir +:+ "/") p.

(** [os.RemoveAll]: the path and everything below it are gone. The
    handlers drop its error; removal of a tree the request made itself is
    taken to succeed. *)
Definition os_RemoveAll (path : string) : M unit :=
  emit (EvRemoveAll path) ;;
  setFs (fun files => filter (fun p => under path p = false) files).

Definition http_Error (msg : string) (status : Z) : M unit :=
  emit (EvHttpError msg status).

(** ** Channels *)

(** [make(chan models.JobResult, 1)]. *)
Definition resultChanCap : nat := 1.

Definition make_chan : M unit :=
  fun s => (Next tt, {| fs := fs s; chan := []; trace := trace s |}).

(** A send blocks while the buffer is full. *)
Definition send (r : JobResult) : M unit :=
  fun s =>
    if (List.length (chan s) <? resultChanCap)%nat
    then (Next tt, {| fs := fs s; chan := chan s ++ [r];
                      trace := trace s ++ [EvSend r] |})
    else (Hang, s).

(** A receive blocks while the buffer is empty. *)
Definition recv : M JobResult :=
  fun s =>
    match chan s with
    | r :: rest => (Next r, {| fs := fs s; chan := rest;
                               trace := trace s ++ [EvRecv r] |})
    | [] => (Hang, s)
    end.

Section InWorld.

Variable w : World.

Definition os_MkdirAll (path : string) : M error :=
  emit (EvMkdirAll path) ;;
  If (isNil (w_mkdirAll w path)) (setFs (fun files => {[ path ]} ∪ files)) ;;
  ret (w_mkdirAll w path).

Definition os_Create (path : string) : M error :=
  emit (EvCreate path) ;;
  If (isNil (w_create w path)) (setFs (fun files => {[ path ]} ∪ files)) ;;
  ret (w_create w path).

Definition io_CopyIn (path : string) : M error :=
  emit (EvCopyIn path) ;; ret (w_copyIn w path).

Definition os_Open (path : string) : M error :=
  emit (EvOpen path) ;; ret (w_open w path).

Definition io_CopyOut (path : string) : M unit := emit (EvCopyOut path).

Definition exec_CombinedOutput (name : string) (args : list string)
  : M (string * error) :=
  emit (EvExec name args) ;; ret (w_exec w name args).

Definition filepath_Glob (pattern : string) : M (list string) :=
  emit (EvGlob pattern) ;; ret (w_glob w pattern).

(** [filepath.Abs]. *)
Definition filepath_Abs (path : string) : string * error :=
  if GoFilepath.IsAbs path then (GoFilepath.Clean path, None)
  else match w_getwd w with
       | (wd, None) => (GoFilepath.Join [wd; path], None)
       | (_, Some e) => ("", Some e)
       end.

(** ** Package converters *)

Definition toolError (what : string) (e output : string) : error :=
  Some (what +:+ " failed: " +:+ e +:+ ", output: " +:+ output).

(** The shape all the tool wrappers but LibreOffice share. *)
Definition runTool (what name : string) (args : list string) : M error :=
  '(output, err) ← exec_CombinedOutput name args;
  match err with
  | Some e => ret (toolError what e output)
  | None => ret None
  end.

Definition sofficePath : string :=
  let p := "/opt/homebrew/bin/soffice" in
  let p := if w_notExist w p
           then "/Applications/LibreOffice.app/Contents/MacOS/soffice" else p in
  let p := if w_notExist w p then "/usr/bin/libreoffice" else p in
  let p := if w_notExist w p then "/usr/bin/soffice" else p in
  if w_notExist w p then "soffice" else p.

Definition LibreOfficeConvert (inputPath outputDir toFormat : string) : M error :=
  match filepath_Abs outputDir with
  | (_, Some e) => ret (Some ("failed to get absolute path for output: " +:+ e))
  | (absOutputDir, None) =>
      match filepath_Abs inputPath with
      | (_, Some e) => ret (Some ("failed to get absolute path for input: " +:+ e))
      | (absInputPath, None) =>
          let userInstallDir := GoFilepath.Join [absOutputDir; "soffice_user"] in
          err ← os_MkdirAll userInstallDir;
          match err with
          | Some e =>
              ret (Some ("failed to create user installation directory: " +:+ e))
          | None =>
              runTool "LibreOffice" sofficePath
                ["-env:UserInstallation=file://" +:+ userInstallDir;
                 "--headless"; "--convert-to"; toFormat;
                 "--outdir"; absOutputDir; absInputPath]
          end
      end
  end.

Definition PandocConvert (inputPath outputPath : string) : M error :=
  runTool "Pandoc" "pandoc" [inputPath; "-o"; outputPath].

Definition PDFToImage (inputPath outputPrefix format : string) : M error :=
  if String.eqb format "jpg" || String.eqb format "jpeg" then
    runTool "pdftoppm" "pdftoppm" ["-jpeg"; inputPath; outputPrefix]
  else if String.eqb format "png" then
    runTool "pdftoppm" "pdftoppm" ["-png"; inputPath; outputPrefix]
  else ret (Some ("unsupported image format: " +:+ format)).

Definition ImageToPDF (inputPaths : list string) (outputPath : string) : M error :=
  runTool "ImageMagick" "convert" (inputPaths ++ [outputPath]).

Definition MergePDFs (inputPaths : list string) (outputPath : string) : M error :=
  runTool "pdfunite" "pdfunite" (inputPaths ++ [outputPath]).

Definition CompressPDF (inputPath outputPath : string) : M error :=
  runTool "Ghostscript" "gs"
    ["-sDEVICE=pdfwrite"; "-dCompatibilityLevel=1.4"; "-dPDFSETTINGS=/screen";
     "-dNOPAUSE"; "-dQUIET"; "-dBATCH";
     "-sOutputFile=" +:+ outputPath; inputPath].

Definition ExtractText (inputPath outputPath : string) : M error :=
  runTool "pdftotext" "pdftotext" [inputPath; outputPath].

Definition RotatePDF (inputPath outputPath : string) (angle : Z) : M error :=
  runTool "qpdf rotate" "qpdf"
    [inputPath; "--rotate=+" +:+ GoFmt.formatInt angle; outputPath].

(** [Job.Cleanup]. *)
Definition Cleanup (j : Job) : M unit :=
  If (negb (String.eqb (TempDir j) "")) (os_RemoveAll (TempDir j)).

End InWorld.

(** ** Package workers *)

Module workers.

(** [WorkerPool]: the configured number of workers and the handler. *)
Record WorkerPool : Type := {
  workers : Z;
  handler : Job -> M unit
}.

(** [make(chan models.Job, 100)]. *)
Definition jobQueueCap : nat := 100.

Definition NewWorkerPool (workers : Z) (handler : Job -> M unit) : WorkerPool :=
  {| workers := workers; handler := handler |}.

Record EngineManager : Type := {
  LibreOfficePool : WorkerPool;
  PopplerPool : WorkerPool;
  ImageMagickPool : WorkerPool;
  PandocPool : WorkerPool;
  GhostscriptPool : WorkerPool
}.

Definition poolOf (m : EngineManager) (e : Engine) : WorkerPool :=
  match e with
  | LibreOffice => LibreOfficePool m
  | Poppler => PopplerPool m
  | ImageMagick => ImageMagickPool m
  | Pandoc => PandocPool m
  | Ghostscript => GhostscriptPool m
  end.

Section Handlers.

Variable w : World.

(** The handler of [LibreOfficePool]. *)
Definition handleLibreOffice (job : Job) : M unit :=
  let outputPath := GoFilepath.Join [TempDir job; "output." +:+ ToFormat job] in
  err ← LibreOfficeConvert w (InputPath job) (TempDir job) (ToFormat job);
  '(outputPath, err) ←
    (if isNil err then
       matches ← filepath_Glob w (GoFilepath.Join [TempDir job; "*." +:+ ToFormat job]);
       match matches with
       | m :: _ => ret (m, err)
       | [] =>
           ret (outputPath,
                Some ("conversion succeeded but no output file found in "
                      +:+ TempDir job +:+ " for format " +:+ ToFormat job))
       end
     else ret (outputPath, err));
  send {| Success := isNil err; Error := err; Path := outputPath |}.

(** The handler of [PopplerPool]. *)
Definition handlePoppler (job : Job) : M unit :=
  let outputPath := GoFilepath.Join [TempDir job; "output"] in
  '(outputPath, err) ←
    (if String.eqb (ToFormat job) "txt" then
       let outputPath := outputPath +:+ ".txt" in
       err ← ExtractText w (InputPath job) outputPath;
       ret (outputPath, err)
     else
       err ← PDFToImage w (InputPath job) outputPath (ToFormat job);
       matches ← filepath_Glob w (outputPath +:+ "*." +:+ ToFormat job);
       match matches with
       | m :: _ => ret (m, err)
       | [] => ret (outputPath, err)
       end);
  send {| Success := isNil err; Error := err; Path := outputPath |}.

(** The handler of [ImageMagickPool]. *)
Definition handleImageMagick (job : Job) : M unit :=
  let outputPath := GoFilepath.Join [TempDir job; "output.pdf"] in
  err ← ImageToPDF w [InputPath job] outputPath;
  send {| Success := isNil err; Error := err; Path := outputPath |}.

(** The handler of [PandocPool]. *)
Definition handlePandoc (job : Job) : M unit :=
  let outputPath := GoFilepath.Join [TempDir job; "output.pdf"] in
  err ← PandocConvert w (InputPath job) outputPath;
  send {| Success := isNil err; Error := err; Path := outputPath |}.

(** The handler of [GhostscriptPool]. *)
Definition handleGhostscript (job : Job) : M unit :=
  let outputPath := GoFilepath.Join [TempDir job; "output.pdf"] in
  err ← CompressPDF w (InputPath job) outputPath;
  send {| Success := isNil err; Error := err; Path := outputPath |}.

Definition NewEngineManager (numCPU : Z) : EngineManager :=
  {| LibreOfficePool := NewWorkerPool numCPU handleLibreOffice;
     PopplerPool := NewWorkerPool numCPU handlePoppler;
     ImageMagickPool := NewWorkerPool numCPU handleImageMagick;
     PandocPool := NewWorkerPool numCPU handlePandoc;
     GhostscriptPool := NewWorkerPool numCPU handleGhostscript |}.

Definition MergePDFsSync (m : EngineManager) (inputs : list string) (output : string)
  : M error :=
  MergePDFs w inputs output.

Definition ImageToPDFSync (m : EngineManager) (inputs : list string) (output : string)
  : M error :=
  ImageToPDF w inputs output.

End Handlers.

(** *** The goroutines of a started pool

    [Start] launches [p.workers] goroutines, each in the loop

      select: ctx.Done -> return | job, ok from JobQueue ->
        not ok: return; ok: p.handler(job)

    A configuration holds the queue, whether it was closed ([Wait]),
    whether the context was cancelled, and where each goroutine stands. *)

Inductive Goroutine : Type :=
| Selecting               (* at the select *)
| Handling (job : Job)    (* inside p.handler(job) *)
| Exited.

Record Config : Type := {
  JobQueue : list Job;
  closed : bool;
  ctxDone : bool;
  goroutines : list Goroutine
}.

(** The pool after [NewWorkerPool] and one call of [Start], as [main]
    starts every pool of the manager once. The loop
    [for i := 0; i < p.workers; i++] makes no round when [p.workers] is
    not positive. *)
Definition Start (p : WorkerPool) : Config :=
  {| JobQueue := []; closed := false; ctxDone := false;
     goroutines := repeat Selecting (Z.to_nat (workers p)) |}.

Definition setGoroutine (c : Config) (i : nat) (g : Goroutine) : Config :=
  {| JobQueue := JobQueue c; closed := closed c; ctxDone := ctxDone c;
     goroutines := <[ i := g ]> (goroutines c) |}.

Inductive step : Config -> Config -> Prop :=
| step_enqueue c job :
    closed c = false ->
    (List.length (JobQueue c) < jobQueueCap)%nat ->
    step c {| JobQueue := JobQueue c ++ [job]; closed := closed c;
              ctxDone := ctxDone c; goroutines := goroutines c |}
| step_cancel c :
    step c {| JobQueue := JobQueue c; closed := closed c;
              ctxDone := true; goroutines := goroutines c |}
| step_close c :
    closed c = false ->
    step c {| JobQueue := JobQueue c; closed := true;
              ctxDone := ctxDone c; goroutines := goroutines c |}
| step_ctx_done c i :
    goroutines c !! i = Some Selecting ->
    ctxDone c = true ->
    step c (setGoroutine c i Exited)
| step_dequeue c i job rest :
    goroutines c !! i = Some Selecting ->
    JobQueue c = job :: rest ->
    step c {| JobQueue := rest; closed := closed c; ctxDone := ctxDone c;
              goroutines := <[ i := Handling job ]> (goroutines c) |}
| step_queue_closed c i :
    goroutines c !! i = Some Selecting ->
    JobQueue c = [] ->
    closed c = true ->
    step c (setGoroutine c i Exited)
| step_handler_returns c i job :
    goroutines c !! i = Some (Handling job) ->
    step c (setGoroutine c i Selecting).

Definition isHandling (g : Goroutine) : bool :=
  match g with Handling _ => true | _ => false end.

(** The number of handler invocations that run at this moment. *)
Definition running (c : Config) : nat :=
  List.length (List.filter isHandling (goroutines c)).

End workers.
Export workers.

(** ** Package handlers *)

Module handlers.

(** A multipart file header and the request, as far as the handlers read
    it: the method, whether [ParseMultipartForm] succeeded under the
    handler's size limit, the part named file, the parts named files, and
    the form values. *)
Record FileHeader : Type := { Filename : string }.

Record Request : Type := {
  Method : string;
  parseOk : bool;
  formFile : option FileHeader;
  formFiles : list FileHeader;
  formValues : gmap string string
}.

(** [r.FormValue(key)]: the empty string when the key is missing. *)
Definition FormValue (r : Request) (key : string) : string :=
  default "" (formValues r !! key).

Definition StatusBadRequest : Z := 400.
Definition StatusNotFound : Z := 404.
Definition StatusMethodNotAllowed : Z := 405.
Definition StatusInternalServerError : Z := 500.

Record ConversionHandler : Type := { EngineManager : workers.EngineManager }.

Definition NewConversionHandler (mgr : workers.EngineManager) : ConversionHandler :=
  {| EngineManager := mgr |}.

Section Handlers.

Variable unicodeLower : string -> string.
Variable w : World.
Variable h : ConversionHandler.

Local Abbreviation ToLower := (GoStrings.ToLower unicodeLower).

(** [selectPool]. The pool it returns is named by its engine; [None] is
    the nil pointer. *)
Definition selectPool (from to : string) : option Engine :=
  let from := ToLower from in
  let to := ToLower to in
  (* Image conversions *)
  if (String.eqb from "jpg" || String.eqb from "png" || String.eqb from "jpeg")
     && String.eqb to "pdf"
  then Some ImageMagick
  else if String.eqb from "pdf"
          && (String.eqb to "jpg" || String.eqb to "png" || String.eqb to "jpeg")
  then Some Poppler
  (* Document conversions *)
  else if (String.eqb from "docx" || String.eqb from "ppt" || String.eqb from "xlsx"
           || String.eqb from "csv" || String.eqb from "html")
          && String.eqb to "pdf"
  then Some LibreOffice
  else if String.eqb from "pdf"
          && (String.eqb to "docx" || String.eqb to "xlsx" || String.eqb to "ppt")
  then Some LibreOffice
  (* Text/Markdown/HTML/EPUB *)
  else if (String.eqb from "md" || String.eqb from "markdown" || String.eqb from "epub")
          && String.eqb to "pdf"
  then Some Pandoc
  else if (String.eqb from "txt" || String.eqb from "html" || String.eqb from "docx"
           || String.eqb from "ppt" || String.eqb from "xlsx" || String.eqb from "csv")
          && String.eqb to "pdf"
  then Some LibreOffice
  (* PDF specific *)
  else if String.eqb from "pdf" && String.eqb to "txt"
  then Some Poppler
  else None.

(** What becomes of a Job sent to [pool]. A pool built with no worker
    has no goroutine, so there no Job is ever received, whatever the
    world says. *)
Definition fate (pool : Engine) : Fate :=
  if 0 <? workers (poolOf (EngineManager h) pool) then w_fate w pool
  else match w_fate w pool with
       | Refused => Refused
       | _ => Stranded
       end.

(** [pool.JobQueue <- job]. The send blocks while the queue is full.
    Once the queue has the Job, a goroutine of the pool may receive it
    and run the pool's handler on it; in the life of one request this
    happens between the send on the queue and the receive on the result
    channel, so the handler runs here. When no goroutine receives the
    Job the handler does not run, nothing is sent on the result channel,
    and the receive that follows in the caller blocks. The queue is never
    closed: nothing in the program calls [Wait]. *)
Definition enqueue (pool : Engine) (job : Job) : M unit :=
  match fate pool with
  | Refused => fun s => (Hang, s)
  | Stranded => emit (EvEnqueue pool job)
  | Handled =>
      emit (EvEnqueue pool job) ;;
      callFn (handler (poolOf (EngineManager h) pool) job)
  end.

Definition HandleConvert (r : Request) : M unit :=
  If (negb (String.eqb (Method r) "POST"))
    (http_Error "Method not allowed" StatusMethodNotAllowed ;; return_) ;;
  (* Max 20MB *)
  If (negb (parseOk r))
    (http_Error "File too large or invalid form" StatusBadRequest ;; return_) ;;
  header ← match formFile r with
           | Some header => ret header
           | None => http_Error "Missing file" StatusBadRequest ;; return_
           end;
  let from := FormValue r "from" in
  let to := FormValue r "to" in
  If (String.eqb from "" || String.eqb to "")
    (http_Error "Missing from/to parameters" StatusBadRequest ;; return_) ;;
  (* Create temp directory for this request *)
  let reqID := w_uuid w in
  let tempDir := GoFilepath.Join ["tmp"; reqID] in
  err ← os_MkdirAll w tempDir;
  If (negb (isNil err))
    (http_Error "Internal server error" StatusInternalServerError ;; return_) ;;
  let inputPath := GoFilepath.Join [tempDir; Filename header] in
  err ← os_Create w inputPath;
  If (negb (isNil err))
    (http_Error "Internal server error" StatusInternalServerError ;; return_) ;;
  err ← io_CopyIn w inputPath;
  If (negb (isNil err))
    (http_Error "Internal server error" StatusInternalServerError ;; return_) ;;
  (* Define job *)
  make_chan ;;
  let job := {| ID := reqID; InputPath := inputPath; OutputPath := "";
                FromFormat := from; ToFormat := to; TempDir := tempDir |} in
  (* Route to correct pool *)
  match selectPool from to with
  | None =>
      callFn (Cleanup job) ;;
      http_Error "Unsupported conversion" StatusBadRequest ;;
      return_
  | Some pool =>
      enqueue pool job ;;
      (* Wait for result *)
      result ← recv;
      If (negb (Success result))
        (callFn (Cleanup job) ;;
         http_Error ("Conversion failed: " +:+ default "<nil>" (Error result))
           StatusInternalServerError ;;
         return_) ;;
      (* Stream response *)
      err ← os_Open w (Path result);
      If (negb (isNil err))
        (callFn (Cleanup job) ;;
         http_Error "Failed to open result" StatusInternalServerError ;;
         return_) ;;
      emit (EvHeader "Content-Disposition"
              ("attachment; filename=" +:+ GoFilepath.Base (Path result))) ;;
      emit (EvHeader "Content-Type" "application/octet-stream") ;;
      io_CopyOut (Path result) ;;
      (* Final cleanup *)
      callFn (Cleanup job)
  end.

(** The working directory of the request, and the path of its input. *)
Definition workDirOf : string := GoFilepath.Join ["tmp"; w_uuid w].

Definition inputPathOf (header : FileHeader) : string :=
  GoFilepath.Join [workDirOf; Filename header].

(** The request passes the checks of [HandleConvert] and its staging
    succeeds: the directory is made, the input file created and filled.
    Such a request reaches the routing step. *)
Definition staged (r : Request) : bool :=
  String.eqb (Method r) "POST" && parseOk r
  && match formFile r with
     | Some header =>
         negb (String.eqb (FormValue r "from") "")
         && negb (String.eqb (FormValue r "to") "")
         && isNil (w_mkdirAll w workDirOf)
         && isNil (w_create w (inputPathOf header))
         && isNil (w_copyIn w (inputPathOf header))
     | None => false
     end.

Definition serveAndCleanup (path tempDir : string) : M unit :=
  err ← os_Open w path;
  If (negb (isNil err))
    (os_RemoveAll tempDir ;;
     http_Error "Failed to open result" StatusInternalServerError ;;
     return_) ;;
  emit (EvHeader "Content-Disposition"
          ("attachment; filename=" +:+ GoFilepath.Base path)) ;;
  io_CopyOut path ;;
  os_RemoveAll tempDir.

Definition isImageExt (ext : string) : bool :=
  String.eqb ext ".jpg" || String.eqb ext ".jpeg" || String.eqb ext ".png".

(** The loop of [HandleMerge] over the uploaded files, from index [i] on.
    The errors of [Open] and [Create] are dropped; after a failed [Open]
    the source is a nil interface and [src.Close()] panics. *)
Fixpoint stageInputs (tempDir : string) (i : nat) (files : list FileHeader)
    (isImageMerge : bool) (inputPaths : list string) : M (bool * list string) :=
  match files with
  | [] => ret (isImageMerge, inputPaths)
  | fileHeader :: rest =>
      let ext := ToLower (GoFilepath.Ext (Filename fileHeader)) in
      let isImageMerge := if isImageExt ext then true else isImageMerge in
      emit (EvOpenUpload (Filename fileHeader)) ;;
      let path := GoFilepath.Join
                    [tempDir; "input_" +:+ GoFmt.formatInt (Z.of_nat i) +:+ ext] in
      _ ← os_Create w path;
      (if isNil (w_openUpload w (Filename fileHeader))
       then emit (EvCopyIn path)
       else (fun s => (Panic, s))) ;;
      stageInputs tempDir (S i) rest isImageMerge (inputPaths ++ [path])
  end.

Definition HandleMerge (r : Request) : M unit :=
  If (negb (String.eqb (Method r) "POST"))
    (http_Error "Method not allowed" StatusMethodNotAllowed ;; return_) ;;
  If (negb (parseOk r))
    (http_Error "Invalid form" StatusBadRequest ;; return_) ;;
  let files := formFiles r in
  If (List.length files <? 2)%nat
    (http_Error "At least 2 files required for merge" StatusBadRequest ;; return_) ;;
  let reqID := w_uuid w in
  let tempDir := GoFilepath.Join ["tmp"; reqID] in
  _ ← os_MkdirAll w tempDir;
  '(isImageMerge, inputPaths) ← stageInputs tempDir 0 files false [];
  let outputPath := GoFilepath.Join [tempDir; "merged.pdf"] in
  err ← (if isImageMerge : bool
         then ImageToPDFSync w (EngineManager h) inputPaths outputPath
         else MergePDFsSync w (EngineManager h) inputPaths outputPath);
  If (negb (isNil err))
    (os_RemoveAll tempDir ;;
     http_Error ("Merge failed: " +:+ default "<nil>" err) StatusInternalServerError ;;
     return_) ;;
  callFn (serveAndCleanup outputPath tempDir).

Definition HandleRotate (r : Request) : M unit :=
  If (negb (String.eqb (Method r) "POST"))
    (http_Error "Method not allowed" StatusMethodNotAllowed ;; return_) ;;
  If (negb (parseOk r))
    (http_Error "Invalid form" StatusBadRequest ;; return_) ;;
  header ← match formFile r with
           | Some header => ret header
           | None => http_Error "Missing file" StatusBadRequest ;; return_
           end;
  let angleStr := FormValue r "angle" in
  let angle := GoFmt.Sscanf_d angleStr 0 in
  let angle := if angle =? 0 then 90 (* Default *) else angle in
  let reqID := w_uuid w in
  let tempDir := GoFilepath.Join ["tmp"; reqID] in
  _ ← os_MkdirAll w tempDir;
  let inputPath := GoFilepath.Join [tempDir; Filename header] in
  _ ← os_Create w inputPath;
  _ ← io_CopyIn w inputPath;
  let outputPath := GoFilepath.Join [tempDir; "rotated.pdf"] in
  err ← RotatePDF w inputPath outputPath angle;
  If (negb (isNil err))
    (os_RemoveAll tempDir ;;
     http_Error "Rotation failed" StatusInternalServerError ;;
     return_) ;;
  callFn (serveAndCleanup outputPath tempDir).

(** The files of a merge request, as the loop of [HandleMerge] sees
    them: whether a name has an image extension, and where the file with
    index [i] is staged. *)
Definition isImageName (fileHeader : FileHeader) : bool :=
  isImageExt (ToLower (GoFilepath.Ext (Filename fileHeader))).

Definition stagedPath (i : nat) (fileHeader : FileHeader) : string :=
  GoFilepath.Join
    [workDirOf;
     "input_" +:+ GoFmt.formatInt (Z.of_nat i)
     +:+ ToLower (GoFilepath.Ext (Filename fileHeader))].

Fixpoint stagedPathsFrom (i : nat) (files : list FileHeader) : list string :=
  match files with
  | [] => []
  | fileHeader :: rest => stagedPath i fileHeader :: stagedPathsFrom (S i) rest
  end.

End Handlers.

(** The server as [main] builds it, and one request served by it,
    starting with the given paths on disk. *)
Definition theHandler (w : World) (numCPU : Z) : ConversionHandler :=
  NewConversionHandler (NewEngineManager w numCPU).

Definition runConvert (unicodeLower : string -> string) (w : World) (numCPU : Z)
    (r : Request) (files : gset string) : Step unit * Sys :=
  HandleConvert unicodeLower w (theHandler w numCPU) r (initSys files).

Definition runMerge (unicodeLower : string -> string) (w : World) (numCPU : Z)
    (r : Request) (files : gset string) : Step unit * Sys :=
  HandleMerge unicodeLower w (theHandler w numCPU) r (initSys files).

Definition runRotate (w : World) (r : Request) (files : gset string)
  : Step unit * Sys :=
  HandleRotate w r (initSys files).

End handlers.
Export handlers.

(** ** The routing table of the specification *)

Module Spec.

(** The v1 routing table, row by row as the specification prints it:
    the source formats, the target formats and the engine. It is the
    second definition the router is compared with; nothing of the code
    went into it. *)
Definition routingRows : list (list string * list string * Engine) :=
  [ (["jpg"; "jpeg"; "png"], ["pdf"], ImageMagick);
    (["pdf"], ["jpg"; "jpeg"; "png"], Poppler);
    (["docx"; "ppt"; "xlsx"; "csv"; "html"; "txt"], ["pdf"], LibreOffice);
    (["pdf"], ["docx"; "xlsx"; "ppt"], LibreOffice);
    (["md"; "markdown"; "epub"], ["pdf"], Pandoc);
    (["pdf"], ["txt"], Poppler) ].

Definition rowHas (source target : string)
    (row : list string * list string * Engine) : bool :=
  existsb (String.eqb source) (fst (fst row))
  && existsb (String.eqb target) (snd (fst row)).

(** The engine of the first row that lists the pair, if any. *)
Definition routingTable (source target : string) : option Engine :=
  match List.find (rowHas source target) routingRows with
  | Some row => Some (snd row)
  | None => None
  end.

(** Every pair the table lists, with its engine. *)
Definition listedPairs : list (string * string * Engine) :=
  flat_map (fun row =>
    flat_map (fun source =>
      List.map (fun target => (source, target, snd row)) (snd (fst row)))
      (fst (fst row))) routingRows.

End Spec.

(** ** Concrete worlds and jobs *)

Module Scenarios.

Definition reqID : string := "7c9e6679".

Definition workDir : string := "tmp/7c9e6679".

(** Every system call and every tool succeeds; no file matches a
    pattern. *)
Definition calmWorld : World :=
  {| w_uuid := reqID;
     w_mkdirAll := fun _ => None;
     w_create := fun _ => None;
     w_copyIn := fun _ => None;
     w_openUpload := fun _ => None;
     w_open := fun _ => None;
     w_notExist := fun _ => false;
     w_getwd := ("/app", None);
     w_exec := fun _ _ => ("", None);
     w_glob := fun _ => [];
     w_fate := fun _ => Handled |}.

(** pdftoppm runs with the flag -jpeg and succeeds; it names the page it
    wrote output-1.jpg, whatever the requested format token was, so that
    only a pattern ending in .jpg finds it. No other file can be opened
    or matched. *)
Definition jpegWorld : World :=
  {| w_uuid := reqID;
     w_mkdirAll := fun _ => None;
     w_create := fun _ => None;
     w_copyIn := fun _ => None;
     w_openUpload := fun _ => None;
     w_open := fun p =>
       if String.eqb p "tmp/7c9e6679/output-1.jpg" then None
       else Some ("open " +:+ p +:+ ": no such file or directory");
     w_notExist := fun _ => false;
     w_getwd := ("/app", None);
     w_exec := fun _ _ => ("", None);
     w_glob := fun pattern =>
       if String.eqb pattern "tmp/7c9e6679/output*.jpg"
       then ["tmp/7c9e6679/output-1.jpg"] else [];
     w_fate := fun _ => Handled |}.

(** The office suite converts report.docx and writes report.pdf into the
    working directory. *)
Definition officeWorld : World :=
  {| w_uuid := reqID;
     w_mkdirAll := fun _ => None;
     w_create := fun _ => None;
     w_copyIn := fun _ => None;
     w_openUpload := fun _ => None;
     w_open := fun _ => None;
     w_notExist := fun _ => false;
     w_getwd := ("/app", None);
     w_exec := fun _ _ => ("", None);
     w_glob := fun pattern =>
       if String.eqb pattern "tmp/7c9e6679/*.pdf"
       then ["tmp/7c9e6679/report.pdf"] else [];
     w_fate := fun _ => Handled |}.

(** Every external tool exits with status 1. *)
Definition brokenTools : World :=
  {| w_uuid := reqID;
     w_mkdirAll := fun _ => None;
     w_create := fun _ => None;
     w_copyIn := fun _ => None;
     w_openUpload := fun _ => None;
     w_open := fun _ => None;
     w_notExist := fun _ => false;
     w_getwd := ("/app", None);
     w_exec := fun _ _ => ("cannot read input", Some "exit status 1");
     w_glob := fun _ => [];
     w_fate := fun _ => Handled |}.

(** The upload cannot be written into the working directory. *)
Definition fullDisk : World :=
  {| w_uuid := reqID;
     w_mkdirAll := fun _ => None;
     w_create := fun _ => Some "no space left on device";
     w_copyIn := fun _ => Some "no space left on device";
     w_openUpload := fun _ => None;
     w_open := fun _ => None;
     w_notExist := fun _ => false;
     w_getwd := ("/app", None);
     w_exec := fun _ _ => ("", None);
     w_glob := fun _ => [];
     w_fate := fun _ => Handled |}.

Definition jobTo (from to : string) (name : string) : Job :=
  {| ID := reqID; InputPath := GoFilepath.Join [workDir; name]; OutputPath := "";
     FromFormat := from; ToFormat := to; TempDir := workDir |}.

(** The Result of a compression in [brokenTools]. *)
Definition failedCompress : JobResult :=
  {| Success := false;
     Error := Some "Ghostscript failed: exit status 1, output: cannot read input";
     Path := "tmp/7c9e6679/output.pdf" |}.

Definition upload (name : string) : FileHeader := {| Filename := name |}.

Definition convertRequest (name from to : string) : Request :=
  {| Method := "POST"; parseOk := true; formFile := Some (upload name);
     formFiles := [];
     formValues := {[ "from" := from; "to" := to ]} |}.

Definition rotateRequest (name : string) (angle : option string) : Request :=
  {| Method := "POST"; parseOk := true; formFile := Some (upload name);
     formFiles := [];
     formValues := match angle with
                   | Some a => {[ "angle" := a ]}
                   | None => ∅
                   end |}.

Definition mergeRequest (names : list string) : Request :=
  {| Method := "POST"; parseOk := true; formFile := None;
     formFiles := List.map upload names;
     formValues := ∅ |}.

End Scenarios.

(** ** Tactics of the proofs *)

(** Case analysis on a comparison of strings; in the case of equality
    the string is replaced by the literal. *)
Ltac split_eqb a s :=
  let E := fresh "E" in
  destruct (String.eqb a s) eqn:E;
  [ apply String.eqb_eq in E; subst a; cbn | ].

(** Symbolic execution of a handler: the primitives are unfolded, then
    the run is computed with the path functions and the router kept
    folded. *)
Ltac unfold_prims :=
  unfold os_MkdirAll, os_Create, io_CopyIn, os_Open, io_CopyOut, Cleanup,
    os_RemoveAll, callFn, make_chan, recv, mbind, M_bind, bind, If, ret,
    return_, http_Error, emit, setFs.

Ltac run :=
  cbn -[GoFilepath.Join selectPool enqueue workDirOf String.append].

(** ** The rest of package handlers, and what it calls *)

(** More readings of a trace: the files streamed to the client, and the
    texts of the error responses. *)
Definition streamed (tr : list Event) : list string :=
  flat_map (fun e => match e with EvCopyOut p => [p] | _ => [] end) tr.

Definition messages (tr : list Event) : list string :=
  flat_map (fun e => match e with EvHttpError m _ => [m] | _ => [] end) tr.

(** The events of a pool handler before its send: directories made,
    commands run, patterns searched. *)
Definition toolEvent (e : Event) : bool :=
  match e with
  | EvMkdirAll _ | EvExec _ _ | EvGlob _ => true
  | _ => false
  end.

(** [runsTools m P]: [m] runs to its end with a value that satisfies [P],
    leaves the channel alone and adds tool events only. *)
Definition runsTools {A : Type} (m : M A) (P : A -> Prop) : Prop :=
  forall s, exists a tr f,
    m s = (Next a, {| fs := f; chan := chan s; trace := trace s ++ tr |})
    /\ forallb toolEvent tr = true /\ P a.

(** [deliversOne m]: started with an empty result channel, [m] runs to
    its end; it adds tool events and then the send of one Result, which
    the channel holds afterwards. *)
Definition deliversOne (m : M unit) : Prop :=
  forall s, chan s = [] -> exists r tr f,
    m s = (Next tt, {| fs := f; chan := [r]; trace := trace s ++ tr ++ [EvSend r] |})
    /\ forallb toolEvent tr = true.

(** The events that neither remove, nor stream, nor answer. *)
Definition silent (e : Event) : bool :=
  match e with
  | EvRemoveAll _ | EvHttpError _ _ | EvCopyOut _ => false
  | _ => true
  end.

(** How the run of a request that did work should end: with the stream
    of one file followed by one removal, or with one removal followed by
    one error response; before that, nothing was removed, streamed or
    answered. *)
Definition endsCleanly (tr : list Event) : bool :=
  match rev tr with
  | EvRemoveAll _ :: EvCopyOut _ :: pre => forallb silent pre
  | EvHttpError _ _ :: EvRemoveAll _ :: pre => forallb silent pre
  | _ => false
  end.

(** The places where [LibreOfficeConvert] looks for the office suite, in
    the order of its tests. *)
Definition sofficeCandidates : list string :=
  ["/opt/homebrew/bin/soffice";
   "/Applications/LibreOffice.app/Contents/MacOS/soffice";
   "/usr/bin/libreoffice";
   "/usr/bin/soffice"].

Module GoStringsMore.

(** [strings.HasSuffix]. *)
Definition HasSuffix (s suffix : string) : bool :=
  (String.length suffix <=? String.length s)%nat
  && String.eqb
       (String.substring (String.length s - String.length suffix)
                         (String.length suffix) s)
       suffix.

End GoStringsMore.

Module handlersRest.

Section Handlers.

Variable unicodeLower : string -> string.
Variable w : World.
Variable h : ConversionHandler.

(** [utils.ZipFiles(zipPath, files)] is no part of the sources at hand.
    Its error is this parameter; when it is nil the archive exists. *)
Variable zipError : string -> list string -> error.

Definition ZipFiles (zipPath : string) (files : list string) : M error :=
  If (isNil (zipError zipPath files)) (setFs (fun paths => {[ zipPath ]} ∪ paths)) ;;
  ret (zipError zipPath files).

(** *** Package converters, continued *)

Definition SplitPDF (inputPath outputPattern : string) : M error :=
  runTool w "pdfseparate" "pdfseparate" [inputPath; outputPattern].

Definition ExtractImages (inputPath outputPrefix : string) : M error :=
  runTool w "pdfimages" "pdfimages" ["-all"; inputPath; outputPrefix].

Definition ReorderPDF (inputPath outputPath pageOrder : string) : M error :=
  runTool w "qpdf reorder" "qpdf"
    [inputPath; "--pages"; "."; pageOrder; "--"; outputPath].

(** *** The handlers *)

Definition handleGenericPDFOperation (r : Request) (op : string) : M unit :=
  If (negb (String.eqb (Method r) "POST"))
    (http_Error "Method not allowed" StatusMethodNotAllowed ;; return_) ;;
  If (negb (parseOk r))
    (http_Error "Invalid form" StatusBadRequest ;; return_) ;;
  header ← match formFile r with
           | Some header => ret header
           | None => http_Error "Missing file" StatusBadRequest ;; return_
           end;
  let reqID := w_uuid w in
  let tempDir := GoFilepath.Join ["tmp"; reqID] in
  _ ← os_MkdirAll w tempDir;
  let inputPath := GoFilepath.Join [tempDir; Filename header] in
  _ ← os_Create w inputPath;
  _ ← io_CopyIn w inputPath;
  make_chan ;;
  let job := {| ID := reqID; InputPath := inputPath; OutputPath := "";
                FromFormat := ""; ToFormat := "pdf" (* Default *);
                TempDir := tempDir |} in
  let '(pool, job) :=
    if String.eqb op "compress" then (Ghostscript, job)
    else if String.eqb op "extract-text" then
      (Poppler, {| ID := ID job; InputPath := InputPath job;
                   OutputPath := OutputPath job; FromFormat := FromFormat job;
                   ToFormat := "txt"; TempDir := TempDir job |})
    else (Poppler, job) in
  enqueue w h pool job ;;
  result ← recv;
  If (negb (Success result))
    (os_RemoveAll tempDir ;;
     http_Error "Operation failed" StatusInternalServerError ;;
     return_) ;;
  callFn (serveAndCleanup w (Path result) tempDir).

Definition HandleCompress (r : Request) : M unit :=
  handleGenericPDFOperation r "compress".

Definition HandleExtractText (r : Request) : M unit :=
  handleGenericPDFOperation r "extract-text".

Definition HandleSplit (r : Request) : M unit :=
  If (negb (String.eqb (Method r) "POST"))
    (http_Error "Method not allowed" StatusMethodNotAllowed ;; return_) ;;
  If (negb (parseOk r))
    (http_Error "Invalid form" StatusBadRequest ;; return_) ;;
  header ← match formFile r with
           | Some header => ret header
           | None => http_Error "Missing file" StatusBadRequest ;; return_
           end;
  let reqID := w_uuid w in
  let tempDir := GoFilepath.Join ["tmp"; reqID] in
  _ ← os_MkdirAll w tempDir;
  let inputPath := GoFilepath.Join [tempDir; Filename header] in
  _ ← os_Create w inputPath;
  _ ← io_CopyIn w inputPath;
  (* Split PDF *)
  let outputPattern := GoFilepath.Join [tempDir; "page-%d.pdf"] in
  err ← SplitPDF inputPath outputPattern;
  If (negb (isNil err))
    (os_RemoveAll tempDir ;;
     http_Error "Split failed" StatusInternalServerError ;;
     return_) ;;
  (* Zip the pages *)
  files ← filepath_Glob w (GoFilepath.Join [tempDir; "page-*.pdf"]);
  let zipPath := GoFilepath.Join [tempDir; "pages.zip"] in
  err ← ZipFiles zipPath files;
  If (negb (isNil err))
    (os_RemoveAll tempDir ;;
     http_Error "Zipping failed" StatusInternalServerError ;;
     return_) ;;
  callFn (serveAndCleanup w zipPath tempDir).

(** The loop of [HandleExtractImages] over the entries of the working
    directory: everything but the input file and the archives. *)
Definition imagesAmong (inputPath : string) (allFiles : list string) : list string :=
  List.filter
    (fun f => negb (String.eqb f inputPath)
              && negb (GoStringsMore.HasSuffix f ".zip"))
    allFiles.

Definition HandleExtractImages (r : Request) : M unit :=
  If (negb (String.eqb (Method r) "POST"))
    (http_Error "Method not allowed" StatusMethodNotAllowed ;; return_) ;;
  If (negb (parseOk r))
    (http_Error "Invalid form" StatusBadRequest ;; return_) ;;
  header ← match formFile r with
           | Some header => ret header
           | None => http_Error "Missing file" StatusBadRequest ;; return_
           end;
  let reqID := w_uuid w in
  let tempDir := GoFilepath.Join ["tmp"; reqID] in
  _ ← os_MkdirAll w tempDir;
  let inputPath := GoFilepath.Join [tempDir; Filename header] in
  _ ← os_Create w inputPath;
  _ ← io_CopyIn w inputPath;
  (* Extract images *)
  let outputPrefix := GoFilepath.Join [tempDir; "img"] in
  err ← ExtractImages inputPath outputPrefix;
  If (negb (isNil err))
    (os_RemoveAll tempDir ;;
     http_Error "Extraction failed" StatusInternalServerError ;;
     return_) ;;
  allFiles ← filepath_Glob w (GoFilepath.Join [tempDir; "*"]);
  let images := imagesAmong inputPath allFiles in
  If (List.length images =? 0)%nat
    (os_RemoveAll tempDir ;;
     http_Error "No images found in PDF" StatusNotFound ;;
     return_) ;;
  let zipPath := GoFilepath.Join [tempDir; "images.zip"] in
  err ← ZipFiles zipPath images;
  If (negb (isNil err))
    (os_RemoveAll tempDir ;;
     http_Error "Zipping failed" StatusInternalServerError ;;
     return_) ;;
  callFn (serveAndCleanup w zipPath tempDir).

Definition HandleReorder (r : Request) : M unit :=
  If (negb (String.eqb (Method r) "POST"))
    (http_Error "Method not allowed" StatusMethodNotAllowed ;; return_) ;;
  If (negb (parseOk r))
    (http_Error "Invalid form" StatusBadRequest ;; return_) ;;
  header ← match formFile r with
           | Some header => ret header
           | None => http_Error "Missing file" StatusBadRequest ;; return_
           end;
  let order := FormValue r "order" in
  If (String.eqb order "")
    (http_Error "Missing order parameter" StatusBadRequest ;; return_) ;;
  let reqID := w_uuid w in
  let tempDir := GoFilepath.Join ["tmp"; reqID] in
  _ ← os_MkdirAll w tempDir;
  let inputPath := GoFilepath.Join [tempDir; Filename header] in
  _ ← os_Create w inputPath;
  _ ← io_CopyIn w inputPath;
  let outputPath := GoFilepath.Join [tempDir; "reordered.pdf"] in
  err ← ReorderPDF inputPath outputPath order;
  If (negb (isNil err))
    (os_RemoveAll tempDir ;;
     http_Error "Reordering failed" StatusInternalServerError ;;
     return_) ;;
  callFn (serveAndCleanup w outputPath tempDir).

(** *** The endpoints *)

(** The handlers [main] registers, by the path it registers them under:
    /convert, /merge, /split, /compress, /extract/text, /extract/images,
    /rotate and /reorder. *)
Inductive Endpoint : Type :=
| AtConvert
| AtMerge
| AtSplit
| AtCompress
| AtExtractText
| AtExtractImages
| AtRotate
| AtReorder.

Definition handlerOf (e : Endpoint) : Request -> M unit :=
  match e with
  | AtConvert => HandleConvert unicodeLower w h
  | AtMerge => HandleMerge unicodeLower w h
  | AtSplit => HandleSplit
  | AtCompress => HandleCompress
  | AtExtractText => HandleExtractText
  | AtExtractImages => HandleExtractImages
  | AtRotate => HandleRotate w
  | AtReorder => HandleReorder
  end.

(** What a handler checks before it makes its working directory. *)
Definition accepted (e : Endpoint) (r : Request) : bool :=
  String.eqb (Method r) "POST" && parseOk r
  && match e with
     | AtMerge => (2 <=? List.length (formFiles r))%nat
     | AtConvert =>
         match formFile r with
         | Some _ => negb (String.eqb (FormValue r "from") "")
                     && negb (String.eqb (FormValue r "to") "")
         | None => false
         end
     | AtReorder =>
         match formFile r with
         | Some _ => negb (String.eqb (FormValue r "order") "")
         | None => false
         end
     | _ => match formFile r with Some _ => true | None => false end
     end.

End Handlers.

(** One request served at an endpoint by the server of [main]. *)
Definition serve (unicodeLower : string -> string) (w : World) (numCPU : Z)
    (zipError : string -> list string -> error) (e : Endpoint) (r : Request)
    (files : gset string) : Step unit * Sys :=
  handlerOf unicodeLower w (theHandler w numCPU) zipError e r (initSys files).

End handlersRest.
Export handlersRest.

(** ** Package workers, continued: shutdown and the whole manager *)

Module workersRest.

Definition isExited (g : Goroutine) : bool :=
  match g with Exited => true | _ => false end.

(** [Wait]: [close(p.JobQueue)] and then [p.wg.Wait()], which returns
    once every goroutine has run its deferred [wg.Done]. *)
Definition waitReturned (c : Config) : bool :=
  closed c && forallb isExited (goroutines c).

(** [EngineManager.Start(ctx)] starts the five pools with one and the
    same context. The manager is then five configurations; a pool moves
    on its own in every way but cancellation, which reaches all five at
    once. *)
Definition StartAll (m : workers.EngineManager) : Engine -> Config :=
  fun e => Start (poolOf m e).

Definition cancelled (c : Config) : Config :=
  {| JobQueue := JobQueue c; closed := closed c; ctxDone := true;
     goroutines := goroutines c |}.

Definition setPool (mc : Engine -> Config) (e : Engine) (c : Config)
  : Engine -> Config :=
  fun e' => if decide (e' = e) then c else mc e'.

Inductive mstep : (Engine -> Config) -> (Engine -> Config) -> Prop :=
| mstep_pool mc e c' :
    step (mc e) c' ->
    ctxDone c' = ctxDone (mc e) ->
    mstep mc (setPool mc e c')
| mstep_cancel mc :
    mstep mc (fun e => cancelled (mc e)).

Definition engines : list Engine :=
  [LibreOffice; Poppler; ImageMagick; Pandoc; Ghostscript].

(** The handler invocations that run at this moment, over all pools. *)
Definition runningAll (mc : Engine -> Config) : nat :=
  list_sum (List.map (fun e => running (mc e)) engines).

(** Without cancellation a goroutine returns only from a closed and
    empty queue, and from then on the queue stays closed and empty. *)
Definition drained (c : Config) : Prop :=
  ctxDone c = false ->
  (exists i, goroutines c !! i = Some Exited) ->
  closed c = true /\ JobQueue c = [].

(** Every pool of the manager has [n] goroutines, and the pools agree on
    the context. *)
Definition sized (n : nat) (mc : Engine -> Config) : Prop :=
  (forall e, List.length (goroutines (mc e)) = n)
  /\ (forall e e', ctxDone (mc e) = ctxDone (mc e')).

End workersRest.
Export workersRest.

(** ** More requests and worlds *)

Module MoreScenarios.
Import Scenarios.

(** A POST with one file part and no form value. *)
Definition fileRequest (name : string) : Request :=
  {| Method := "POST"; parseOk := true; formFile := Some (upload name);
     formFiles := []; formValues := ∅ |}.

Definition reorderRequest (name order : string) : Request :=
  {| Method := "POST"; parseOk := true; formFile := Some (upload name);
     formFiles := []; formValues := {[ "order" := order ]} |}.

(** A GET with a file part and both format tokens. *)
Definition getRequest (name from to : string) : Request :=
  {| Method := "GET"; parseOk := true; formFile := Some (upload name);
     formFiles := []; formValues := {[ "from" := from; "to" := to ]} |}.

(** An archiver that never fails. *)
Definition zipWorks : string -> list string -> error := fun _ _ => None.


(** The pools are gone: the context was cancelled and every goroutine
    has returned, so a Job that is sent stays in its queue. *)
Definition deadPools : World :=
  {| w_uuid := reqID;
     w_mkdirAll := fun _ => None;
     w_create := fun _ => None;
     w_copyIn := fun _ => None;
     w_openUpload := fun _ => None;
     w_open := fun _ => None;
     w_notExist := fun _ => false;
     w_getwd := ("/app", None);
     w_exec := fun _ _ => ("", None);
     w_glob := fun _ => [];
     w_fate := fun _ => Stranded |}.

End MoreScenarios.

(** * Part II: theorems *)

(** ** Facts about the library functions *)

Module GoStringsFacts.
Import GoStrings.

Lemma lowerByte_idem (c : ascii) : lowerByte (lowerByte c) = lowerByte c.
Proof. destruct c as [[] [] [] [] [] [] [] []]; reflexivity. Qed.

Lemma lowerByte_ascii (c : ascii) : (code (lowerByte c) <? 128) = (code c <? 128).
Proof. destruct c as [[] [] [] [] [] [] [] []]; reflexivity. Qed.

Lemma lowerASCII_idem (s : string) : lowerASCII (lowerASCII s) = lowerASCII s.
Proof.
  induction s as [|c r IH]; cbn; [reflexivity|].
  now rewrite lowerByte_idem, IH.
Qed.

Lemma isASCII_lowerASCII (s : string) : isASCII (lowerASCII s) = isASCII s.
Proof.
  induction s as [|c r IH]; cbn; [reflexivity|].
  now rewrite lowerByte_ascii, IH.
Qed.

(** On a string of ASCII bytes [ToLower] does not ask the Unicode tables,
    and lowering twice is lowering once. *)
Lemma ToLower_ascii_idem (uL : string -> string) (s : string) :
  isASCII s = true -> ToLower uL (ToLower uL s) = ToLower uL s.
Proof.
  intros Hs. unfold ToLower. rewrite Hs, isASCII_lowerASCII, Hs.
  apply lowerASCII_idem.
Qed.

(** The instance [caselessLower] makes [ToLower] idempotent. *)
Lemma ToLower_caseless_idem (s : string) :
  ToLower caselessLower (ToLower caselessLower s) = ToLower caselessLower s.
Proof.
  assert (H : forall t, ToLower caselessLower t = lowerASCII t).
  { intros t. unfold ToLower, caselessLower. now destruct (isASCII t). }
  rewrite !H. apply lowerASCII_idem.
Qed.

Example ToLower_mixed (uL : string -> string) : ToLower uL "MarkDown" = "markdown".
Proof. reflexivity. Qed.

End GoStringsFacts.

Module GoFilepathFacts.
Import GoStrings GoFilepath.

Example Join_tmp : Join ["tmp"; "3f2a-77"] = "tmp/3f2a-77".
Proof. reflexivity. Qed.

Example Join_dotdot : Join ["a/../b/"; "./c"] = "b/c".
Proof. reflexivity. Qed.

Example Join_empty_dir : Join [""; "output.pdf"] = "output.pdf".
Proof. reflexivity. Qed.

Example Clean_rooted : Clean "/../a//b/./.." = "/a".
Proof. reflexivity. Qed.

Example Clean_up : Clean "../../a/.." = "../..".
Proof. reflexivity. Qed.

Example Ext_upper : Ext "holiday.photo.JPG" = ".JPG".
Proof. reflexivity. Qed.

Example Ext_none : Ext "a.b/readme" = "".
Proof. reflexivity. Qed.

Example Base_file : Base "tmp/77/output-1.jpg" = "output-1.jpg".
Proof. reflexivity. Qed.

Lemma append_cons (c : ascii) (s t : string) :
  String c s +:+ t = String c (s +:+ t).
Proof. reflexivity. Qed.

Lemma append_nil_r (s : string) : s +:+ "" = s.
Proof. induction s as [|c s IH]; [reflexivity|]. now rewrite append_cons, IH. Qed.

Lemma append_assoc (a b c : string) : (a +:+ b) +:+ c = a +:+ (b +:+ c).
Proof.
  induction a as [|x a IH]; [reflexivity|]. now rewrite !append_cons, IH.
Qed.

Lemma append_eq_nil (a b : string) : a +:+ b = "" -> a = "" /\ b = "".
Proof. destruct a; [intros H; split; [reflexivity | exact H] | discriminate]. Qed.

Lemma concat_snoc (l : list string) (n : string) :
  String.concat "/" (l ++ [n])
  = match l with [] => "" | _ => String.concat "/" l +:+ "/" end +:+ n.
Proof.
  induction l as [|x l IH]; [reflexivity|].
  destruct l as [|y l].
  - cbn. now rewrite append_assoc.
  - change (String.concat "/" ((x :: y :: l) ++ [n]))
      with (x +:+ "/" +:+ String.concat "/" ((y :: l) ++ [n])).
    rewrite IH.
    change (String.concat "/" (x :: y :: l))
      with (x +:+ "/" +:+ String.concat "/" (y :: l)).
    now rewrite !append_assoc.
Qed.

Lemma concat_nonempty (l : list string) :
  l <> [] -> Forall (fun e => e <> "") l -> String.concat "/" l <> "".
Proof.
  destruct l as [|x l]; [congruence|]. intros _ H.
  apply Forall_cons_1 in H as [Hx _].
  destruct l; cbn; [exact Hx|].
  intros E. apply append_eq_nil in E as [E _]. contradiction.
Qed.

(** [Clean] never pushes an empty element. *)
Lemma cleanStep_nonempty rooted st e :
  Forall (fun x => x <> "") st -> Forall (fun x => x <> "") (cleanStep rooted st e).
Proof.
  intros H. unfold cleanStep.
  destruct (String.eqb_spec e "") as [->|Hne]; cbn; [exact H|].
  destruct (String.eqb e "."); cbn; [exact H|].
  destruct (String.eqb e "..").
  - destruct st as [|top rest]; [destruct rooted; auto|].
    destruct (String.eqb top "..").
    + destruct rooted; auto.
    + now apply Forall_cons_1 in H.
  - auto.
Qed.

Lemma fold_cleanStep_nonempty rooted es st :
  Forall (fun x => x <> "") st ->
  Forall (fun x => x <> "") (fold_left (cleanStep rooted) es st).
Proof.
  revert st. induction es as [|e es IH]; intros st H; cbn; [exact H|].
  apply IH, cleanStep_nonempty, H.
Qed.

Lemma Clean_nonempty (p : string) : Clean p <> "".
Proof.
  unfold Clean. destruct (String.eqb p ""); [discriminate|].
  pose proof (fold_cleanStep_nonempty (isRooted p) (elems p) [] ltac:(constructor)) as H.
  fold (cleanElems (isRooted p) (elems p)) in H.
  unfold render. destruct (isRooted p); [discriminate|].
  destruct (cleanElems false (elems p)) as [|x st] eqn:E; [discriminate|].
  apply concat_nonempty.
  - cbn. intros E'. now apply app_eq_nil in E' as [_ ?].
  - apply Forall_rev. exact H.
Qed.

(** A working directory made by [Join] from a first element that is not
    empty is never the empty string, so [Job.Cleanup] removes it. *)
Lemma Join_nonempty (e : string) (rest : list string) :
  e <> "" -> Join (e :: rest) <> "".
Proof.
  intros He. cbn [Join].
  destruct (String.eqb_spec e ""); [contradiction|]. apply Clean_nonempty.
Qed.

Lemma elems_not_nil (s : string) : elems s <> [].
Proof.
  induction s as [|c r IH]; cbn; [discriminate|].
  destruct (Ascii.eqb c Separator); [discriminate|].
  destruct (elems r); discriminate.
Qed.

Lemma elems_plain (n : string) :
  containsByte Separator n = false -> elems n = [n].
Proof.
  induction n as [|c r IH]; cbn; [reflexivity|].
  intros H. apply orb_false_elim in H as [Hc Hr].
  rewrite Hc, (IH Hr). reflexivity.
Qed.

Lemma elems_app_sep (d n : string) :
  containsByte Separator n = false ->
  elems (d +:+ "/" +:+ n) = elems d ++ [n].
Proof.
  intros Hn. induction d as [|c r IH].
  - change ("" +:+ "/" +:+ n) with (String Separator n).
    cbn. now rewrite (elems_plain n Hn).
  - rewrite append_cons. cbn. rewrite IH.
    destruct (Ascii.eqb c Separator); [reflexivity|].
    pose proof (elems_not_nil r) as Hr.
    destruct (elems r); [contradiction | reflexivity].
Qed.

Lemma plainName_spec (n : string) :
  plainName n = true ->
  n <> "" /\ n <> "." /\ n <> ".." /\ containsByte Separator n = false.
Proof.
  unfold plainName. intros H.
  apply andb_prop in H as [H H4]. apply andb_prop in H as [H H3].
  apply andb_prop in H as [H1 H2].
  apply negb_true_iff in H1, H2, H3, H4.
  apply String.eqb_neq in H1, H2, H3. auto.
Qed.

Lemma cleanStep_plain rooted st n :
  plainName n = true -> cleanStep rooted st n = n :: st.
Proof.
  intros H. apply plainName_spec in H as (H1 & H2 & H3 & _).
  apply String.eqb_neq in H1, H2, H3.
  unfold cleanStep. now rewrite H1, H2, H3.
Qed.

Lemma isRooted_plain (n : string) : plainName n = true -> isRooted n = false.
Proof.
  intros H. apply plainName_spec in H as (_ & _ & _ & H).
  destruct n as [|c r]; [reflexivity|]. cbn in *.
  now apply orb_false_elim in H as [H _].
Qed.

Lemma Clean_plain (n : string) : plainName n = true -> Clean n = n.
Proof.
  intros H. pose proof (plainName_spec n H) as (H1 & _ & _ & H4).
  unfold Clean. apply String.eqb_neq in H1. rewrite H1.
  rewrite (isRooted_plain n H), (elems_plain n H4).
  unfold cleanElems. cbn [fold_left]. rewrite (cleanStep_plain _ _ _ H).
  reflexivity.
Qed.

(** Joining a plain file name to a directory puts the name, unchanged,
    behind a prefix that only depends on the directory. *)
Lemma Join_plain (d n : string) :
  plainName n = true -> Join [d; n] = joinBase d +:+ n.
Proof.
  intros H. pose proof (plainName_spec n H) as (H1 & _ & _ & H4).
  unfold joinBase. cbn [Join].
  destruct (String.eqb_spec d "") as [->|Hd].
  - apply String.eqb_neq in H1. rewrite H1.
    change (String.concat "/" [n]) with n. now apply Clean_plain.
  - change (String.concat "/" [d; n]) with (d +:+ "/" +:+ n).
    unfold Clean.
    assert (Hp : String.eqb (d +:+ "/" +:+ n) "" = false).
    { apply String.eqb_neq. intros E. now apply append_eq_nil in E as [? _]. }
    assert (Hr : isRooted (d +:+ "/" +:+ n) = isRooted d).
    { destruct d; [contradiction | reflexivity]. }
    rewrite Hp, Hr, (elems_app_sep d n H4).
    unfold cleanElems. rewrite fold_left_app. cbn [fold_left].
    rewrite (cleanStep_plain _ _ _ H).
    unfold render. cbn [rev]. rewrite concat_snoc.
    destruct (isRooted d), (rev (fold_left _ (elems d) []));
      now rewrite ?append_assoc.
Qed.

Lemma inside_Join (d n : string) : plainName n = true -> inside (Join [d; n]) d.
Proof. intros H. exists n. auto. Qed.

(** Text appended to a joined plain name stays in the directory, as long
    as the longer name is plain too. *)
Lemma inside_Join_append (d n x : string) :
  plainName n = true -> plainName (n +:+ x) = true ->
  inside (Join [d; n] +:+ x) d.
Proof.
  intros Hn Hx. exists (n +:+ x). split; [exact Hx|].
  now rewrite (Join_plain d n Hn), (Join_plain d _ Hx), append_assoc.
Qed.

Lemma inside_nonempty (p d : string) : inside p d -> p <> "".
Proof.
  intros (n & Hn & ->). cbn [Join].
  apply plainName_spec in Hn as (H1 & _).
  destruct (String.eqb_spec d "").
  - apply String.eqb_neq in H1. rewrite H1. apply Clean_nonempty.
  - apply Clean_nonempty.
Qed.

(** A name that starts with a letter and has no separator is plain. *)
Lemma plainName_letter (c : ascii) (r : string) :
  Ascii.eqb c "."%char = false -> Ascii.eqb c Separator = false ->
  containsByte Separator r = false -> plainName (String c r) = true.
Proof.
  intros Hdot Hsep Hr. unfold plainName. cbn.
  rewrite Hdot, Hsep, Hr. reflexivity.
Qed.

End GoFilepathFacts.

(** ** The router *)

Module RouterFacts.
Import GoStrings Spec.

(** The chain of conditions of [selectPool], on tokens that are already
    lowered, decides exactly as the table of the specification. *)
Lemma selectPool_unfold (uL : string -> string) (from to : string) :
  selectPool uL from to
  = let a := ToLower uL from in
    let b := ToLower uL to in
    if (String.eqb a "jpg" || String.eqb a "png" || String.eqb a "jpeg")
       && String.eqb b "pdf"
    then Some ImageMagick
    else if String.eqb a "pdf"
            && (String.eqb b "jpg" || String.eqb b "png" || String.eqb b "jpeg")
    then Some Poppler
    else if (String.eqb a "docx" || String.eqb a "ppt" || String.eqb a "xlsx"
             || String.eqb a "csv" || String.eqb a "html")
            && String.eqb b "pdf"
    then Some LibreOffice
    else if String.eqb a "pdf"
            && (String.eqb b "docx" || String.eqb b "xlsx" || String.eqb b "ppt")
    then Some LibreOffice
    else if (String.eqb a "md" || String.eqb a "markdown" || String.eqb a "epub")
            && String.eqb b "pdf"
    then Some Pandoc
    else if (String.eqb a "txt" || String.eqb a "html" || String.eqb a "docx"
             || String.eqb a "ppt" || String.eqb a "xlsx" || String.eqb a "csv")
            && String.eqb b "pdf"
    then Some LibreOffice
    else if String.eqb a "pdf" && String.eqb b "txt"
    then Some Poppler
    else None.
Proof. reflexivity. Qed.

Lemma selectPool_lowered (uL : string -> string) (from to : string) :
  selectPool uL from to = routingTable (ToLower uL from) (ToLower uL to).
Proof.
  rewrite selectPool_unfold. cbv zeta.
  generalize (ToLower uL from) as a, (ToLower uL to) as b. intros a b.
  unfold routingTable, routingRows, rowHas. cbn [List.find existsb fst snd].
  split_eqb b "pdf".
  - split_eqb a "jpg"; [reflexivity|].
    split_eqb a "png"; [reflexivity|].
    split_eqb a "jpeg"; [reflexivity|].
    split_eqb a "pdf"; [reflexivity|].
    split_eqb a "docx"; [reflexivity|].
    split_eqb a "ppt"; [reflexivity|].
    split_eqb a "xlsx"; [reflexivity|].
    split_eqb a "csv"; [reflexivity|].
    split_eqb a "html"; [reflexivity|].
    split_eqb a "md"; [reflexivity|].
    split_eqb a "markdown"; [reflexivity|].
    split_eqb a "epub"; [reflexivity|].
    split_eqb a "txt"; [reflexivity|].
    reflexivity.
  - split_eqb a "pdf".
    + split_eqb b "jpg"; [reflexivity|].
      split_eqb b "png"; [reflexivity|].
      split_eqb b "jpeg"; [reflexivity|].
      split_eqb b "docx"; [reflexivity|].
      split_eqb b "xlsx"; [reflexivity|].
      split_eqb b "ppt"; [reflexivity|].
      split_eqb b "txt"; [reflexivity|].
      reflexivity.
    + rewrite !andb_false_r. reflexivity.
Qed.

(** The scenarios of the specification. *)
Example route_jpg_pdf (uL : string -> string) :
  selectPool uL "jpg" "pdf" = Some ImageMagick.
Proof. reflexivity. Qed.

Example route_pdf_docx (uL : string -> string) :
  selectPool uL "pdf" "docx" = Some LibreOffice.
Proof. reflexivity. Qed.

Example route_docx_png (uL : string -> string) :
  selectPool uL "docx" "png" = None.
Proof. reflexivity. Qed.

Example route_upper (uL : string -> string) :
  selectPool uL "JPG" "Pdf" = Some ImageMagick.
Proof. reflexivity. Qed.

(** C3. The router agrees with the v1 routing table of the
    specification. Every pair the table lists is sent to the pool of the
    engine its row names: jpg, jpeg, png to pdf go to the image engine;
    pdf to jpg, jpeg, png to the raster engine; docx, ppt, xlsx, csv, html,
    txt to pdf and pdf to docx, xlsx, ppt to the office-suite engine; md,
    markdown, epub to pdf to the markup engine; pdf to txt to the raster
    engine. For an arbitrary pair of strings the router answers what the
    table answers for the two tokens in lower case, the form in which the
    router compares them. So a pair of lower-case tokens that is not in
    the table gets no pool. *)
Theorem selectPool_routing_table (uL : string -> string) :
  Forall (fun p => selectPool uL (fst (fst p)) (snd (fst p)) = Some (snd p))
         listedPairs
  /\ (forall from to : string,
        selectPool uL from to = routingTable (ToLower uL from) (ToLower uL to))
  /\ (forall from to : string,
        ToLower uL from = from -> ToLower uL to = to ->
        routingTable from to = None -> selectPool uL from to = None).
Proof.
  split; [|split].
  - unfold listedPairs. cbn [routingRows flat_map List.map fst snd app].
    repeat (apply List.Forall_cons; [reflexivity|]). constructor.
  - apply selectPool_lowered.
  - intros from to Hf Ht Hnone. now rewrite selectPool_lowered, Hf, Ht.
Qed.

Lemma selectPool_routing_table_witness :
  selectPool caselessLower "docx" "png" = None.
Proof.
  apply (proj2 (proj2 (selectPool_routing_table caselessLower)) "docx" "png");
    reflexivity.
Defined.

(** C10. The router does not see the letter case of its inputs: a pair
    of format strings is routed as the pair of their lower-case forms.
    The hypothesis is the idempotence of [strings.ToLower], a property of
    the Unicode tables behind its non-ASCII path. *)
Theorem selectPool_case_invariant (uL : string -> string)
    (Hidem : forall s, ToLower uL (ToLower uL s) = ToLower uL s)
    (from to : string) :
  selectPool uL from to = selectPool uL (ToLower uL from) (ToLower uL to).
Proof.
  rewrite !selectPool_lowered. now rewrite !Hidem.
Qed.

Lemma selectPool_case_invariant_witness :
  selectPool caselessLower "DocX" "PDF"
  = selectPool caselessLower (ToLower caselessLower "DocX")
                             (ToLower caselessLower "PDF").
Proof.
  apply (selectPool_case_invariant caselessLower
           GoStringsFacts.ToLower_caseless_idem).
Defined.

(** For strings of ASCII bytes the invariance needs no assumption. *)
Lemma selectPool_case_invariant_ascii (uL : string -> string) (from to : string) :
  isASCII from = true -> isASCII to = true ->
  selectPool uL from to = selectPool uL (ToLower uL from) (ToLower uL to).
Proof.
  intros Hf Ht. rewrite !selectPool_lowered.
  now rewrite !GoStringsFacts.ToLower_ascii_idem.
Qed.

End RouterFacts.

(** ** A small program logic for the request monad *)

Module ProtocolFacts.

Lemma sys_eta (s : Sys) :
  s = {| fs := fs s; chan := chan s; trace := trace s ++ [] |}.
Proof. destruct s; cbn. now rewrite app_nil_r. Qed.

Lemma quiet_ret {A : Type} (a : A) (P : A -> Prop) : P a -> quiet (ret a) P.
Proof.
  intros HP s. exists a, [], (fs s). split; [|now split].
  unfold ret. now rewrite <- sys_eta.
Qed.

Lemma quiet_bind {A B : Type} (m : M A) (k : A -> M B)
    (P : A -> Prop) (Q : B -> Prop) :
  quiet m P -> (forall a, P a -> quiet (k a) Q) -> quiet (m ≫= k) Q.
Proof.
  intros Hm Hk s.
  destruct (Hm s) as (a & tr1 & f1 & E1 & B1 & Pa).
  destruct (Hk a Pa {| fs := f1; chan := chan s; trace := trace s ++ tr1 |})
    as (b & tr2 & f2 & E2 & B2 & Qb).
  exists b, (tr1 ++ tr2), f2. split; [|split; [|exact Qb]].
  - unfold mbind, M_bind, bind. rewrite E1, E2. cbn. now rewrite app_assoc.
  - rewrite forallb_app. now rewrite B1, B2.
Qed.

Lemma quiet_weaken {A : Type} (m : M A) (P Q : A -> Prop) :
  quiet m P -> (forall a, P a -> Q a) -> quiet m Q.
Proof.
  intros Hm HPQ s. destruct (Hm s) as (a & tr & f & E & Hb & Pa).
  exists a, tr, f. auto.
Qed.

Lemma quiet_emit (e : Event) : benign e = true -> quiet (emit e) (fun _ => True).
Proof.
  intros He s. exists tt, [e], (fs s). cbn. rewrite He. auto.
Qed.

Lemma quiet_setFs (g : gset string -> gset string) : quiet (setFs g) (fun _ => True).
Proof.
  intros s. exists tt, [], (g (fs s)). cbn. rewrite app_nil_r. auto.
Qed.

Lemma quiet_If (c : bool) (body : M unit) :
  quiet body (fun _ => True) -> quiet (If c body) (fun _ => True).
Proof. intros H. destruct c; cbn; [exact H | now apply quiet_ret]. Qed.

Section InWorld.

Variable w : World.

Lemma quiet_os_MkdirAll (p : string) :
  quiet (os_MkdirAll w p) (fun e => e = w_mkdirAll w p).
Proof.
  unfold os_MkdirAll.
  eapply quiet_bind; [now apply quiet_emit | intros _ _].
  eapply quiet_bind; [apply quiet_If, quiet_setFs | intros _ _].
  now apply quiet_ret.
Qed.

Lemma quiet_os_Create (p : string) :
  quiet (os_Create w p) (fun e => e = w_create w p).
Proof.
  unfold os_Create.
  eapply quiet_bind; [now apply quiet_emit | intros _ _].
  eapply quiet_bind; [apply quiet_If, quiet_setFs | intros _ _].
  now apply quiet_ret.
Qed.

Lemma quiet_io_CopyIn (p : string) :
  quiet (io_CopyIn w p) (fun e => e = w_copyIn w p).
Proof.
  unfold io_CopyIn.
  eapply quiet_bind; [now apply quiet_emit | intros _ _]. now apply quiet_ret.
Qed.

Lemma quiet_os_Open (p : string) :
  quiet (os_Open w p) (fun e => e = w_open w p).
Proof.
  unfold os_Open.
  eapply quiet_bind; [now apply quiet_emit | intros _ _]. now apply quiet_ret.
Qed.

Lemma quiet_exec (name : string) (args : list string) :
  quiet (exec_CombinedOutput w name args) (fun r => r = w_exec w name args).
Proof.
  unfold exec_CombinedOutput.
  eapply quiet_bind; [now apply quiet_emit | intros _ _]. now apply quiet_ret.
Qed.

Lemma quiet_Glob (pattern : string) :
  quiet (filepath_Glob w pattern) (fun r => r = w_glob w pattern).
Proof.
  unfold filepath_Glob.
  eapply quiet_bind; [now apply quiet_emit | intros _ _]. now apply quiet_ret.
Qed.

(** A tool wrapper reports an error exactly when the command did. *)
Lemma quiet_runTool (what name : string) (args : list string) :
  quiet (runTool w what name args)
        (fun e => isNil e = isNil (snd (w_exec w name args))).
Proof.
  unfold runTool.
  eapply quiet_bind; [apply quiet_exec | intros [output err] H].
  rewrite <- H. destruct err; now apply quiet_ret.
Qed.

Lemma quiet_LibreOfficeConvert (inputPath outputDir toFormat : string) :
  quiet (LibreOfficeConvert w inputPath outputDir toFormat) (fun _ => True).
Proof.
  unfold LibreOfficeConvert.
  destruct (filepath_Abs w outputDir) as [absOut [e|]]; [now apply quiet_ret|].
  destruct (filepath_Abs w inputPath) as [absIn [e|]]; [now apply quiet_ret|].
  eapply quiet_bind; [apply quiet_os_MkdirAll | intros err _].
  destruct err; [now apply quiet_ret|].
  eapply quiet_weaken; [apply quiet_runTool | auto].
Qed.

Lemma quiet_PDFToImage (inputPath outputPrefix format : string) :
  quiet (PDFToImage w inputPath outputPrefix format) (fun _ => True).
Proof.
  unfold PDFToImage.
  destruct (_ || _); [eapply quiet_weaken; [apply quiet_runTool | auto]|].
  destruct (String.eqb format "png");
    [eapply quiet_weaken; [apply quiet_runTool | auto] | now apply quiet_ret].
Qed.

End InWorld.

(** *** Sending the Result *)

Lemma sendsOne_send (r : JobResult) (Q : JobResult -> Prop) :
  Q r -> sendsOne (send r) Q.
Proof.
  intros HQ s Hs. exists r, [], (fs s). unfold send. rewrite Hs. cbn. auto.
Qed.

Lemma sendsOne_bind {A : Type} (m : M A) (k : A -> M unit)
    (P : A -> Prop) (Q : JobResult -> Prop) :
  quiet m P -> (forall a, P a -> sendsOne (k a) Q) -> sendsOne (m ≫= k) Q.
Proof.
  intros Hm Hk s Hs.
  destruct (Hm s) as (a & tr1 & f1 & E1 & B1 & Pa).
  destruct (Hk a Pa {| fs := f1; chan := chan s; trace := trace s ++ tr1 |} Hs)
    as (r & tr2 & f2 & E2 & B2 & Qr).
  exists r, (tr1 ++ tr2), f2. split; [|split; [|exact Qr]].
  - unfold mbind, M_bind, bind. rewrite E1, E2. cbn.
    now rewrite <- !app_assoc.
  - rewrite forallb_app. now rewrite B1, B2.
Qed.

(** *** Traces *)

Lemma sent_app (a b : list Event) : sent (a ++ b) = sent a ++ sent b.
Proof. apply flat_map_app. Qed.

Lemma removed_app (a b : list Event) : removed (a ++ b) = removed a ++ removed b.
Proof. apply flat_map_app. Qed.

Lemma enqueued_app (a b : list Event) : enqueued (a ++ b) = enqueued a ++ enqueued b.
Proof. apply flat_map_app. Qed.

Lemma statuses_app (a b : list Event) : statuses (a ++ b) = statuses a ++ statuses b.
Proof. apply flat_map_app. Qed.

Lemma benign_silent (tr : list Event) :
  forallb benign tr = true ->
  sent tr = [] /\ removed tr = [] /\ enqueued tr = [] /\ statuses tr = [].
Proof.
  unfold sent, removed, enqueued, statuses.
  induction tr as [|e tr IH]; cbn; [auto|].
  intros H. apply andb_prop in H as [He Htr].
  destruct (IH Htr) as (-> & -> & -> & ->).
  destruct e; cbn in *; try discriminate; auto.
Qed.

End ProtocolFacts.

(** ** The pool handlers *)

Module PoolHandlerFacts.
Import GoFilepath ProtocolFacts.

Section InWorld.

Variable w : World.

Lemma sendsOne_fixed_output (conv : M error) (job : Job) :
  quiet conv (fun _ => True) ->
  sendsOne
    (err ← conv;
     send {| Success := isNil err; Error := err;
             Path := Join [TempDir job; "output.pdf"] |})
    (fun r => Success r = isNil (Error r)
              /\ Path r = Join [TempDir job; "output.pdf"]).
Proof.
  intros Hq. eapply sendsOne_bind; [exact Hq | intros err _].
  apply sendsOne_send. auto.
Qed.

Lemma handleImageMagick_result (job : Job) :
  sendsOne (handleImageMagick w job)
    (fun r => Success r = isNil (Error r)
              /\ Path r = Join [TempDir job; "output.pdf"]).
Proof.
  apply sendsOne_fixed_output.
  eapply quiet_weaken; [apply quiet_runTool | auto].
Qed.

Lemma handlePandoc_result (job : Job) :
  sendsOne (handlePandoc w job)
    (fun r => Success r = isNil (Error r)
              /\ Path r = Join [TempDir job; "output.pdf"]).
Proof.
  apply sendsOne_fixed_output.
  eapply quiet_weaken; [apply quiet_runTool | auto].
Qed.

Lemma handleGhostscript_result (job : Job) :
  sendsOne (handleGhostscript w job)
    (fun r => Success r = isNil (Error r)
              /\ Path r = Join [TempDir job; "output.pdf"]).
Proof.
  apply sendsOne_fixed_output.
  eapply quiet_weaken; [apply quiet_runTool | auto].
Qed.

(** The search for the output file: the first match with the error as it
    was, or the fallback pair. *)
Lemma quiet_search (pattern : string) (err : error) (fallback : string * error) :
  quiet (matches ← filepath_Glob w pattern;
         match matches with
         | m :: _ => ret (m, err)
         | [] => ret fallback
         end)
        (fun p => p = match w_glob w pattern with
                      | m :: _ => (m, err)
                      | [] => fallback
                      end).
Proof.
  eapply quiet_bind; [apply quiet_Glob | intros matches ->].
  destruct (w_glob w pattern); now apply quiet_ret.
Qed.

(** The LibreOffice handler: a success carries the first match of the
    search, and a search without a match ends in a failure. *)
Lemma handleLibreOffice_result (job : Job) :
  sendsOne (handleLibreOffice w job)
    (fun r =>
       Success r = isNil (Error r)
       /\ match w_glob w (Join [TempDir job; "*." +:+ ToFormat job]) with
          | m :: _ =>
              (Success r = true /\ Path r = m)
              \/ (Success r = false
                  /\ Path r = Join [TempDir job; "output." +:+ ToFormat job])
          | [] =>
              Success r = false
              /\ Path r = Join [TempDir job; "output." +:+ ToFormat job]
          end).
Proof.
  unfold handleLibreOffice.
  eapply sendsOne_bind; [apply quiet_LibreOfficeConvert | intros err _].
  destruct err as [e|]; cbn [isNil].
  - eapply sendsOne_bind.
    { apply (quiet_ret _ (fun p =>
        p = (Join [TempDir job; "output." +:+ ToFormat job], Some e))).
      reflexivity. }
    intros p ->. apply sendsOne_send. cbn.
    split; [reflexivity|]. destruct (w_glob w _); auto.
  - eapply sendsOne_bind; [apply quiet_search|].
    intros [p err] Hp. apply sendsOne_send. cbn.
    destruct (w_glob w _); injection Hp as -> ->; auto.
Qed.

(** The Poppler handler: the path is the text file, the first match of
    the search, or the bare prefix when the search finds nothing. *)
Lemma handlePoppler_result (job : Job) :
  sendsOne (handlePoppler w job)
    (fun r =>
       Success r = isNil (Error r)
       /\ Path r =
          if String.eqb (ToFormat job) "txt"
          then Join [TempDir job; "output"] +:+ ".txt"
          else match w_glob w (Join [TempDir job; "output"]
                               +:+ "*." +:+ ToFormat job) with
               | m :: _ => m
               | [] => Join [TempDir job; "output"]
               end).
Proof.
  unfold handlePoppler.
  destruct (String.eqb (ToFormat job) "txt").
  - eapply sendsOne_bind.
    + eapply quiet_bind; [apply quiet_runTool | intros err _].
      apply (quiet_ret _ (fun p => fst p = Join [TempDir job; "output"] +:+ ".txt")).
      reflexivity.
    + intros [p err] Hp. cbn in Hp. subst p. apply sendsOne_send. auto.
  - eapply sendsOne_bind.
    + eapply quiet_bind; [apply quiet_PDFToImage | intros err _].
      eapply quiet_weaken; [apply quiet_search|].
      intros p ->. instantiate (1 := fun p =>
        fst p = match w_glob w (Join [TempDir job; "output"]
                                +:+ "*." +:+ ToFormat job) with
                | m :: _ => m
                | [] => Join [TempDir job; "output"]
                end).
      cbn. destruct (w_glob w _); reflexivity.
    + intros [p err] Hp. cbn in Hp. subst p. apply sendsOne_send. auto.
Qed.

(** Whatever the pool, its handler ends with one send on the channel. *)
Lemma handler_sendsOne (numCPU : Z) (e : Engine) (job : Job) :
  sendsOne (handler (poolOf (NewEngineManager w numCPU) e) job) (fun _ => True).
Proof.
  intros s Hs.
  assert (H : exists Q, sendsOne (handler (poolOf (NewEngineManager w numCPU) e) job) Q).
  { destruct e; cbn; eexists.
    - apply handleLibreOffice_result.
    - apply handlePoppler_result.
    - apply handleImageMagick_result.
    - apply handlePandoc_result.
    - apply handleGhostscript_result. }
  destruct H as (Q & H). destruct (H s Hs) as (r & tr & f & E & Hb & _).
  exists r, tr, f. auto.
Qed.

Lemma sendsOne_weaken (m : M unit) (P Q : JobResult -> Prop) :
  sendsOne m P -> (forall r, P r -> Q r) -> sendsOne m Q.
Proof.
  intros Hm HPQ s Hs. destruct (Hm s Hs) as (r & tr & f & E & Hb & Pr).
  exists r, tr, f. auto.
Qed.

Lemma containsByte_app (c : ascii) (a b : string) :
  GoStrings.containsByte c (a +:+ b)
  = GoStrings.containsByte c a || GoStrings.containsByte c b.
Proof.
  induction a as [|x a IH]; [reflexivity|].
  rewrite GoFilepathFacts.append_cons. cbn. rewrite IH. apply orb_assoc.
Qed.

Lemma plainName_output_dot (format : string) :
  GoStrings.containsByte Separator format = false ->
  plainName ("output." +:+ format) = true.
Proof.
  intros H.
  apply (GoFilepathFacts.plainName_letter "o"%char ("utput." +:+ format));
    [reflexivity | reflexivity |].
  rewrite containsByte_app, H. reflexivity.
Qed.

(** Where a handler puts the path of its Result: in the working
    directory of the Job, provided the search reports entries of that
    directory only and the target format holds no separator. *)
Lemma handler_result_inside (numCPU : Z) (e : Engine) (job : Job) :
  (forall pattern m, In m (w_glob w pattern) -> inside m (TempDir job)) ->
  GoStrings.containsByte Separator (ToFormat job) = false ->
  sendsOne (handler (poolOf (NewEngineManager w numCPU) e) job)
           (fun r => inside (Path r) (TempDir job)).
Proof.
  intros Hglob Hfmt.
  assert (Hpdf : inside (Join [TempDir job; "output.pdf"]) (TempDir job))
    by now apply GoFilepathFacts.inside_Join.
  assert (Hdflt : inside (Join [TempDir job; "output." +:+ ToFormat job])
                         (TempDir job))
    by apply GoFilepathFacts.inside_Join, plainName_output_dot, Hfmt.
  destruct e; cbn.
  - eapply sendsOne_weaken; [apply handleLibreOffice_result|].
    intros r [_ H].
    destruct (w_glob w (Join [TempDir job; "*." +:+ ToFormat job])) as [|m l] eqn:E.
    + destruct H as [_ ->]. exact Hdflt.
    + destruct H as [[_ ->] | [_ ->]]; [|exact Hdflt].
      apply (Hglob (Join [TempDir job; "*." +:+ ToFormat job])).
      rewrite E. now left.
  - eapply sendsOne_weaken; [apply handlePoppler_result|].
    intros r [_ ->]. destruct (String.eqb (ToFormat job) "txt").
    + now apply GoFilepathFacts.inside_Join_append.
    + destruct (w_glob w (Join [TempDir job; "output"] +:+ "*." +:+ ToFormat job))
        as [|m l] eqn:E.
      * now apply GoFilepathFacts.inside_Join.
      * apply (Hglob (Join [TempDir job; "output"] +:+ "*." +:+ ToFormat job)).
        rewrite E. now left.
  - eapply sendsOne_weaken; [apply handleImageMagick_result|]. now intros r [_ ->].
  - eapply sendsOne_weaken; [apply handlePandoc_result|]. now intros r [_ ->].
  - eapply sendsOne_weaken; [apply handleGhostscript_result|]. now intros r [_ ->].
Qed.

(** In every Result, [Success] says that there is no error. *)
Lemma handler_result_success (numCPU : Z) (e : Engine) (job : Job) :
  sendsOne (handler (poolOf (NewEngineManager w numCPU) e) job)
           (fun r => Success r = isNil (Error r)).
Proof.
  destruct e; cbn.
  - eapply sendsOne_weaken; [apply handleLibreOffice_result|]. now intros r [H _].
  - eapply sendsOne_weaken; [apply handlePoppler_result|]. now intros r [H _].
  - eapply sendsOne_weaken; [apply handleImageMagick_result|]. now intros r [H _].
  - eapply sendsOne_weaken; [apply handlePandoc_result|]. now intros r [H _].
  - eapply sendsOne_weaken; [apply handleGhostscript_result|]. now intros r [H _].
Qed.

(** What [sendsOne] says about the Results in the channel afterwards. *)
Lemma sendsOne_chan (m : M unit) (Q : JobResult -> Prop) (s : Sys) (r : JobResult) :
  sendsOne m Q -> In r (chan (snd (m (freshChan s)))) -> Q r.
Proof.
  intros Hm Hr. destruct (Hm (freshChan s) eq_refl) as (r0 & tr & f & E & _ & Q0).
  rewrite E in Hr. cbn in Hr. destruct Hr as [<- | []]. exact Q0.
Qed.

End InWorld.

(** C2. Every pool handler (LibreOffice, Poppler, ImageMagick, Pandoc,
    Ghostscript), run on a Job whose result channel is fresh, returns,
    and on its way it sends exactly one JobResult on that channel: the
    sends of the run are one Result, which the channel then holds. This
    holds in every world, that is, on every path and error branch. *)
Theorem handler_sends_exactly_one
    (w : World) (numCPU : Z) (e : Engine) (job : Job) (s : Sys) :
  exists (r : JobResult) (s' : Sys),
    handler (poolOf (NewEngineManager w numCPU) e) job (freshChan s) = (Next tt, s')
    /\ chan s' = [r]
    /\ sent (trace s') = sent (trace s) ++ [r].
Proof.
  destruct (handler_sendsOne w numCPU e job (freshChan s) eq_refl)
    as (r & tr & f & E & Hb & _).
  exists r. eexists. split; [exact E|]. split; [reflexivity|].
  cbn [trace freshChan]. rewrite !sent_app.
  destruct (benign_silent tr Hb) as (-> & _). reflexivity.
Qed.

(** The LibreOffice handler searches the working directory: a success
    adopts the first match, and without a match the Result is a failure. *)
Lemma libreoffice_adopts_first_match (w : World) (job : Job) (s : Sys) (r : JobResult) :
  In r (chan (snd (handleLibreOffice w job (freshChan s)))) ->
  (Success r = true ->
   exists rest, w_glob w (Join [TempDir job; "*." +:+ ToFormat job]) = Path r :: rest)
  /\ (w_glob w (Join [TempDir job; "*." +:+ ToFormat job]) = [] -> Success r = false).
Proof.
  intros Hr.
  apply (sendsOne_chan _ _ s r (handleLibreOffice_result w job)) in Hr as [_ H].
  destruct (w_glob w _) as [|m l].
  - destruct H as [H _]. split; [congruence | auto].
  - split; [|discriminate]. intros Hs. destruct H as [[_ ->] | [H _]]; [eauto | congruence].
Qed.

(** The Poppler handler asked for the format jpeg: whenever pdftoppm
    succeeds and the search finds nothing, the Result is a success whose
    path is the bare output prefix. *)
Lemma poppler_jpeg_no_match_is_success (w : World) (job : Job) (s : Sys) (r : JobResult) :
  ToFormat job = "jpeg" ->
  snd (w_exec w "pdftoppm" ["-jpeg"; InputPath job; Join [TempDir job; "output"]])
  = None ->
  w_glob w (Join [TempDir job; "output"] +:+ "*.jpeg") = [] ->
  In r (chan (snd (handlePoppler w job (freshChan s)))) ->
  r = {| Success := true; Error := None; Path := Join [TempDir job; "output"] |}.
Proof.
  intros Hfmt Hexec Hglob Hr.
  assert (H : sendsOne (handlePoppler w job)
                (fun r => r = {| Success := true; Error := None;
                                 Path := Join [TempDir job; "output"] |})).
  { unfold handlePoppler. rewrite Hfmt.
    change (String.eqb "jpeg" "txt") with false. cbv iota.
    eapply (sendsOne_bind _ _ (fun p => p = (Join [TempDir job; "output"], None))).
    - eapply quiet_bind.
      + unfold PDFToImage.
        change (String.eqb "jpeg" "jpg" || String.eqb "jpeg" "jpeg") with true.
        cbv iota. apply quiet_runTool.
      + intros err Herr. cbn beta in Herr. rewrite Hexec in Herr.
        destruct err; [discriminate|].
        eapply quiet_weaken; [apply quiet_search|]. intros p ->.
        change ("*." +:+ "jpeg") with "*.jpeg". now rewrite Hglob.
    - intros p ->. apply sendsOne_send. reflexivity. }
  exact (sendsOne_chan _ _ s r H Hr).
Qed.

(** C4, at the failing input. A Job for the target format jpeg in the
    Poppler pool: pdftoppm succeeds and writes output-1.jpg, the search
    for output*.jpeg finds nothing, and the handler still sends a
    success, whose path names no file. *)
Theorem poppler_success_without_artifact :
  w_glob Scenarios.jpegWorld "tmp/7c9e6679/output*.jpeg" = []
  /\ chan (snd (handler (poolOf (NewEngineManager Scenarios.jpegWorld 4) Poppler)
                   (Scenarios.jobTo "pdf" "jpeg" "scan.pdf") (initSys ∅)))
     = [ {| Success := true; Error := None; Path := "tmp/7c9e6679/output" |} ].
Proof. split; reflexivity. Qed.

(** C5 as stated fails: Ghostscript exits with status 1, the Result is
    a failure, and its path is populated all the same, with the name of
    the output file that was never written. *)
Lemma failure_result_carries_path :
  exists r : JobResult,
    In r (chan (snd (handler (poolOf (NewEngineManager Scenarios.brokenTools 4)
                                     Ghostscript)
                       (Scenarios.jobTo "" "pdf" "big.pdf") (initSys ∅))))
    /\ Success r = false
    /\ Path r = "tmp/7c9e6679/output.pdf".
Proof.
  exists Scenarios.failedCompress. split; [left; reflexivity|]. split; reflexivity.
Qed.

(** C5, amended. In every Result a pool handler sends, success is true
    exactly when there is no error, and the output path is populated
    whether the Job succeeded or failed; the path lies inside the working
    directory of the Job. The working directory is what the search
    reports entries of, and the target format is a token without
    separator. *)
Theorem result_path_always_populated
    (w : World) (numCPU : Z) (e : Engine) (job : Job) (s : Sys) (r : JobResult) :
  (forall pattern m, In m (w_glob w pattern) -> inside m (TempDir job)) ->
  GoStrings.containsByte Separator (ToFormat job) = false ->
  In r (chan (snd (handler (poolOf (NewEngineManager w numCPU) e) job (freshChan s)))) ->
  Success r = isNil (Error r)
  /\ Path r <> ""
  /\ inside (Path r) (TempDir job).
Proof.
  intros Hglob Hfmt Hr.
  pose proof (sendsOne_chan _ _ s r (handler_result_success w numCPU e job) Hr) as H1.
  pose proof (sendsOne_chan _ _ s r
                (handler_result_inside w numCPU e job Hglob Hfmt) Hr) as H2.
  cbn beta in H1, H2.
  split; [exact H1|]. split; [|exact H2].
  eapply GoFilepathFacts.inside_nonempty, H2.
Qed.

Lemma result_path_always_populated_witness :
  Success Scenarios.failedCompress = isNil (Error Scenarios.failedCompress)
  /\ Path Scenarios.failedCompress <> ""
  /\ inside (Path Scenarios.failedCompress)
            (TempDir (Scenarios.jobTo "" "pdf" "big.pdf")).
Proof.
  apply (result_path_always_populated Scenarios.brokenTools 4 Ghostscript
           (Scenarios.jobTo "" "pdf" "big.pdf") (initSys ∅)).
  - intros pattern m [].
  - reflexivity.
  - left. reflexivity.
Defined.

End PoolHandlerFacts.

(** ** The request handlers *)

Module HandlerFacts.
Import GoFilepath ProtocolFacts.

Lemma under_refl (dir : string) : under dir dir = true.
Proof. unfold under. now rewrite String.eqb_refl. Qed.

(** After [os.RemoveAll] the directory is gone. *)
Lemma removed_not_elem (dir : string) (files : gset string) :
  dir ∉ filter (fun p => under dir p = false) files.
Proof.
  intros H. apply elem_of_filter in H as [H _].
  rewrite under_refl in H. discriminate.
Qed.

Section InWorld.

Variable uL : string -> string.
Variable w : World.
Variable numCPU : Z.

Local Abbreviation h := (theHandler w numCPU).

Lemma workDirOf_nonempty : String.eqb (Join ["tmp"; w_uuid w]) "" = false.
Proof.
  apply String.eqb_neq. now apply GoFilepathFacts.Join_nonempty.
Qed.

(** In the server of [main] a Job is handled when the pools have
    workers and the world lets a goroutine receive it. *)
Lemma fate_handled (pool : Engine) :
  0 < numCPU -> w_fate w pool = Handled -> fate w h pool = Handled.
Proof.
  intros Hn Hw. unfold fate, theHandler. cbn [EngineManager NewConversionHandler].
  replace (workers (poolOf (NewEngineManager w numCPU) pool)) with numCPU
    by now destruct pool.
  apply Z.ltb_lt in Hn. now rewrite Hn.
Qed.

Lemma fate_unhandled (pool : Engine) :
  numCPU <= 0 \/ w_fate w pool <> Handled -> fate w h pool <> Handled.
Proof.
  intros Hno. unfold fate, theHandler. cbn [EngineManager NewConversionHandler].
  replace (workers (poolOf (NewEngineManager w numCPU) pool)) with numCPU
    by now destruct pool.
  destruct (0 <? numCPU) eqn:En.
  - apply Z.ltb_lt in En. destruct Hno as [Hn|Hw]; [lia | exact Hw].
  - destruct (w_fate w pool); discriminate.
Qed.

(** The Job goes into the queue, a goroutine of the pool receives it,
    the pool's handler runs, and the result channel holds one Result. *)
Lemma enqueue_run (pool : Engine) (job : Job) (s : Sys) :
  fate w h pool = Handled ->
  chan s = [] ->
  exists r tr f,
    enqueue w h pool job s
    = (Next tt, {| fs := f; chan := [r];
                   trace := (trace s ++ [EvEnqueue pool job]) ++ tr ++ [EvSend r] |})
    /\ forallb benign tr = true.
Proof.
  intros Hfate Hs. unfold enqueue. rewrite Hfate.
  unfold theHandler. cbn [EngineManager NewConversionHandler].
  destruct (PoolHandlerFacts.handler_sendsOne w numCPU pool job
              {| fs := fs s; chan := chan s;
                 trace := trace s ++ [EvEnqueue pool job] |} Hs)
    as (r & tr & f & E & Hb & _).
  exists r, tr, f. split; [|exact Hb].
  unfold callFn, mbind, M_bind, bind, emit. cbn. now rewrite E.
Qed.

(** A request that reaches the routing step and whose Job, if it sends
    one, is handled: whatever happens then, the handler returns, it
    removes the working directory once, and the directory is gone. *)
Lemma HandleConvert_cleans_up (r : Request) (files : gset string) :
  staged w r = true ->
  (forall pool, selectPool uL (FormValue r "from") (FormValue r "to") = Some pool ->
                fate w h pool = Handled) ->
  fst (HandleConvert uL w h r (initSys files)) <> Hang
  /\ fst (HandleConvert uL w h r (initSys files)) <> Panic
  /\ removed (trace (snd (HandleConvert uL w h r (initSys files)))) = [workDirOf w]
  /\ workDirOf w ∉ fs (snd (HandleConvert uL w h r (initSys files))).
Proof.
  unfold staged, inputPathOf, workDirOf. intros Hst Hfate.
  destruct (String.eqb (Method r) "POST") eqn:E1; [|discriminate].
  destruct (parseOk r) eqn:E2; [|discriminate].
  destruct (formFile r) as [header|] eqn:E3; [|discriminate].
  cbn [andb] in Hst.
  destruct (String.eqb (FormValue r "from") "") eqn:E4; [discriminate|].
  destruct (String.eqb (FormValue r "to") "") eqn:E5; [discriminate|].
  destruct (w_mkdirAll w (Join ["tmp"; w_uuid w])) eqn:E6; [discriminate|].
  destruct (w_create w (Join [Join ["tmp"; w_uuid w]; Filename header])) eqn:E7;
    [discriminate|].
  destruct (w_copyIn w (Join [Join ["tmp"; w_uuid w]; Filename header])) eqn:E8;
    [discriminate|].
  clear Hst. unfold HandleConvert. unfold_prims.
  rewrite E1, E2, E3, E4, E5, E6, E7, E8. run.
  destruct (selectPool uL (FormValue r "from") (FormValue r "to")) as [pool|].
  - match goal with
    | |- context [enqueue w h pool ?j ?s] =>
        destruct (enqueue_run pool j s (Hfate pool eq_refl) eq_refl)
          as (res & tr & f & E & Hb)
    end.
    rewrite E. run.
    destruct (benign_silent tr Hb) as (_ & Htr & _).
    destruct (Success res); run.
    + destruct (w_open w (Path res)); run; rewrite workDirOf_nonempty; run;
        rewrite !removed_app, Htr; run;
        (repeat split; [discriminate | discriminate | apply removed_not_elem]).
    + rewrite workDirOf_nonempty; run. rewrite !removed_app, Htr. run.
      repeat split; [discriminate | discriminate | apply removed_not_elem].
  - rewrite workDirOf_nonempty. run.
    repeat split; [discriminate | discriminate | apply removed_not_elem].
Qed.

(** Without a pool for the pair no Job is enqueued, and a request that
    reached the routing step is answered with status 400 after its
    working directory was removed. *)
Lemma HandleConvert_unsupported (r : Request) (files : gset string) :
  selectPool uL (FormValue r "from") (FormValue r "to") = None ->
  enqueued (trace (snd (HandleConvert uL w h r (initSys files)))) = []
  /\ (staged w r = true ->
      HandleConvert uL w h r (initSys files)
      = (Done,
         {| fs := filter (fun p => under (workDirOf w) p = false)
                    ({[ inputPathOf w (default {| Filename := "" |} (formFile r)) ]}
                     ∪ ({[ workDirOf w ]} ∪ files));
            chan := [];
            trace := [EvMkdirAll (workDirOf w);
                      EvCreate (inputPathOf w (default {| Filename := "" |} (formFile r)));
                      EvCopyIn (inputPathOf w (default {| Filename := "" |} (formFile r)));
                      EvRemoveAll (workDirOf w);
                      EvHttpError "Unsupported conversion" StatusBadRequest] |})).
Proof.
  intros Hsel. unfold staged, inputPathOf, workDirOf, HandleConvert. unfold_prims.
  rewrite Hsel.
  destruct (String.eqb (Method r) "POST"); run; [|split; [reflexivity|discriminate]].
  destruct (parseOk r); run; [|split; [reflexivity|discriminate]].
  destruct (formFile r) as [header|]; run; [|split; [reflexivity|discriminate]].
  destruct (String.eqb (FormValue r "from") ""); run;
    [split; [reflexivity|discriminate]|].
  destruct (String.eqb (FormValue r "to") ""); run;
    [split; [reflexivity|discriminate]|].
  destruct (w_mkdirAll w (Join ["tmp"; w_uuid w])); run;
    [split; [reflexivity|discriminate]|].
  destruct (w_create w (Join [Join ["tmp"; w_uuid w]; Filename header])); run;
    [split; [reflexivity|discriminate]|].
  destruct (w_copyIn w (Join [Join ["tmp"; w_uuid w]; Filename header])); run;
    [split; [reflexivity|discriminate]|].
  rewrite workDirOf_nonempty. run. split; reflexivity.
Qed.

(** A staging failure: the directory was made, the input file could not
    be created or written; the handler answers 500 and returns without
    removing the directory. *)
Lemma HandleConvert_staging_failure (r : Request) (files : gset string)
    (header : FileHeader) :
  Method r = "POST" -> parseOk r = true -> formFile r = Some header ->
  FormValue r "from" <> "" -> FormValue r "to" <> "" ->
  w_mkdirAll w (workDirOf w) = None ->
  isNil (w_create w (inputPathOf w header))
  && isNil (w_copyIn w (inputPathOf w header)) = false ->
  fst (HandleConvert uL w h r (initSys files)) = Done
  /\ statuses (trace (snd (HandleConvert uL w h r (initSys files))))
     = [StatusInternalServerError]
  /\ removed (trace (snd (HandleConvert uL w h r (initSys files)))) = []
  /\ workDirOf w ∈ fs (snd (HandleConvert uL w h r (initSys files))).
Proof.
  unfold inputPathOf, workDirOf. intros E1 E2 E3 E4 E5 E6 E7.
  apply String.eqb_neq in E4, E5.
  unfold HandleConvert. unfold_prims. rewrite E1, E2, E3, E4, E5, E6. run.
  destruct (w_create w (Join [Join ["tmp"; w_uuid w]; Filename header])); run.
  - repeat split. set_solver.
  - destruct (w_copyIn w (Join [Join ["tmp"; w_uuid w]; Filename header]));
      [|discriminate]. run. repeat split. set_solver.
Qed.

End InWorld.

(** C1, at the failing input. The upload cannot be written into the
    working directory (the disk is full). The request reached the
    staging phase: the directory exists. The handler answers 500 and
    returns; it removed nothing, and the directory is still there. *)
Theorem staging_failure_leaks_workdir (uL : string -> string) :
  fst (runConvert uL Scenarios.fullDisk 4
         (Scenarios.convertRequest "report.docx" "docx" "pdf") ∅) = Done
  /\ trace (snd (runConvert uL Scenarios.fullDisk 4
                   (Scenarios.convertRequest "report.docx" "docx" "pdf") ∅))
     = [EvMkdirAll "tmp/7c9e6679";
        EvCreate "tmp/7c9e6679/report.docx";
        EvHttpError "Internal server error" 500]
  /\ removed (trace (snd (runConvert uL Scenarios.fullDisk 4
                   (Scenarios.convertRequest "report.docx" "docx" "pdf") ∅))) = []
  /\ "tmp/7c9e6679" ∈ fs (snd (runConvert uL Scenarios.fullDisk 4
                   (Scenarios.convertRequest "report.docx" "docx" "pdf") ∅)).
Proof.
  split; [reflexivity|]. split; [reflexivity|]. split; [reflexivity|].
  unfold runConvert, HandleConvert. unfold_prims. cbn. set_solver.
Qed.

(** X1. A /convert request that passed the checks and whose input was
    staged, in a server whose pools have workers and where the Job, if
    one is sent, is received by a goroutine of its pool: on every path
    from there (no pool for the pair, engine failure, result that cannot
    be opened, success after streaming) the handler comes to its end,
    removes the working directory exactly once, and the directory no
    longer exists afterwards. *)
Lemma convert_cleans_up_after_staging
    (uL : string -> string) (w : World) (numCPU : Z) (r : Request)
    (files : gset string) :
  staged w r = true ->
  0 < numCPU ->
  (forall pool, selectPool uL (FormValue r "from") (FormValue r "to") = Some pool ->
                w_fate w pool = Handled) ->
  fst (runConvert uL w numCPU r files) <> Hang
  /\ fst (runConvert uL w numCPU r files) <> Panic
  /\ removed (trace (snd (runConvert uL w numCPU r files))) = [workDirOf w]
  /\ workDirOf w ∉ fs (snd (runConvert uL w numCPU r files)).
Proof.
  intros Hst Hn Hw. apply HandleConvert_cleans_up; [exact Hst|].
  intros pool Hpool. apply fate_handled; [exact Hn | now apply Hw].
Qed.

Lemma convert_cleans_up_after_staging_witness :
  fst (runConvert GoStrings.caselessLower Scenarios.officeWorld 4
         (Scenarios.convertRequest "report.docx" "docx" "pdf") ∅) <> Hang
  /\ fst (runConvert GoStrings.caselessLower Scenarios.officeWorld 4
            (Scenarios.convertRequest "report.docx" "docx" "pdf") ∅) <> Panic
  /\ removed (trace (snd (runConvert GoStrings.caselessLower Scenarios.officeWorld 4
                            (Scenarios.convertRequest "report.docx" "docx" "pdf") ∅)))
     = [workDirOf Scenarios.officeWorld]
  /\ workDirOf Scenarios.officeWorld
     ∉ fs (snd (runConvert GoStrings.caselessLower Scenarios.officeWorld 4
                  (Scenarios.convertRequest "report.docx" "docx" "pdf") ∅)).
Proof.
  apply (convert_cleans_up_after_staging GoStrings.caselessLower
           Scenarios.officeWorld 4
           (Scenarios.convertRequest "report.docx" "docx" "pdf") ∅).
  - reflexivity.
  - lia.
  - intros pool _. reflexivity.
Defined.

(** A conversion that succeeds: the file is streamed, then the working
    directory is removed. *)
Example convert_docx_to_pdf :
  fst (runConvert GoStrings.caselessLower Scenarios.officeWorld 4
         (Scenarios.convertRequest "report.docx" "docx" "pdf") ∅) = Next tt
  /\ trace (snd (runConvert GoStrings.caselessLower Scenarios.officeWorld 4
                   (Scenarios.convertRequest "report.docx" "docx" "pdf") ∅))
     = [EvMkdirAll "tmp/7c9e6679";
        EvCreate "tmp/7c9e6679/report.docx";
        EvCopyIn "tmp/7c9e6679/report.docx";
        EvEnqueue LibreOffice (Scenarios.jobTo "docx" "pdf" "report.docx");
        EvMkdirAll "/app/tmp/7c9e6679/soffice_user";
        EvExec "/opt/homebrew/bin/soffice"
          ["-env:UserInstallation=file:///app/tmp/7c9e6679/soffice_user";
           "--headless"; "--convert-to"; "pdf"; "--outdir";
           "/app/tmp/7c9e6679"; "/app/tmp/7c9e6679/report.docx"];
        EvGlob "tmp/7c9e6679/*.pdf";
        EvSend {| Success := true; Error := None; Path := "tmp/7c9e6679/report.pdf" |};
        EvRecv {| Success := true; Error := None; Path := "tmp/7c9e6679/report.pdf" |};
        EvOpen "tmp/7c9e6679/report.pdf";
        EvHeader "Content-Disposition" "attachment; filename=report.pdf";
        EvHeader "Content-Type" "application/octet-stream";
        EvCopyOut "tmp/7c9e6679/report.pdf";
        EvRemoveAll "tmp/7c9e6679"].
Proof. split; reflexivity. Qed.

(** C6. A request to /convert whose pair of formats the router does not
    support never puts a Job into a pool; and when it reached the routing
    step, with its input staged, the handler removes the working
    directory (once, and the directory is gone) and answers with the
    client error 400, and with no other status. *)
Theorem unsupported_pair_is_client_error
    (uL : string -> string) (w : World) (numCPU : Z) (r : Request)
    (files : gset string) :
  selectPool uL (FormValue r "from") (FormValue r "to") = None ->
  enqueued (trace (snd (runConvert uL w numCPU r files))) = []
  /\ (staged w r = true ->
      fst (runConvert uL w numCPU r files) = Done
      /\ statuses (trace (snd (runConvert uL w numCPU r files))) = [StatusBadRequest]
      /\ removed (trace (snd (runConvert uL w numCPU r files))) = [workDirOf w]
      /\ workDirOf w ∉ fs (snd (runConvert uL w numCPU r files))).
Proof.
  intros Hsel.
  destruct (HandleConvert_unsupported uL w numCPU r files Hsel) as [H1 H2].
  split; [exact H1|]. intros Hst. unfold runConvert.
  fold (theHandler w numCPU) in H2. rewrite (H2 Hst). cbn [fst snd trace fs].
  repeat split. apply removed_not_elem.
Qed.

Lemma unsupported_pair_is_client_error_witness :
  enqueued (trace (snd (runConvert GoStrings.caselessLower Scenarios.calmWorld 4
                          (Scenarios.convertRequest "notes.docx" "docx" "png") ∅))) = []
  /\ (staged Scenarios.calmWorld (Scenarios.convertRequest "notes.docx" "docx" "png")
      = true ->
      fst (runConvert GoStrings.caselessLower Scenarios.calmWorld 4
             (Scenarios.convertRequest "notes.docx" "docx" "png") ∅) = Done
      /\ statuses (trace (snd (runConvert GoStrings.caselessLower Scenarios.calmWorld 4
                                 (Scenarios.convertRequest "notes.docx" "docx" "png") ∅)))
         = [StatusBadRequest]
      /\ removed (trace (snd (runConvert GoStrings.caselessLower Scenarios.calmWorld 4
                                (Scenarios.convertRequest "notes.docx" "docx" "png") ∅)))
         = [workDirOf Scenarios.calmWorld]
      /\ workDirOf Scenarios.calmWorld
         ∉ fs (snd (runConvert GoStrings.caselessLower Scenarios.calmWorld 4
                      (Scenarios.convertRequest "notes.docx" "docx" "png") ∅))).
Proof.
  apply (unsupported_pair_is_client_error GoStrings.caselessLower Scenarios.calmWorld 4
           (Scenarios.convertRequest "notes.docx" "docx" "png") ∅).
  reflexivity.
Defined.

(** The request of the witness is staged, and this is its trace. *)
Example unsupported_docx_png :
  staged Scenarios.calmWorld (Scenarios.convertRequest "notes.docx" "docx" "png") = true
  /\ trace (snd (runConvert GoStrings.caselessLower Scenarios.calmWorld 4
                   (Scenarios.convertRequest "notes.docx" "docx" "png") ∅))
     = [EvMkdirAll "tmp/7c9e6679";
        EvCreate "tmp/7c9e6679/notes.docx";
        EvCopyIn "tmp/7c9e6679/notes.docx";
        EvRemoveAll "tmp/7c9e6679";
        EvHttpError "Unsupported conversion" 400].
Proof. split; reflexivity. Qed.

(** The request behind C4, end to end: pdf to jpeg. The tool succeeds,
    the handler reports a success without a file, and the client gets a
    500 because the result cannot be opened. *)
Example convert_pdf_to_jpeg :
  trace (snd (runConvert GoStrings.caselessLower Scenarios.jpegWorld 4
                (Scenarios.convertRequest "scan.pdf" "pdf" "jpeg") ∅))
  = [EvMkdirAll "tmp/7c9e6679";
     EvCreate "tmp/7c9e6679/scan.pdf";
     EvCopyIn "tmp/7c9e6679/scan.pdf";
     EvEnqueue Poppler (Scenarios.jobTo "pdf" "jpeg" "scan.pdf");
     EvExec "pdftoppm" ["-jpeg"; "tmp/7c9e6679/scan.pdf"; "tmp/7c9e6679/output"];
     EvGlob "tmp/7c9e6679/output*.jpeg";
     EvSend {| Success := true; Error := None; Path := "tmp/7c9e6679/output" |};
     EvRecv {| Success := true; Error := None; Path := "tmp/7c9e6679/output" |};
     EvOpen "tmp/7c9e6679/output";
     EvRemoveAll "tmp/7c9e6679";
     EvHttpError "Failed to open result" 500].
Proof. reflexivity. Qed.

End HandlerFacts.

(** ** Rotation and merge *)

Module PageOperationFacts.
Import GoFilepath ProtocolFacts HandlerFacts.

Lemma executed_app (a b : list Event) : executed (a ++ b) = executed a ++ executed b.
Proof. apply flat_map_app. Qed.

Example scanInt_samples :
  GoFmt.scanInt "" = None /\ GoFmt.scanInt "abc" = None
  /\ GoFmt.scanInt "0" = Some 0 /\ GoFmt.scanInt " -0" = Some 0
  /\ GoFmt.scanInt "180" = Some 180 /\ GoFmt.scanInt "12abc" = Some 12
  /\ GoFmt.scanInt "99999999999999999999" = None.
Proof. repeat split. Qed.

(** C8. A /rotate request that passes the checks of method, form and
    file: when the form value angle is missing, cannot be scanned as an
    integer, or is 0, the page tool runs, once, with the angle 90, and no
    answer of the request is the client error 400. *)
Theorem rotate_defaults_to_90
    (w : World) (r : Request) (files : gset string) (header : FileHeader) :
  Method r = "POST" -> parseOk r = true -> formFile r = Some header ->
  (formValues r !! "angle" = None
   \/ GoFmt.scanInt (FormValue r "angle") = None
   \/ GoFmt.scanInt (FormValue r "angle") = Some 0) ->
  executed (trace (snd (runRotate w r files)))
  = [("qpdf", [inputPathOf w header; "--rotate=+90";
               Join [workDirOf w; "rotated.pdf"]])]
  /\ ~ In StatusBadRequest (statuses (trace (snd (runRotate w r files)))).
Proof.
  intros E1 E2 E3 Hangle.
  assert (Ha : (GoFmt.Sscanf_d (FormValue r "angle") 0 =? 0) = true).
  { unfold GoFmt.Sscanf_d.
    destruct Hangle as [H | [H | H]].
    - unfold FormValue. rewrite H. reflexivity.
    - rewrite H. reflexivity.
    - rewrite H. reflexivity. }
  unfold runRotate, HandleRotate, inputPathOf, workDirOf. cbv zeta.
  rewrite Ha, E1, E2, E3.
  unfold RotatePDF, runTool, exec_CombinedOutput, serveAndCleanup. unfold_prims.
  run.
  destruct (w_mkdirAll w (Join ["tmp"; w_uuid w])); run;
    destruct (w_create w (Join [Join ["tmp"; w_uuid w]; Filename header])); run;
    destruct (w_exec w "qpdf" _) as [output [e|]]; run;
    try (destruct (w_open w _); run);
    (split; [reflexivity | intros [H | H]; [discriminate H | destruct H]])
    || (split; [reflexivity | intros []]).
Qed.

Lemma rotate_defaults_to_90_witness :
  executed (trace (snd (runRotate Scenarios.calmWorld
                          (Scenarios.rotateRequest "plan.pdf" (Some "sideways")) ∅)))
  = [("qpdf", [inputPathOf Scenarios.calmWorld (Scenarios.upload "plan.pdf");
               "--rotate=+90";
               Join [workDirOf Scenarios.calmWorld; "rotated.pdf"]])]
  /\ ~ In StatusBadRequest
         (statuses (trace (snd (runRotate Scenarios.calmWorld
                             (Scenarios.rotateRequest "plan.pdf" (Some "sideways")) ∅)))).
Proof.
  apply (rotate_defaults_to_90 Scenarios.calmWorld
           (Scenarios.rotateRequest "plan.pdf" (Some "sideways")) ∅
           (Scenarios.upload "plan.pdf")).
  - reflexivity.
  - reflexivity.
  - reflexivity.
  - right. left. reflexivity.
Defined.

Example rotate_missing_angle :
  executed (trace (snd (runRotate Scenarios.calmWorld
                          (Scenarios.rotateRequest "plan.pdf" None) ∅)))
  = [("qpdf", ["tmp/7c9e6679/plan.pdf"; "--rotate=+90"; "tmp/7c9e6679/rotated.pdf"])].
Proof. reflexivity. Qed.

Example rotate_given_angle :
  executed (trace (snd (runRotate Scenarios.calmWorld
                          (Scenarios.rotateRequest "plan.pdf" (Some "270")) ∅)))
  = [("qpdf", ["tmp/7c9e6679/plan.pdf"; "--rotate=+270"; "tmp/7c9e6679/rotated.pdf"])].
Proof. reflexivity. Qed.

Section Merge.

Variable uL : string -> string.
Variable w : World.

Lemma stagedPathsFrom_length (i : nat) (files : list FileHeader) :
  List.length (stagedPathsFrom uL w i files) = List.length files.
Proof.
  revert i. induction files as [|f files IH]; intros i; cbn; [reflexivity|].
  now rewrite IH.
Qed.

(** The staging loop: when every upload can be opened it runs to its end,
    tells whether a name had an image extension, and lists the staged
    paths in the order of the uploads; it runs no tool, enqueues nothing
    and writes no response. *)
Lemma stageInputs_run (files : list FileHeader) :
  (forall f, In f files -> w_openUpload w (Filename f) = None) ->
  forall (i : nat) (img : bool) (acc : list string) (s : Sys),
  exists tr f',
    stageInputs uL w (workDirOf w) i files img acc s
    = (Next (img || existsb (isImageName uL) files,
             acc ++ stagedPathsFrom uL w i files),
       {| fs := f'; chan := chan s; trace := trace s ++ tr |})
    /\ executed tr = [] /\ enqueued tr = [] /\ statuses tr = [].
Proof.
  induction files as [|f files IH]; intros Hopen i img acc s.
  - exists [], (fs s). cbn. rewrite orb_false_r, !app_nil_r.
    destruct s; auto.
  - assert (Hf : w_openUpload w (Filename f) = None) by (apply Hopen; now left).
    assert (Hrest : forall g, In g files -> w_openUpload w (Filename g) = None)
      by (intros g Hg; apply Hopen; now right).
    cbn [stageInputs]. unfold_prims. rewrite Hf. run.
    fold (isImageName uL f). fold (stagedPath uL w i f).
    destruct (w_create w (stagedPath uL w i f)); run.
    + match goal with
      | |- context [stageInputs uL w _ (S i) files ?b ?a ?st] =>
          destruct (IH Hrest (S i) b a st) as (tr & f' & E & H1 & H2 & H3)
      end.
      cbn [chan trace fs] in E. rewrite E. clear E.
      exists (EvOpenUpload (Filename f) :: EvCreate (stagedPath uL w i f)
              :: EvCopyIn (stagedPath uL w i f) :: tr), f'.
      split; [|unfold executed, enqueued, statuses in *; cbn; auto].
      cbn [existsb stagedPathsFrom].
      replace ((if isImageName uL f then true else img)
               || existsb (isImageName uL) files)
        with (img || (isImageName uL f || existsb (isImageName uL) files))
        by (destruct (isImageName uL f), img; reflexivity).
      rewrite <- !app_assoc. reflexivity.
    + match goal with
      | |- context [stageInputs uL w _ (S i) files ?b ?a ?st] =>
          destruct (IH Hrest (S i) b a st) as (tr & f' & E & H1 & H2 & H3)
      end.
      cbn [chan trace fs] in E. rewrite E. clear E.
      exists (EvOpenUpload (Filename f) :: EvCreate (stagedPath uL w i f)
              :: EvCopyIn (stagedPath uL w i f) :: tr), f'.
      split; [|unfold executed, enqueued, statuses in *; cbn; auto].
      cbn [existsb stagedPathsFrom].
      replace ((if isImageName uL f then true else img)
               || existsb (isImageName uL) files)
        with (img || (isImageName uL f || existsb (isImageName uL) files))
        by (destruct (isImageName uL f), img; reflexivity).
      rewrite <- !app_assoc. reflexivity.
Qed.

(** A name whose extension is literally .jpg, .jpeg or .png is an image
    name, whatever the Unicode tables say. *)
Lemma isImageName_literal (f : FileHeader) :
  isImageExt (Ext (Filename f)) = true -> isImageName uL f = true.
Proof.
  unfold isImageName, isImageExt. intros H.
  apply orb_prop in H as [H | H]; [apply orb_prop in H as [H | H]|];
    apply String.eqb_eq in H; rewrite H; reflexivity.
Qed.

(** What the loop of [HandleMerge] takes for an image name is a name
    whose extension, in lower case, is one of the three of the claim. *)
Lemma isImageName_iff (f : FileHeader) :
  isImageName uL f = true
  <-> In (GoStrings.ToLower uL (Ext (Filename f))) [".jpg"; ".jpeg"; ".png"].
Proof.
  unfold isImageName, isImageExt. cbn [In].
  rewrite !orb_true_iff, !String.eqb_eq.
  split.
  - intros [[H|H]|H]; rewrite H; auto.
  - intros [H|[H|[H|[]]]]; rewrite <- H; auto.
Qed.

End Merge.

(** C9. A /merge request with at least two files, all of which can be
    opened. When the name of one of them has the extension .jpg, .jpeg or
    .png (read in lower case), one tool runs, the image-to-PDF
    conversion, and it gets every staged input, PDF files included; when
    no name has one of these extensions the one tool is the PDF merge,
    with every staged input. There is one staged input per upload, and
    no Job is put into a queue. *)
Theorem merge_routes_by_image_extension
    (uL : string -> string) (w : World) (numCPU : Z) (r : Request)
    (files : gset string) :
  Method r = "POST" -> parseOk r = true ->
  (2 <= List.length (formFiles r))%nat ->
  (forall f, In f (formFiles r) -> w_openUpload w (Filename f) = None) ->
  ((exists f, In f (formFiles r)
              /\ In (GoStrings.ToLower uL (Ext (Filename f)))
                    [".jpg"; ".jpeg"; ".png"]) ->
   executed (trace (snd (runMerge uL w numCPU r files)))
   = [ ("convert",
        stagedPathsFrom uL w 0 (formFiles r) ++ [Join [workDirOf w; "merged.pdf"]]) ])
  /\ ((forall f, In f (formFiles r) ->
                 ~ In (GoStrings.ToLower uL (Ext (Filename f)))
                      [".jpg"; ".jpeg"; ".png"]) ->
      executed (trace (snd (runMerge uL w numCPU r files)))
      = [ ("pdfunite",
           stagedPathsFrom uL w 0 (formFiles r)
           ++ [Join [workDirOf w; "merged.pdf"]]) ])
  /\ List.length (stagedPathsFrom uL w 0 (formFiles r)) = List.length (formFiles r)
  /\ enqueued (trace (snd (runMerge uL w numCPU r files))) = [].
Proof.
  intros E1 E2 Hlen Hopen.
  assert (H : executed (trace (snd (runMerge uL w numCPU r files)))
              = [ (if existsb (isImageName uL) (formFiles r)
                   then "convert" else "pdfunite",
                   stagedPathsFrom uL w 0 (formFiles r)
                   ++ [Join [workDirOf w; "merged.pdf"]]) ]
              /\ enqueued (trace (snd (runMerge uL w numCPU r files))) = []).
  { unfold runMerge, HandleMerge. cbv zeta. rewrite E1, E2.
    apply Nat.ltb_ge in Hlen. rewrite Hlen.
    unfold ImageToPDFSync, MergePDFsSync, ImageToPDF, MergePDFs, runTool,
      exec_CombinedOutput, serveAndCleanup. unfold_prims. run.
    fold (workDirOf w).
    destruct (w_mkdirAll w (workDirOf w)); run.
    - match goal with
      | |- context [stageInputs uL w _ 0%nat _ false [] ?st] =>
          destruct (stageInputs_run uL w (formFiles r) Hopen 0%nat false [] st)
            as (tr & f' & E & H1 & H2 & H3)
      end.
      rewrite E. run.
      destruct (existsb (isImageName uL) (formFiles r)); run;
        destruct (w_exec w _ _) as [output [e|]]; run;
        try (destruct (w_open w _); run);
        rewrite ?executed_app, ?enqueued_app, ?H1, ?H2; split; reflexivity.
    - match goal with
      | |- context [stageInputs uL w _ 0%nat _ false [] ?st] =>
          destruct (stageInputs_run uL w (formFiles r) Hopen 0%nat false [] st)
            as (tr & f' & E & H1 & H2 & H3)
      end.
      rewrite E. run.
      destruct (existsb (isImageName uL) (formFiles r)); run;
        destruct (w_exec w _ _) as [output [e|]]; run;
        try (destruct (w_open w _); run);
        rewrite ?executed_app, ?enqueued_app, ?H1, ?H2; split; reflexivity. }
  destruct H as [Hx Hq].
  split; [|split; [|split; [apply stagedPathsFrom_length | exact Hq]]].
  - intros (f & Hin & Hext).
    assert (Himg : existsb (isImageName uL) (formFiles r) = true).
    { apply existsb_exists. exists f. split; [exact Hin|].
      now apply isImageName_iff. }
    now rewrite Himg in Hx.
  - intros Hnone.
    assert (Hpdf : existsb (isImageName uL) (formFiles r) = false).
    { apply not_true_is_false. intros Himg.
      apply existsb_exists in Himg as (f & Hin & Hf).
      apply (Hnone f Hin). now apply isImageName_iff. }
    now rewrite Hpdf in Hx.
Qed.

Lemma merge_routes_by_image_extension_witness :
  ((exists f, In f (formFiles (Scenarios.mergeRequest ["cover.PNG"; "body.pdf"]))
              /\ In (GoStrings.ToLower GoStrings.caselessLower (Ext (Filename f)))
                    [".jpg"; ".jpeg"; ".png"]) ->
   executed (trace (snd (runMerge GoStrings.caselessLower Scenarios.calmWorld 4
                           (Scenarios.mergeRequest ["cover.PNG"; "body.pdf"]) ∅)))
   = [ ("convert",
        stagedPathsFrom GoStrings.caselessLower Scenarios.calmWorld 0
          (formFiles (Scenarios.mergeRequest ["cover.PNG"; "body.pdf"]))
        ++ [Join [workDirOf Scenarios.calmWorld; "merged.pdf"]]) ])
  /\ ((forall f, In f (formFiles (Scenarios.mergeRequest ["cover.PNG"; "body.pdf"])) ->
                 ~ In (GoStrings.ToLower GoStrings.caselessLower (Ext (Filename f)))
                      [".jpg"; ".jpeg"; ".png"]) ->
      executed (trace (snd (runMerge GoStrings.caselessLower Scenarios.calmWorld 4
                              (Scenarios.mergeRequest ["cover.PNG"; "body.pdf"]) ∅)))
      = [ ("pdfunite",
           stagedPathsFrom GoStrings.caselessLower Scenarios.calmWorld 0
             (formFiles (Scenarios.mergeRequest ["cover.PNG"; "body.pdf"]))
           ++ [Join [workDirOf Scenarios.calmWorld; "merged.pdf"]]) ])
  /\ List.length (stagedPathsFrom GoStrings.caselessLower Scenarios.calmWorld 0
                    (formFiles (Scenarios.mergeRequest ["cover.PNG"; "body.pdf"])))
     = List.length (formFiles (Scenarios.mergeRequest ["cover.PNG"; "body.pdf"]))
  /\ enqueued (trace (snd (runMerge GoStrings.caselessLower Scenarios.calmWorld 4
                             (Scenarios.mergeRequest ["cover.PNG"; "body.pdf"]) ∅)))
     = [].
Proof.
  apply (merge_routes_by_image_extension GoStrings.caselessLower Scenarios.calmWorld 4
           (Scenarios.mergeRequest ["cover.PNG"; "body.pdf"]) ∅).
  - reflexivity.
  - reflexivity.
  - cbn. lia.
  - intros f _. reflexivity.
Defined.

Example merge_image_and_pdf :
  executed (trace (snd (runMerge GoStrings.caselessLower Scenarios.calmWorld 4
                          (Scenarios.mergeRequest ["cover.PNG"; "body.pdf"]) ∅)))
  = [("convert", ["tmp/7c9e6679/input_0.png"; "tmp/7c9e6679/input_1.pdf";
                  "tmp/7c9e6679/merged.pdf"])].
Proof. reflexivity. Qed.

Example merge_two_pdfs :
  executed (trace (snd (runMerge GoStrings.caselessLower Scenarios.calmWorld 4
                          (Scenarios.mergeRequest ["a.pdf"; "b.pdf"]) ∅)))
  = [("pdfunite", ["tmp/7c9e6679/input_0.pdf"; "tmp/7c9e6679/input_1.pdf";
                   "tmp/7c9e6679/merged.pdf"])].
Proof. reflexivity. Qed.

End PageOperationFacts.

(** ** The worker pool *)

Module WorkerPoolFacts.

Lemma step_keeps_goroutines (c c' : Config) :
  step c c' -> List.length (goroutines c') = List.length (goroutines c).
Proof.
  intros H. destruct H; cbn; try reflexivity; apply length_insert.
Qed.

Lemma running_le_goroutines (c : Config) :
  (running c <= List.length (goroutines c))%nat.
Proof. unfold running. apply List.filter_length_le. Qed.

Lemma Start_goroutines (p : WorkerPool) :
  List.length (goroutines (Start p)) = Z.to_nat (workers p).
Proof. cbn. apply repeat_length. Qed.

(** The goroutines of a pool are those [Start] launched: none is added
    while the pool runs. *)
Lemma reachable_goroutines (p : WorkerPool) (c : Config) :
  rtc step (Start p) c -> List.length (goroutines c) = Z.to_nat (workers p).
Proof.
  intros H. rewrite <- Start_goroutines.
  induction H as [|c1 c2 c3 H12 _ IH]; [reflexivity|].
  rewrite IH. now apply step_keeps_goroutines.
Qed.

(** C7. A pool constructed with [n] workers and started: in every
    configuration it can reach, whatever was enqueued, cancelled or
    closed on the way, at most [n] goroutines are inside the handler. *)
Theorem running_bounded (n : nat) (handle : Job -> M unit) (c : Config) :
  rtc step (Start (NewWorkerPool (Z.of_nat n) handle)) c ->
  (running c <= n)%nat.
Proof.
  intros H. apply reachable_goroutines in H. cbn in H.
  rewrite Nat2Z.id in H. rewrite <- H. apply running_le_goroutines.
Qed.

Lemma running_bounded_witness :
  (running {| JobQueue := [Scenarios.jobTo "md" "pdf" "b.md"];
              closed := false; ctxDone := false;
              goroutines := [Handling (Scenarios.jobTo "md" "pdf" "a.md"); Selecting] |}
   <= 2)%nat.
Proof.
  apply (running_bounded 2 (handlePandoc Scenarios.calmWorld)).
  eapply rtc_l; [apply (step_enqueue _ (Scenarios.jobTo "md" "pdf" "a.md"));
                 [reflexivity | cbn; unfold jobQueueCap; lia]|].
  eapply rtc_l; [apply (step_enqueue _ (Scenarios.jobTo "md" "pdf" "b.md"));
                 [reflexivity | cbn; unfold jobQueueCap; lia]|].
  eapply rtc_l; [apply (step_dequeue _ 0%nat (Scenarios.jobTo "md" "pdf" "a.md")
                          [Scenarios.jobTo "md" "pdf" "b.md"]); reflexivity|].
  apply rtc_refl.
Defined.

(** With negative or zero [workers] the loop of [Start] launches no
    goroutine, and no handler ever runs. *)
Lemma no_workers_no_handler (n : Z) (handle : Job -> M unit) (c : Config) :
  n <= 0 -> rtc step (Start (NewWorkerPool n handle)) c -> running c = 0%nat.
Proof.
  intros Hn H. apply reachable_goroutines in H. cbn in H.
  pose proof (running_le_goroutines c) as Hle.
  rewrite H in Hle. lia.
Qed.

End WorkerPoolFacts.

(** ** The rest of the handlers *)

Module FinishFacts.
Import GoFilepath ProtocolFacts HandlerFacts PageOperationFacts.

Lemma streamed_app (a b : list Event) : streamed (a ++ b) = streamed a ++ streamed b.
Proof. apply flat_map_app. Qed.

Lemma messages_app (a b : list Event) : messages (a ++ b) = messages a ++ messages b.
Proof. apply flat_map_app. Qed.

(** The shape of the end of a trace, read off its last two events. *)
Lemma endsCleanly_snoc2 (pre : list Event) (a b : Event) :
  endsCleanly (pre ++ [a; b])
  = match b, a with
    | EvRemoveAll _, EvCopyOut _ => forallb silent (rev pre)
    | EvHttpError _ _, EvRemoveAll _ => forallb silent (rev pre)
    | _, _ => false
    end.
Proof.
  unfold endsCleanly. rewrite rev_app_distr. cbn [rev app].
  destruct b, a; reflexivity.
Qed.

Lemma forallb_rev {A : Type} (f : A -> bool) (l : list A) :
  forallb f (rev l) = forallb f l.
Proof.
  induction l as [|x l IH]; [reflexivity|]. cbn.
  rewrite forallb_app, IH. cbn. rewrite andb_true_r. apply andb_comm.
Qed.

(** A trace that ends cleanly holds one removal, and either one stream
    or one error response, never both. *)
Lemma endsCleanly_once (tr : list Event) :
  endsCleanly tr = true ->
  List.length (removed tr) = 1%nat
  /\ (List.length (streamed tr) + List.length (statuses tr) = 1)%nat.
Proof.
  unfold endsCleanly. rewrite <- (rev_involutive tr) at 2 3 4.
  assert (Hs : forall pre, forallb silent pre = true ->
            removed (rev pre) = [] /\ streamed (rev pre) = []
            /\ statuses (rev pre) = []).
  { intros pre H. rewrite <- forallb_rev in H.
    induction (rev pre) as [|e l IH]; [auto|].
    cbn in H. apply andb_prop in H as [He Hl].
    destruct (IH Hl) as (H1 & H2 & H3).
    unfold removed, streamed, statuses in *. cbn. rewrite H1, H2, H3.
    destruct e; try discriminate; auto. }
  destruct (rev tr) as [|b [|a pre]]; try discriminate;
    [destruct b; discriminate|].
  intros H. cbn [rev]. rewrite <- app_assoc. cbn [app].
  rewrite !removed_app, !streamed_app, !statuses_app.
  destruct b, a; try discriminate; destruct (Hs pre H) as (-> & -> & ->);
    cbn; auto.
Qed.

Ltac unfold_calls :=
  unfold ZipFiles, SplitPDF, ExtractImages, ReorderPDF, RotatePDF, runTool,
    exec_CombinedOutput, filepath_Glob, serveAndCleanup.

Ltac leaf :=
  repeat match goal with
         | |- _ /\ _ => split
         | |- _ ∉ _ => apply removed_not_elem
         | |- _ <> _ => discriminate
         | |- _ = _ => reflexivity
         | |- _ \/ _ => first [left; reflexivity | right]
         end.

Section InWorld.

Variable w : World.

(** X2. /rotate: a request with method POST, a parsed form and a file
    part does its work in every world, whatever fails on the way: the
    handler returns, the run ends cleanly (one stream then one removal,
    or one removal then one error response of status 500), the removal is
    that of the working directory, which is gone afterwards, and no Job
    goes into a queue. *)
Theorem rotate_always_cleans_up (r : Request) (files : gset string) :
  accepted AtRotate r = true ->
  (fst (runRotate w r files) = Done \/ fst (runRotate w r files) = Next tt)
  /\ endsCleanly (trace (snd (runRotate w r files))) = true
  /\ removed (trace (snd (runRotate w r files))) = [workDirOf w]
  /\ (workDirOf w ∉ fs (snd (runRotate w r files)))
  /\ enqueued (trace (snd (runRotate w r files))) = []
  /\ (statuses (trace (snd (runRotate w r files))) = []
      \/ statuses (trace (snd (runRotate w r files))) = [StatusInternalServerError]).
Proof.
  unfold accepted. intros Hacc.
  destruct (String.eqb (Method r) "POST") eqn:E1; [|discriminate].
  destruct (parseOk r) eqn:E2; [|discriminate].
  destruct (formFile r) as [header|] eqn:E3; [|discriminate]. clear Hacc.
  unfold runRotate, HandleRotate, workDirOf. cbv zeta. rewrite E1, E2, E3.
  generalize (if GoFmt.Sscanf_d (FormValue r "angle") 0 =? 0
              then 90 else GoFmt.Sscanf_d (FormValue r "angle") 0) as angle.
  intros angle. unfold_calls. unfold_prims. run.
  destruct (w_mkdirAll w (Join ["tmp"; w_uuid w])); run;
    destruct (w_create w (Join [Join ["tmp"; w_uuid w]; Filename header])); run;
    destruct (w_exec w "qpdf" _) as [output [e|]]; run;
    try (destruct (w_open w _); run); leaf.
Qed.

(** X3. /reorder: a request with method POST, a parsed form, a file
    part and a form value order that is not empty does its work in every
    world: the handler returns, the run ends cleanly, the working
    directory is removed once and is gone, no Job goes into a queue, and
    the one command is qpdf with the order given to it as it came, in one
    argument. *)
Theorem reorder_always_cleans_up (r : Request) (files : gset string)
    (header : FileHeader) :
  accepted AtReorder r = true -> formFile r = Some header ->
  (fst (HandleReorder w r (initSys files)) = Done
   \/ fst (HandleReorder w r (initSys files)) = Next tt)
  /\ endsCleanly (trace (snd (HandleReorder w r (initSys files)))) = true
  /\ removed (trace (snd (HandleReorder w r (initSys files)))) = [workDirOf w]
  /\ (workDirOf w ∉ fs (snd (HandleReorder w r (initSys files))))
  /\ enqueued (trace (snd (HandleReorder w r (initSys files)))) = []
  /\ executed (trace (snd (HandleReorder w r (initSys files))))
     = [("qpdf", [inputPathOf w header; "--pages"; "."; FormValue r "order"; "--";
                  Join [workDirOf w; "reordered.pdf"]])].
Proof.
  unfold accepted. intros Hacc E3. rewrite E3 in Hacc.
  destruct (String.eqb (Method r) "POST") eqn:E1; [|discriminate].
  destruct (parseOk r) eqn:E2; [|discriminate].
  destruct (String.eqb (FormValue r "order") "") eqn:E4; [discriminate|].
  clear Hacc.
  unfold HandleReorder, inputPathOf, workDirOf. cbv zeta. rewrite E1, E2, E3, E4.
  unfold_calls. unfold_prims. run.
  destruct (w_mkdirAll w (Join ["tmp"; w_uuid w])); run;
    destruct (w_create w (Join [Join ["tmp"; w_uuid w]; Filename header])); run;
    destruct (w_exec w "qpdf" _) as [output [e|]]; run;
    try (destruct (w_open w _); run); leaf.
Qed.

Section Zip.

Variable zipError : string -> list string -> error.

(** X4. /split: an accepted request does its work in every world: the
    handler returns, the run ends cleanly, the working directory is
    removed once and is gone, no Job goes into a queue, and the one
    command is pdfseparate with the page pattern. The archive is made of
    whatever page files the search finds, none included: the archive is
    streamed exactly when the tool, the archiver and the opening of the
    archive succeed. *)
Theorem split_always_cleans_up (r : Request) (files : gset string)
    (header : FileHeader) :
  accepted AtSplit r = true -> formFile r = Some header ->
  (fst (HandleSplit w zipError r (initSys files)) = Done
   \/ fst (HandleSplit w zipError r (initSys files)) = Next tt)
  /\ endsCleanly (trace (snd (HandleSplit w zipError r (initSys files)))) = true
  /\ removed (trace (snd (HandleSplit w zipError r (initSys files)))) = [workDirOf w]
  /\ (workDirOf w ∉ fs (snd (HandleSplit w zipError r (initSys files))))
  /\ enqueued (trace (snd (HandleSplit w zipError r (initSys files)))) = []
  /\ executed (trace (snd (HandleSplit w zipError r (initSys files))))
     = [("pdfseparate", [inputPathOf w header; Join [workDirOf w; "page-%d.pdf"]])]
  /\ streamed (trace (snd (HandleSplit w zipError r (initSys files))))
     = if isNil (snd (w_exec w "pdfseparate"
                        [inputPathOf w header; Join [workDirOf w; "page-%d.pdf"]]))
          && isNil (zipError (Join [workDirOf w; "pages.zip"])
                             (w_glob w (Join [workDirOf w; "page-*.pdf"])))
          && isNil (w_open w (Join [workDirOf w; "pages.zip"]))
       then [Join [workDirOf w; "pages.zip"]] else [].
Proof.
  unfold accepted. intros Hacc E3. rewrite E3 in Hacc.
  destruct (String.eqb (Method r) "POST") eqn:E1; [|discriminate].
  destruct (parseOk r) eqn:E2; [|discriminate]. clear Hacc.
  unfold HandleSplit, inputPathOf, workDirOf. cbv zeta. rewrite E1, E2, E3.
  unfold_calls. unfold_prims. run.
  destruct (w_mkdirAll w (Join ["tmp"; w_uuid w])); run;
    destruct (w_create w (Join [Join ["tmp"; w_uuid w]; Filename header])); run;
    destruct (w_exec w "pdfseparate" _) as [output [e|]]; run;
    try (destruct (zipError _ _); run);
    try (destruct (w_open w _); run); leaf.
Qed.

(** The entries that go into the archive of images: never the input
    file, never an archive, and everything else the search found. *)
Lemma imagesAmong_spec (inputPath f : string) (allFiles : list string) :
  In f (imagesAmong inputPath allFiles)
  <-> In f allFiles /\ f <> inputPath /\ GoStringsMore.HasSuffix f ".zip" = false.
Proof.
  unfold imagesAmong. rewrite List.filter_In, andb_true_iff, !negb_true_iff.
  rewrite String.eqb_neq. tauto.
Qed.

(** X5. /extract/images: an accepted request does its work in every
    world: the handler returns, the run ends cleanly, the working
    directory is removed once and is gone, no Job goes into a queue.
    The answer is 500 when pdfimages fails; else 404 when the directory
    holds nothing but the input file and archives; else 500 when the
    archiver or the opening of the archive fails; else the archive is
    streamed. The archiver gets the entries of the directory without the
    input file and without archives. *)
Theorem extract_images_always_cleans_up (r : Request) (files : gset string)
    (header : FileHeader) :
  accepted AtExtractImages r = true -> formFile r = Some header ->
  (fst (HandleExtractImages w zipError r (initSys files)) = Done
   \/ fst (HandleExtractImages w zipError r (initSys files)) = Next tt)
  /\ endsCleanly (trace (snd (HandleExtractImages w zipError r (initSys files)))) = true
  /\ removed (trace (snd (HandleExtractImages w zipError r (initSys files))))
     = [workDirOf w]
  /\ (workDirOf w ∉ fs (snd (HandleExtractImages w zipError r (initSys files))))
  /\ enqueued (trace (snd (HandleExtractImages w zipError r (initSys files)))) = []
  /\ statuses (trace (snd (HandleExtractImages w zipError r (initSys files))))
     = (if negb (isNil (snd (w_exec w "pdfimages"
                               ["-all"; inputPathOf w header; Join [workDirOf w; "img"]])))
        then [StatusInternalServerError]
        else match imagesAmong (inputPathOf w header)
                     (w_glob w (Join [workDirOf w; "*"])) with
             | [] => [StatusNotFound]
             | images =>
                 if isNil (zipError (Join [workDirOf w; "images.zip"]) images)
                    && isNil (w_open w (Join [workDirOf w; "images.zip"]))
                 then [] else [StatusInternalServerError]
             end).
Proof.
  unfold accepted. intros Hacc E3. rewrite E3 in Hacc.
  destruct (String.eqb (Method r) "POST") eqn:E1; [|discriminate].
  destruct (parseOk r) eqn:E2; [|discriminate]. clear Hacc.
  unfold HandleExtractImages, inputPathOf, workDirOf. cbv zeta. rewrite E1, E2, E3.
  unfold_calls. unfold_prims. run.
  destruct (w_mkdirAll w (Join ["tmp"; w_uuid w])); run;
    destruct (w_create w (Join [Join ["tmp"; w_uuid w]; Filename header])); run;
    destruct (w_exec w "pdfimages" _) as [output [e|]]; run;
    try (destruct (imagesAmong _ _) as [|img imgs]; run);
    try (destruct (zipError _ _); run);
    try (destruct (w_open w _); run); leaf.
Qed.

End Zip.

Section Pools.

Variable numCPU : Z.

Local Abbreviation h := (theHandler w numCPU).

Ltac unfold_pool :=
  unfold enqueue, fate, theHandler, NewConversionHandler, NewEngineManager,
    NewWorkerPool;
  cbn [EngineManager poolOf handler workers GhostscriptPool PopplerPool];
  unfold handleGhostscript, handlePoppler, CompressPDF, ExtractText, send.

(** X6. /compress, in a server whose pools have workers and where a
    goroutine of the Ghostscript pool receives the Job: an accepted
    request does its work whatever the system calls and the tool answer,
    also when the staging of the input fails: the handler returns, the
    run ends cleanly, the working directory is removed once and is gone.
    One Job goes into a queue, that of the Ghostscript pool, with the
    target format pdf; the one command is gs, writing output.pdf into the
    working directory. An error response carries one of two fixed texts,
    never the output of the tool. *)
Theorem compress_always_cleans_up (r : Request) (files : gset string)
    (header : FileHeader) :
  accepted AtCompress r = true -> formFile r = Some header ->
  0 < numCPU -> w_fate w Ghostscript = Handled ->
  (fst (HandleCompress w h r (initSys files)) = Done
   \/ fst (HandleCompress w h r (initSys files)) = Next tt)
  /\ endsCleanly (trace (snd (HandleCompress w h r (initSys files)))) = true
  /\ removed (trace (snd (HandleCompress w h r (initSys files)))) = [workDirOf w]
  /\ (workDirOf w ∉ fs (snd (HandleCompress w h r (initSys files))))
  /\ enqueued (trace (snd (HandleCompress w h r (initSys files))))
     = [(Ghostscript,
         {| ID := w_uuid w; InputPath := inputPathOf w header; OutputPath := "";
            FromFormat := ""; ToFormat := "pdf"; TempDir := workDirOf w |})]
  /\ executed (trace (snd (HandleCompress w h r (initSys files))))
     = [("gs", ["-sDEVICE=pdfwrite"; "-dCompatibilityLevel=1.4";
                "-dPDFSETTINGS=/screen"; "-dNOPAUSE"; "-dQUIET"; "-dBATCH";
                "-sOutputFile=" +:+ Join [workDirOf w; "output.pdf"];
                inputPathOf w header])]
  /\ (messages (trace (snd (HandleCompress w h r (initSys files)))) = []
      \/ messages (trace (snd (HandleCompress w h r (initSys files))))
         = ["Operation failed"]
      \/ messages (trace (snd (HandleCompress w h r (initSys files))))
         = ["Failed to open result"]).
Proof.
  unfold accepted. intros Hacc E3 Hn Hw. rewrite E3 in Hacc.
  apply Z.ltb_lt in Hn.
  destruct (String.eqb (Method r) "POST") eqn:E1; [|discriminate].
  destruct (parseOk r) eqn:E2; [|discriminate]. clear Hacc.
  unfold HandleCompress, handleGenericPDFOperation, inputPathOf, workDirOf.
  cbv zeta. rewrite E1, E2, E3.
  change (String.eqb "compress" "compress") with true. cbv iota.
  unfold_pool. rewrite Hn, Hw. unfold_calls. unfold_prims. run.
  destruct (w_mkdirAll w (Join ["tmp"; w_uuid w])); run;
    destruct (w_create w (Join [Join ["tmp"; w_uuid w]; Filename header])); run;
    destruct (w_exec w "gs" _) as [output [e|]]; run;
    try (destruct (w_open w _); run); leaf.
Qed.

(** X7. /extract/text, in a server whose pools have workers and where
    a goroutine of the Poppler pool receives the Job: an accepted request
    does its work whatever the system calls and the tool answer: the
    handler returns, the run ends cleanly, the working directory is
    removed once and is gone. One Job goes into a queue, that of the
    Poppler pool, with the target format txt; the one command is
    pdftotext, writing output.txt into the working directory, and that
    file is what is streamed when the tool succeeds and the file can be
    opened. *)
Theorem extract_text_always_cleans_up (r : Request) (files : gset string)
    (header : FileHeader) :
  accepted AtExtractText r = true -> formFile r = Some header ->
  0 < numCPU -> w_fate w Poppler = Handled ->
  (fst (HandleExtractText w h r (initSys files)) = Done
   \/ fst (HandleExtractText w h r (initSys files)) = Next tt)
  /\ endsCleanly (trace (snd (HandleExtractText w h r (initSys files)))) = true
  /\ removed (trace (snd (HandleExtractText w h r (initSys files)))) = [workDirOf w]
  /\ (workDirOf w ∉ fs (snd (HandleExtractText w h r (initSys files))))
  /\ enqueued (trace (snd (HandleExtractText w h r (initSys files))))
     = [(Poppler,
         {| ID := w_uuid w; InputPath := inputPathOf w header; OutputPath := "";
            FromFormat := ""; ToFormat := "txt"; TempDir := workDirOf w |})]
  /\ executed (trace (snd (HandleExtractText w h r (initSys files))))
     = [("pdftotext", [inputPathOf w header; Join [workDirOf w; "output"] +:+ ".txt"])]
  /\ streamed (trace (snd (HandleExtractText w h r (initSys files))))
     = if isNil (snd (w_exec w "pdftotext"
                        [inputPathOf w header; Join [workDirOf w; "output"] +:+ ".txt"]))
          && isNil (w_open w (Join [workDirOf w; "output"] +:+ ".txt"))
       then [Join [workDirOf w; "output"] +:+ ".txt"] else [].
Proof.
  unfold accepted. intros Hacc E3 Hn Hw. rewrite E3 in Hacc.
  apply Z.ltb_lt in Hn.
  destruct (String.eqb (Method r) "POST") eqn:E1; [|discriminate].
  destruct (parseOk r) eqn:E2; [|discriminate]. clear Hacc.
  unfold HandleExtractText, handleGenericPDFOperation, inputPathOf, workDirOf.
  cbv zeta. rewrite E1, E2, E3.
  change (String.eqb "extract-text" "compress") with false.
  change (String.eqb "extract-text" "extract-text") with true. cbv iota.
  unfold_pool. rewrite Hn, Hw. unfold_calls. unfold_prims. run.
  destruct (w_mkdirAll w (Join ["tmp"; w_uuid w])); run;
    destruct (w_create w (Join [Join ["tmp"; w_uuid w]; Filename header])); run;
    destruct (w_exec w "pdftotext" _) as [output [e|]]; run;
    try (destruct (w_open w _); run); leaf.
Qed.

End Pools.

End InWorld.

Lemma rotate_always_cleans_up_witness :
  (fst (runRotate Scenarios.calmWorld (Scenarios.rotateRequest "plan.pdf" (Some "270"))
      ∅) = Done \/ fst (runRotate Scenarios.calmWorld (Scenarios.rotateRequest
      "plan.pdf" (Some "270")) ∅) = Next tt)
  /\ endsCleanly (trace (snd (runRotate Scenarios.calmWorld (Scenarios.rotateRequest
      "plan.pdf" (Some "270")) ∅))) = true
  /\ removed (trace (snd (runRotate Scenarios.calmWorld (Scenarios.rotateRequest
      "plan.pdf" (Some "270")) ∅))) = [workDirOf Scenarios.calmWorld]
  /\ (workDirOf Scenarios.calmWorld ∉ fs (snd (runRotate Scenarios.calmWorld
      (Scenarios.rotateRequest "plan.pdf" (Some "270")) ∅)))
  /\ enqueued (trace (snd (runRotate Scenarios.calmWorld (Scenarios.rotateRequest
      "plan.pdf" (Some "270")) ∅))) = []
  /\ (statuses (trace (snd (runRotate Scenarios.calmWorld (Scenarios.rotateRequest
      "plan.pdf" (Some "270")) ∅))) = []
      \/ statuses (trace (snd (runRotate Scenarios.calmWorld (Scenarios.rotateRequest
          "plan.pdf" (Some "270")) ∅))) = [StatusInternalServerError]).
Proof.
  apply (rotate_always_cleans_up Scenarios.calmWorld (Scenarios.rotateRequest "plan.pdf"
      (Some "270")) ∅).
  - reflexivity.
Defined.

Lemma reorder_always_cleans_up_witness :
  (fst (HandleReorder Scenarios.calmWorld (MoreScenarios.reorderRequest "book.pdf"
      "3,1,2") (initSys ∅)) = Done
   \/ fst (HandleReorder Scenarios.calmWorld (MoreScenarios.reorderRequest "book.pdf"
       "3,1,2") (initSys ∅)) = Next tt)
  /\ endsCleanly (trace (snd (HandleReorder Scenarios.calmWorld
      (MoreScenarios.reorderRequest "book.pdf" "3,1,2") (initSys ∅)))) = true
  /\ removed (trace (snd (HandleReorder Scenarios.calmWorld
      (MoreScenarios.reorderRequest "book.pdf" "3,1,2") (initSys ∅)))) = [workDirOf
      Scenarios.calmWorld]
  /\ (workDirOf Scenarios.calmWorld ∉ fs (snd (HandleReorder Scenarios.calmWorld
      (MoreScenarios.reorderRequest "book.pdf" "3,1,2") (initSys ∅))))
  /\ enqueued (trace (snd (HandleReorder Scenarios.calmWorld
      (MoreScenarios.reorderRequest "book.pdf" "3,1,2") (initSys ∅)))) = []
  /\ executed (trace (snd (HandleReorder Scenarios.calmWorld
      (MoreScenarios.reorderRequest "book.pdf" "3,1,2") (initSys ∅))))
     = [("qpdf", [inputPathOf Scenarios.calmWorld (Scenarios.upload "book.pdf");
         "--pages"; "."; FormValue (MoreScenarios.reorderRequest "book.pdf" "3,1,2")
         "order"; "--";
                  Join [workDirOf Scenarios.calmWorld; "reordered.pdf"]])].
Proof.
  apply (reorder_always_cleans_up Scenarios.calmWorld (MoreScenarios.reorderRequest
      "book.pdf" "3,1,2") ∅ (Scenarios.upload "book.pdf")).
  - reflexivity.
  - reflexivity.
Defined.

Lemma split_always_cleans_up_witness :
  (fst (HandleSplit Scenarios.calmWorld MoreScenarios.zipWorks
      (MoreScenarios.fileRequest "book.pdf") (initSys ∅)) = Done
   \/ fst (HandleSplit Scenarios.calmWorld MoreScenarios.zipWorks
       (MoreScenarios.fileRequest "book.pdf") (initSys ∅)) = Next tt)
  /\ endsCleanly (trace (snd (HandleSplit Scenarios.calmWorld MoreScenarios.zipWorks
      (MoreScenarios.fileRequest "book.pdf") (initSys ∅)))) = true
  /\ removed (trace (snd (HandleSplit Scenarios.calmWorld MoreScenarios.zipWorks
      (MoreScenarios.fileRequest "book.pdf") (initSys ∅)))) = [workDirOf
      Scenarios.calmWorld]
  /\ (workDirOf Scenarios.calmWorld ∉ fs (snd (HandleSplit Scenarios.calmWorld
      MoreScenarios.zipWorks (MoreScenarios.fileRequest "book.pdf") (initSys ∅))))
  /\ enqueued (trace (snd (HandleSplit Scenarios.calmWorld MoreScenarios.zipWorks
      (MoreScenarios.fileRequest "book.pdf") (initSys ∅)))) = []
  /\ executed (trace (snd (HandleSplit Scenarios.calmWorld MoreScenarios.zipWorks
      (MoreScenarios.fileRequest "book.pdf") (initSys ∅))))
     = [("pdfseparate", [inputPathOf Scenarios.calmWorld (Scenarios.upload "book.pdf");
         Join [workDirOf Scenarios.calmWorld; "page-%d.pdf"]])]
  /\ streamed (trace (snd (HandleSplit Scenarios.calmWorld MoreScenarios.zipWorks
      (MoreScenarios.fileRequest "book.pdf") (initSys ∅))))
     = if isNil (snd (w_exec Scenarios.calmWorld "pdfseparate"
                        [inputPathOf Scenarios.calmWorld (Scenarios.upload "book.pdf");
                            Join [workDirOf Scenarios.calmWorld; "page-%d.pdf"]]))
          && isNil (MoreScenarios.zipWorks (Join [workDirOf Scenarios.calmWorld;
              "pages.zip"])
                             (w_glob Scenarios.calmWorld (Join [workDirOf
                                 Scenarios.calmWorld; "page-*.pdf"])))
          && isNil (w_open Scenarios.calmWorld (Join [workDirOf Scenarios.calmWorld;
              "pages.zip"]))
       then [Join [workDirOf Scenarios.calmWorld; "pages.zip"]] else [].
Proof.
  apply (split_always_cleans_up Scenarios.calmWorld MoreScenarios.zipWorks
      (MoreScenarios.fileRequest "book.pdf") ∅ (Scenarios.upload "book.pdf")).
  - reflexivity.
  - reflexivity.
Defined.

Lemma extract_images_always_cleans_up_witness :
  (fst (HandleExtractImages Scenarios.calmWorld MoreScenarios.zipWorks
      (MoreScenarios.fileRequest "book.pdf") (initSys ∅)) = Done
   \/ fst (HandleExtractImages Scenarios.calmWorld MoreScenarios.zipWorks
       (MoreScenarios.fileRequest "book.pdf") (initSys ∅)) = Next tt)
  /\ endsCleanly (trace (snd (HandleExtractImages Scenarios.calmWorld
      MoreScenarios.zipWorks (MoreScenarios.fileRequest "book.pdf") (initSys ∅)))) =
      true
  /\ removed (trace (snd (HandleExtractImages Scenarios.calmWorld MoreScenarios.zipWorks
      (MoreScenarios.fileRequest "book.pdf") (initSys ∅))))
     = [workDirOf Scenarios.calmWorld]
  /\ (workDirOf Scenarios.calmWorld ∉ fs (snd (HandleExtractImages Scenarios.calmWorld
      MoreScenarios.zipWorks (MoreScenarios.fileRequest "book.pdf") (initSys ∅))))
  /\ enqueued (trace (snd (HandleExtractImages Scenarios.calmWorld
      MoreScenarios.zipWorks (MoreScenarios.fileRequest "book.pdf") (initSys ∅)))) = []
  /\ statuses (trace (snd (HandleExtractImages Scenarios.calmWorld
      MoreScenarios.zipWorks (MoreScenarios.fileRequest "book.pdf") (initSys ∅))))
     = (if negb (isNil (snd (w_exec Scenarios.calmWorld "pdfimages"
                               ["-all"; inputPathOf Scenarios.calmWorld
                                   (Scenarios.upload "book.pdf"); Join [workDirOf
                                   Scenarios.calmWorld; "img"]])))
        then [StatusInternalServerError]
        else match imagesAmong (inputPathOf Scenarios.calmWorld (Scenarios.upload
            "book.pdf"))
                     (w_glob Scenarios.calmWorld (Join [workDirOf Scenarios.calmWorld;
                         "*"])) with
             | [] => [StatusNotFound]
             | images =>
                 if isNil (MoreScenarios.zipWorks (Join [workDirOf Scenarios.calmWorld;
                     "images.zip"]) images)
                    && isNil (w_open Scenarios.calmWorld (Join [workDirOf
                        Scenarios.calmWorld; "images.zip"]))
                 then [] else [StatusInternalServerError]
             end).
Proof.
  apply (extract_images_always_cleans_up Scenarios.calmWorld MoreScenarios.zipWorks
      (MoreScenarios.fileRequest "book.pdf") ∅ (Scenarios.upload "book.pdf")).
  - reflexivity.
  - reflexivity.
Defined.

Lemma compress_always_cleans_up_witness :
  (fst (HandleCompress Scenarios.brokenTools (theHandler Scenarios.brokenTools 4)
      (MoreScenarios.fileRequest "book.pdf") (initSys ∅)) = Done
   \/ fst (HandleCompress Scenarios.brokenTools (theHandler Scenarios.brokenTools 4)
       (MoreScenarios.fileRequest "book.pdf") (initSys ∅)) = Next tt)
  /\ endsCleanly (trace (snd (HandleCompress Scenarios.brokenTools (theHandler
      Scenarios.brokenTools 4) (MoreScenarios.fileRequest "book.pdf") (initSys ∅)))) =
      true
  /\ removed (trace (snd (HandleCompress Scenarios.brokenTools (theHandler
      Scenarios.brokenTools 4) (MoreScenarios.fileRequest "book.pdf") (initSys ∅)))) =
      [workDirOf Scenarios.brokenTools]
  /\ (workDirOf Scenarios.brokenTools ∉ fs (snd (HandleCompress Scenarios.brokenTools
      (theHandler Scenarios.brokenTools 4) (MoreScenarios.fileRequest "book.pdf")
      (initSys ∅))))
  /\ enqueued (trace (snd (HandleCompress Scenarios.brokenTools (theHandler
      Scenarios.brokenTools 4) (MoreScenarios.fileRequest "book.pdf") (initSys ∅))))
     = [(Ghostscript,
         {| ID := w_uuid Scenarios.brokenTools; InputPath := inputPathOf
             Scenarios.brokenTools (Scenarios.upload "book.pdf"); OutputPath := "";
            FromFormat := ""; ToFormat := "pdf"; TempDir := workDirOf
                Scenarios.brokenTools |})]
  /\ executed (trace (snd (HandleCompress Scenarios.brokenTools (theHandler
      Scenarios.brokenTools 4) (MoreScenarios.fileRequest "book.pdf") (initSys ∅))))
     = [("gs", ["-sDEVICE=pdfwrite"; "-dCompatibilityLevel=1.4";
                "-dPDFSETTINGS=/screen"; "-dNOPAUSE"; "-dQUIET"; "-dBATCH";
                "-sOutputFile=" +:+ Join [workDirOf Scenarios.brokenTools;
                    "output.pdf"];
                inputPathOf Scenarios.brokenTools (Scenarios.upload "book.pdf")])]
  /\ (messages (trace (snd (HandleCompress Scenarios.brokenTools (theHandler
      Scenarios.brokenTools 4) (MoreScenarios.fileRequest "book.pdf") (initSys ∅)))) =
      []
      \/ messages (trace (snd (HandleCompress Scenarios.brokenTools (theHandler
          Scenarios.brokenTools 4) (MoreScenarios.fileRequest "book.pdf") (initSys ∅))))
         = ["Operation failed"]
      \/ messages (trace (snd (HandleCompress Scenarios.brokenTools (theHandler
          Scenarios.brokenTools 4) (MoreScenarios.fileRequest "book.pdf") (initSys ∅))))
         = ["Failed to open result"]).
Proof.
  apply (compress_always_cleans_up Scenarios.brokenTools 4 (MoreScenarios.fileRequest
      "book.pdf") ∅ (Scenarios.upload "book.pdf")).
  - reflexivity.
  - reflexivity.
  - lia.
  - reflexivity.
Defined.

Lemma extract_text_always_cleans_up_witness :
  (fst (HandleExtractText Scenarios.calmWorld (theHandler Scenarios.calmWorld 4)
      (MoreScenarios.fileRequest "book.pdf") (initSys ∅)) = Done
   \/ fst (HandleExtractText Scenarios.calmWorld (theHandler Scenarios.calmWorld 4)
       (MoreScenarios.fileRequest "book.pdf") (initSys ∅)) = Next tt)
  /\ endsCleanly (trace (snd (HandleExtractText Scenarios.calmWorld (theHandler
      Scenarios.calmWorld 4) (MoreScenarios.fileRequest "book.pdf") (initSys ∅)))) =
      true
  /\ removed (trace (snd (HandleExtractText Scenarios.calmWorld (theHandler
      Scenarios.calmWorld 4) (MoreScenarios.fileRequest "book.pdf") (initSys ∅)))) =
      [workDirOf Scenarios.calmWorld]
  /\ (workDirOf Scenarios.calmWorld ∉ fs (snd (HandleExtractText Scenarios.calmWorld
      (theHandler Scenarios.calmWorld 4) (MoreScenarios.fileRequest "book.pdf") (initSys
      ∅))))
  /\ enqueued (trace (snd (HandleExtractText Scenarios.calmWorld (theHandler
      Scenarios.calmWorld 4) (MoreScenarios.fileRequest "book.pdf") (initSys ∅))))
     = [(Poppler,
         {| ID := w_uuid Scenarios.calmWorld; InputPath := inputPathOf
             Scenarios.calmWorld (Scenarios.upload "book.pdf"); OutputPath := "";
            FromFormat := ""; ToFormat := "txt"; TempDir := workDirOf
                Scenarios.calmWorld |})]
  /\ executed (trace (snd (HandleExtractText Scenarios.calmWorld (theHandler
      Scenarios.calmWorld 4) (MoreScenarios.fileRequest "book.pdf") (initSys ∅))))
     = [("pdftotext", [inputPathOf Scenarios.calmWorld (Scenarios.upload "book.pdf");
         Join [workDirOf Scenarios.calmWorld; "output"] +:+ ".txt"])]
  /\ streamed (trace (snd (HandleExtractText Scenarios.calmWorld (theHandler
      Scenarios.calmWorld 4) (MoreScenarios.fileRequest "book.pdf") (initSys ∅))))
     = if isNil (snd (w_exec Scenarios.calmWorld "pdftotext"
                        [inputPathOf Scenarios.calmWorld (Scenarios.upload "book.pdf");
                            Join [workDirOf Scenarios.calmWorld; "output"] +:+ ".txt"]))
          && isNil (w_open Scenarios.calmWorld (Join [workDirOf Scenarios.calmWorld;
              "output"] +:+ ".txt"))
       then [Join [workDirOf Scenarios.calmWorld; "output"] +:+ ".txt"] else [].
Proof.
  apply (extract_text_always_cleans_up Scenarios.calmWorld 4 (MoreScenarios.fileRequest
      "book.pdf") ∅ (Scenarios.upload "book.pdf")).
  - reflexivity.
  - reflexivity.
  - lia.
  - reflexivity.
Defined.

End FinishFacts.

(** ** Tool events, and how a conversion ends *)

Module ToolFacts.
Import GoFilepath ProtocolFacts HandlerFacts PageOperationFacts FinishFacts.

Lemma runsTools_ret {A : Type} (a : A) (P : A -> Prop) : P a -> runsTools (ret a) P.
Proof.
  intros HP s. exists a, [], (fs s). split; [|now split].
  unfold ret. now rewrite <- sys_eta.
Qed.

Lemma runsTools_bind {A B : Type} (m : M A) (k : A -> M B)
    (P : A -> Prop) (Q : B -> Prop) :
  runsTools m P -> (forall a, P a -> runsTools (k a) Q) -> runsTools (m ≫= k) Q.
Proof.
  intros Hm Hk s.
  destruct (Hm s) as (a & tr1 & f1 & E1 & B1 & Pa).
  destruct (Hk a Pa {| fs := f1; chan := chan s; trace := trace s ++ tr1 |})
    as (b & tr2 & f2 & E2 & B2 & Qb).
  exists b, (tr1 ++ tr2), f2. split; [|split; [|exact Qb]].
  - unfold mbind, M_bind, bind. rewrite E1, E2. cbn. now rewrite app_assoc.
  - rewrite forallb_app. now rewrite B1, B2.
Qed.

Section InWorld.

Variable w : World.

Lemma runsTools_os_MkdirAll (p : string) : runsTools (os_MkdirAll w p) (fun _ => True).
Proof.
  intros s. unfold os_MkdirAll. unfold_prims.
  destruct (w_mkdirAll w p); cbn; eexists _, [EvMkdirAll p], _; split; eauto.
Qed.

Lemma runsTools_runTool (what name : string) (args : list string) :
  runsTools (runTool w what name args) (fun _ => True).
Proof.
  intros s. unfold runTool, exec_CombinedOutput. unfold_prims.
  destruct (w_exec w name args) as [output [e|]]; cbn;
    eexists _, [EvExec name args], _; split; eauto.
Qed.

Lemma runsTools_Glob (pattern : string) :
  runsTools (filepath_Glob w pattern) (fun _ => True).
Proof.
  intros s. unfold filepath_Glob. unfold_prims. cbn.
  eexists _, [EvGlob pattern], _; split; eauto.
Qed.

Lemma runsTools_LibreOfficeConvert (inputPath outputDir toFormat : string) :
  runsTools (LibreOfficeConvert w inputPath outputDir toFormat) (fun _ => True).
Proof.
  unfold LibreOfficeConvert.
  destruct (filepath_Abs w outputDir) as [absOut [e|]]; [now apply runsTools_ret|].
  destruct (filepath_Abs w inputPath) as [absIn [e|]]; [now apply runsTools_ret|].
  eapply runsTools_bind; [apply runsTools_os_MkdirAll | intros err _].
  destruct err; [now apply runsTools_ret | apply runsTools_runTool].
Qed.

Lemma runsTools_PDFToImage (inputPath outputPrefix format : string) :
  runsTools (PDFToImage w inputPath outputPrefix format) (fun _ => True).
Proof.
  unfold PDFToImage.
  destruct (_ || _); [apply runsTools_runTool|].
  destruct (String.eqb format "png");
    [apply runsTools_runTool | now apply runsTools_ret].
Qed.

Lemma deliversOne_send (r : JobResult) : deliversOne (send r).
Proof.
  intros s Hs. exists r, [], (fs s). unfold send. rewrite Hs. cbn. auto.
Qed.

Lemma deliversOne_bind {A : Type} (m : M A) (k : A -> M unit) :
  runsTools m (fun _ => True) -> (forall a, deliversOne (k a)) ->
  deliversOne (m ≫= k).
Proof.
  intros Hm Hk s Hs.
  destruct (Hm s) as (a & tr1 & f1 & E1 & B1 & _).
  destruct (Hk a {| fs := f1; chan := chan s; trace := trace s ++ tr1 |} Hs)
    as (r & tr2 & f2 & E2 & B2).
  exists r, (tr1 ++ tr2), f2. split.
  - unfold mbind, M_bind, bind. rewrite E1, E2. cbn. now rewrite <- !app_assoc.
  - rewrite forallb_app. now rewrite B1, B2.
Qed.

(** Every pool handler runs tools and then sends one Result. *)
Lemma handler_deliversOne (numCPU : Z) (e : Engine) (job : Job) :
  deliversOne (handler (poolOf (NewEngineManager w numCPU) e) job).
Proof.
  destruct e; cbn.
  - unfold handleLibreOffice.
    eapply deliversOne_bind; [apply runsTools_LibreOfficeConvert | intros err].
    eapply deliversOne_bind; [|intros [p e']; apply deliversOne_send].
    destruct (isNil err); [|now apply runsTools_ret].
    eapply runsTools_bind; [apply runsTools_Glob | intros matches _].
    destruct matches; now apply runsTools_ret.
  - unfold handlePoppler.
    eapply deliversOne_bind; [|intros [p e']; apply deliversOne_send].
    destruct (String.eqb (ToFormat job) "txt").
    + eapply runsTools_bind; [apply runsTools_runTool | intros err _].
      now apply runsTools_ret.
    + eapply runsTools_bind; [apply runsTools_PDFToImage | intros err _].
      eapply runsTools_bind; [apply runsTools_Glob | intros matches _].
      destruct matches; now apply runsTools_ret.
  - eapply deliversOne_bind; [apply runsTools_runTool | intros; apply deliversOne_send].
  - eapply deliversOne_bind; [apply runsTools_runTool | intros; apply deliversOne_send].
  - eapply deliversOne_bind; [apply runsTools_runTool | intros; apply deliversOne_send].
Qed.

Lemma toolEvent_silent (tr : list Event) :
  forallb toolEvent tr = true -> forallb silent tr = true.
Proof.
  induction tr as [|e tr IH]; [reflexivity|]. cbn.
  intros H. apply andb_prop in H as [He Htr]. rewrite (IH Htr).
  destruct e; try discriminate; reflexivity.
Qed.

Lemma silent_readings (tr : list Event) :
  forallb silent tr = true ->
  removed tr = [] /\ streamed tr = [] /\ statuses tr = [] /\ messages tr = [].
Proof.
  unfold removed, streamed, statuses, messages.
  induction tr as [|e tr IH]; cbn; [auto|].
  intros H. apply andb_prop in H as [He Htr].
  destruct (IH Htr) as (-> & -> & -> & ->).
  destruct e; cbn in *; try discriminate; auto.
Qed.

Lemma toolEvent_not_enqueue (tr : list Event) :
  forallb toolEvent tr = true -> enqueued tr = [].
Proof.
  unfold enqueued. induction tr as [|e tr IH]; cbn; [auto|].
  intros H. apply andb_prop in H as [He Htr]. rewrite (IH Htr).
  destruct e; cbn in *; try discriminate; auto.
Qed.

(** A silent front does not change how a trace ends. *)
Lemma endsCleanly_app_silent (l1 l2 : list Event) :
  forallb silent l1 = true -> (2 <= List.length l2)%nat ->
  endsCleanly (l1 ++ l2) = endsCleanly l2.
Proof.
  intros H1 H2. unfold endsCleanly. rewrite rev_app_distr.
  destruct (rev l2) as [|b [|a pre]] eqn:E.
  - apply (f_equal (@List.length _)) in E. rewrite length_rev in E. cbn in E. lia.
  - apply (f_equal (@List.length _)) in E. rewrite length_rev in E. cbn in E. lia.
  - cbn [app]. rewrite forallb_app, forallb_rev, H1, andb_true_r.
    destruct b, a; reflexivity.
Qed.

End InWorld.

End ToolFacts.

(** ** /convert from the routing step on *)

Module ConvertFacts.
Import GoFilepath ProtocolFacts HandlerFacts PageOperationFacts FinishFacts ToolFacts.

Lemma toolEvent_not_send (tr : list Event) :
  forallb toolEvent tr = true -> sent tr = [].
Proof.
  unfold sent. induction tr as [|e tr IH]; cbn; [auto|].
  intros H. apply andb_prop in H as [He Htr]. rewrite (IH Htr).
  destruct e; cbn in *; try discriminate; auto.
Qed.

Ltac ends_after_tools :=
  match goal with
  | |- endsCleanly (?a :: ?b :: ?c :: ?d :: ?t ++ ?l2) = true =>
      change (endsCleanly ((a :: b :: c :: d :: t) ++ l2) = true);
      rewrite endsCleanly_app_silent;
      [reflexivity
      | cbn [forallb silent andb]; apply toolEvent_silent; assumption
      | cbn; lia]
  end.

Section Server.

Variable uL : string -> string.
Variable w : World.
Variable numCPU : Z.

Local Abbreviation h := (theHandler w numCPU).

Lemma enqueue_delivers (pool : Engine) (job : Job) (s : Sys) :
  0 < numCPU -> w_fate w pool = Handled ->
  chan s = [] ->
  exists r tr f,
    enqueue w h pool job s
    = (Next tt, {| fs := f; chan := [r];
                   trace := (trace s ++ [EvEnqueue pool job]) ++ tr ++ [EvSend r] |})
    /\ forallb toolEvent tr = true.
Proof.
  intros Hn Hw Hs. unfold enqueue. rewrite (fate_handled w numCPU pool Hn Hw).
  unfold theHandler. cbn [EngineManager NewConversionHandler].
  destruct (handler_deliversOne w numCPU pool job
              {| fs := fs s; chan := chan s;
                 trace := trace s ++ [EvEnqueue pool job] |} Hs)
    as (r & tr & f & E & Hb).
  exists r, tr, f. split; [|exact Hb].
  unfold callFn, mbind, M_bind, bind, emit. cbn. now rewrite E.
Qed.

(** X8. /convert, from the routing step on, in a server whose pools
    have workers and where the Job, if one is sent, is received by a
    goroutine of its pool: the run ends cleanly, that is with one stream
    followed by the removal of the working directory, or with the removal
    followed by one error response, and nothing is removed, streamed or
    answered before; at most one Job is queued and the pool sends one
    Result for it; and a file that is streamed is the Path of that
    Result, which reports success. *)
Theorem convert_ends_with_one_response (r : Request) (files : gset string) :
  staged w r = true ->
  0 < numCPU ->
  (forall pool, selectPool uL (FormValue r "from") (FormValue r "to") = Some pool ->
                w_fate w pool = Handled) ->
  endsCleanly (trace (snd (runConvert uL w numCPU r files))) = true
  /\ (List.length (enqueued (trace (snd (runConvert uL w numCPU r files)))) <= 1)%nat
  /\ List.length (sent (trace (snd (runConvert uL w numCPU r files))))
     = List.length (enqueued (trace (snd (runConvert uL w numCPU r files))))
  /\ (forall p, In p (streamed (trace (snd (runConvert uL w numCPU r files)))) ->
      exists res, sent (trace (snd (runConvert uL w numCPU r files))) = [res]
                  /\ Success res = true /\ Path res = p).
Proof.
  unfold runConvert, staged, inputPathOf, workDirOf. intros Hst Hn Hw.
  destruct (String.eqb (Method r) "POST") eqn:E1; [|discriminate].
  destruct (parseOk r) eqn:E2; [|discriminate].
  destruct (formFile r) as [header|] eqn:E3; [|discriminate].
  cbn [andb] in Hst.
  destruct (String.eqb (FormValue r "from") "") eqn:E4; [discriminate|].
  destruct (String.eqb (FormValue r "to") "") eqn:E5; [discriminate|].
  destruct (w_mkdirAll w (Join ["tmp"; w_uuid w])) eqn:E6; [discriminate|].
  destruct (w_create w (Join [Join ["tmp"; w_uuid w]; Filename header])) eqn:E7;
    [discriminate|].
  destruct (w_copyIn w (Join [Join ["tmp"; w_uuid w]; Filename header])) eqn:E8;
    [discriminate|].
  clear Hst. unfold HandleConvert. unfold_prims.
  rewrite E1, E2, E3, E4, E5, E6, E7, E8. run.
  destruct (selectPool uL (FormValue r "from") (FormValue r "to")) as [pool|].
  - match goal with
    | |- context [enqueue _ _ pool ?j ?s] =>
        destruct (enqueue_delivers pool j s Hn (Hw pool eq_refl) eq_refl)
          as (res & tr & f & E & Hb)
    end.
    rewrite E. run.
    pose proof (toolEvent_not_send tr Hb) as Hsent.
    pose proof (toolEvent_not_enqueue tr Hb) as Henq.
    destruct (silent_readings tr (toolEvent_silent tr Hb)) as (_ & Hstr & _ & _).
    unfold sent in Hsent. unfold enqueued in Henq. unfold streamed in Hstr.
    destruct (Success res) eqn:ES; run.
    + destruct (w_open w (Path res)); run; rewrite workDirOf_nonempty; run.
      all: repeat rewrite <- app_assoc; cbn [app].
      all: (split; [ends_after_tools|]).
      all: rewrite ?flat_map_app.
      all: repeat match goal with
                  | H : flat_map _ ?t = [] |- context [flat_map _ ?t] => rewrite H
                  end.
      all: cbn; (split; [lia|split; [reflexivity|]]).
      * intros p [].
      * intros p [<-|[]]. exists res. auto.
    + rewrite workDirOf_nonempty; run.
      repeat rewrite <- app_assoc; cbn [app].
      split; [ends_after_tools|].
      rewrite ?flat_map_app, Hsent, Henq, Hstr.
      cbn. split; [lia|split; [reflexivity|]]. intros p [].
  - rewrite workDirOf_nonempty. run.
    split; [reflexivity|split; [cbn; lia|split; [reflexivity|intros p []]]].
Qed.

End Server.

Lemma convert_ends_with_one_response_witness :
  endsCleanly (trace (snd (runConvert GoStrings.caselessLower Scenarios.officeWorld 4
      (Scenarios.convertRequest "report.docx" "docx" "pdf") ∅))) = true
  /\ (List.length (enqueued (trace (snd (runConvert GoStrings.caselessLower
      Scenarios.officeWorld 4 (Scenarios.convertRequest "report.docx" "docx" "pdf")
      ∅)))) <= 1)%nat
  /\ List.length (sent (trace (snd (runConvert GoStrings.caselessLower
      Scenarios.officeWorld 4 (Scenarios.convertRequest "report.docx" "docx" "pdf")
      ∅))))
     = List.length (enqueued (trace (snd (runConvert GoStrings.caselessLower
         Scenarios.officeWorld 4 (Scenarios.convertRequest "report.docx" "docx" "pdf")
         ∅))))
  /\ (forall p, In p (streamed (trace (snd (runConvert GoStrings.caselessLower
      Scenarios.officeWorld 4 (Scenarios.convertRequest "report.docx" "docx" "pdf")
      ∅)))) ->
      exists res, sent (trace (snd (runConvert GoStrings.caselessLower
          Scenarios.officeWorld 4 (Scenarios.convertRequest "report.docx" "docx" "pdf")
          ∅))) = [res]
                  /\ Success res = true /\ Path res = p).
Proof.
  apply (convert_ends_with_one_response GoStrings.caselessLower Scenarios.officeWorld 4
      (Scenarios.convertRequest "report.docx" "docx" "pdf") ∅).
  - reflexivity.
  - lia.
  - intros pool _; reflexivity.
Defined.

End ConvertFacts.

(** ** Edges of the handlers: spelling, uploads, angles, refused requests *)

Module EdgeFacts.
Import GoFilepath ProtocolFacts HandlerFacts PageOperationFacts FinishFacts ToolFacts.

Ltac ends_after_silent :=
  match goal with
  | |- endsCleanly (?x :: ?t ++ ?l2) = true =>
      change (endsCleanly ((x :: t) ++ l2) = true);
      rewrite endsCleanly_app_silent;
      [reflexivity | cbn [forallb silent andb]; assumption | cbn; lia]
  end.


Section Server.

Variable uL : string -> string.
Variable w : World.
Variable numCPU : Z.

Local Abbreviation h := (theHandler w numCPU).

(** X9. /convert with a target that [selectPool] sends to the Poppler
    pool but whose spelling is not lower case (PNG, Jpeg, TXT), in a
    server whose pools have workers and where a goroutine of the Poppler
    pool receives the Job: the router lower-cases the token, the Job
    carries it as it came, and the Poppler handler and [PDFToImage]
    compare it as it came. No command runs, and the request is answered
    500 with the text of [PDFToImage]'s error for an unsupported image
    format. *)
Theorem poppler_target_is_case_sensitive (r : Request) (files : gset string) :
  staged w r = true ->
  selectPool uL (FormValue r "from") (FormValue r "to") = Some Poppler ->
  GoStrings.ToLower uL (FormValue r "to") <> FormValue r "to" ->
  0 < numCPU -> w_fate w Poppler = Handled ->
  fst (runConvert uL w numCPU r files) = Done
  /\ executed (trace (snd (runConvert uL w numCPU r files))) = []
  /\ streamed (trace (snd (runConvert uL w numCPU r files))) = []
  /\ statuses (trace (snd (runConvert uL w numCPU r files)))
     = [StatusInternalServerError]
  /\ messages (trace (snd (runConvert uL w numCPU r files)))
     = ["Conversion failed: unsupported image format: " +:+ FormValue r "to"]
  /\ removed (trace (snd (runConvert uL w numCPU r files))) = [workDirOf w].
Proof.
  unfold runConvert, staged, inputPathOf, workDirOf. intros Hst Hsel Hcase Hn Hw.
  destruct (String.eqb (Method r) "POST") eqn:E1; [|discriminate].
  destruct (parseOk r) eqn:E2; [|discriminate].
  destruct (formFile r) as [header|] eqn:E3; [|discriminate].
  cbn [andb] in Hst.
  destruct (String.eqb (FormValue r "from") "") eqn:E4; [discriminate|].
  destruct (String.eqb (FormValue r "to") "") eqn:E5; [discriminate|].
  destruct (w_mkdirAll w (Join ["tmp"; w_uuid w])) eqn:E6; [discriminate|].
  destruct (w_create w (Join [Join ["tmp"; w_uuid w]; Filename header])) eqn:E7;
    [discriminate|].
  destruct (w_copyIn w (Join [Join ["tmp"; w_uuid w]; Filename header])) eqn:E8;
    [discriminate|].
  clear Hst.
  assert (Hne : forall t, GoStrings.ToLower uL t = t ->
                          String.eqb (FormValue r "to") t = false).
  { intros t Ht. apply String.eqb_neq. intros Heq. apply Hcase.
    now rewrite Heq. }
  pose proof (Hne "txt" eq_refl) as N1.
  pose proof (Hne "jpg" eq_refl) as N2.
  pose proof (Hne "jpeg" eq_refl) as N3.
  pose proof (Hne "png" eq_refl) as N4.
  unfold HandleConvert. unfold_prims.
  rewrite E1, E2, E3, E4, E5, E6, E7, E8, Hsel. run.
  unfold enqueue. rewrite (fate_handled w numCPU Poppler Hn Hw).
  unfold theHandler. cbn [EngineManager NewConversionHandler].
  cbn [poolOf NewEngineManager PopplerPool handler].
  unfold handlePoppler, PDFToImage, filepath_Glob. unfold_prims. run.
  rewrite ?N1, ?N2, ?N3, ?N4. run.
  destruct (w_glob w _); run; rewrite workDirOf_nonempty; run; leaf.
Qed.

(** The loop of [HandleMerge] when every upload can be opened: it comes
    to its end and adds only events of staging. *)
Lemma stageInputs_silent (files : list FileHeader) :
  (forall f, In f files -> w_openUpload w (Filename f) = None) ->
  forall (i : nat) (img : bool) (acc : list string) (s : Sys),
  exists res tr f',
    stageInputs uL w (workDirOf w) i files img acc s
    = (Next res, {| fs := f'; chan := chan s; trace := trace s ++ tr |})
    /\ forallb silent tr = true /\ enqueued tr = [].
Proof.
  induction files as [|f files IH]; intros Hopen i img acc s.
  - exists (img, acc), [], (fs s). cbn. rewrite app_nil_r. destruct s; auto.
  - assert (Hf : w_openUpload w (Filename f) = None) by (apply Hopen; now left).
    assert (Hrest : forall g, In g files -> w_openUpload w (Filename g) = None)
      by (intros g Hg; apply Hopen; now right).
    cbn [stageInputs]. unfold_prims. rewrite Hf. run.
    destruct (w_create w _); run;
      match goal with
      | |- context [stageInputs uL w _ (S i) files ?b ?a ?st] =>
          destruct (IH Hrest (S i) b a st) as (res & tr & f' & E & H1 & H2)
      end;
      cbn [chan trace fs] in E; rewrite E; clear E;
      eexists res, (_ :: _ :: _ :: tr), f';
      (split; [rewrite <- !app_assoc; reflexivity|]);
      unfold enqueued in *; cbn; auto.
Qed.


(** X10. /merge: a POST with a parsed form, at least two files and
    uploads that can be opened does its work in every world (directory
    not made, files not created, tool failing, result not to be opened):
    the handler returns, the run ends cleanly, the working directory is
    removed once and is gone, no Job goes into a queue and the only error
    status is 500. *)
Theorem merge_always_cleans_up (r : Request) (files : gset string) :
  accepted AtMerge r = true ->
  (forall f, In f (formFiles r) -> w_openUpload w (Filename f) = None) ->
  (fst (runMerge uL w numCPU r files) = Done
   \/ fst (runMerge uL w numCPU r files) = Next tt)
  /\ endsCleanly (trace (snd (runMerge uL w numCPU r files))) = true
  /\ removed (trace (snd (runMerge uL w numCPU r files))) = [workDirOf w]
  /\ (workDirOf w ∉ fs (snd (runMerge uL w numCPU r files)))
  /\ enqueued (trace (snd (runMerge uL w numCPU r files))) = []
  /\ (statuses (trace (snd (runMerge uL w numCPU r files))) = []
      \/ statuses (trace (snd (runMerge uL w numCPU r files)))
         = [StatusInternalServerError]).
Proof.
  unfold accepted. intros Hacc Hopen.
  destruct (String.eqb (Method r) "POST") eqn:E1; [|discriminate].
  destruct (parseOk r) eqn:E2; [|discriminate].
  cbn [andb] in Hacc. apply Nat.leb_le in Hacc.
  assert (E3 : (List.length (formFiles r) <? 2)%nat = false)
    by (apply Nat.ltb_ge; exact Hacc).
  unfold runMerge, HandleMerge. cbv zeta. rewrite E1, E2, E3.
  fold (workDirOf w). unfold_prims. run.
  destruct (w_mkdirAll w (workDirOf w)); run;
    match goal with
    | |- context [stageInputs uL w _ 0 _ false [] ?st] =>
        destruct (stageInputs_silent (formFiles r) Hopen 0 false [] st)
          as ([img paths] & tr & f' & E & Hs & He)
    end;
    cbn [chan trace fs] in E; rewrite E; clear E;
    destruct (silent_readings tr Hs) as (Hr & _ & Hst & _);
    unfold removed in Hr; unfold statuses in Hst; unfold enqueued in He;
    unfold ImageToPDFSync, MergePDFsSync, ImageToPDF, MergePDFs;
    unfold_calls; unfold_prims; run;
    destruct img; run;
    destruct (w_exec w _ _) as [output [e|]]; run;
    try (destruct (w_open w _); run);
    (split; [leaf|]);
    (split; [repeat rewrite <- app_assoc; cbn [app]; ends_after_silent|]);
    rewrite ?flat_map_app, ?Hr, ?Hst, ?He; leaf.
Qed.


(** X18. /convert when no goroutine receives the Job, because the pools
    were built without workers or because the world has it so (the
    context is cancelled, the pool is gone): a request that passed the
    checks, staged its input and has a pool for its pair never returns.
    It blocks at the send or at the receive of the Result; no command
    runs, nothing is sent, streamed or answered, nothing is removed, and
    the working directory stays on disk. *)
Theorem unhandled_job_blocks_convert (r : Request) (files : gset string)
    (pool : Engine) :
  staged w r = true ->
  selectPool uL (FormValue r "from") (FormValue r "to") = Some pool ->
  numCPU <= 0 \/ w_fate w pool <> Handled ->
  fst (runConvert uL w numCPU r files) = Hang
  /\ executed (trace (snd (runConvert uL w numCPU r files))) = []
  /\ sent (trace (snd (runConvert uL w numCPU r files))) = []
  /\ streamed (trace (snd (runConvert uL w numCPU r files))) = []
  /\ statuses (trace (snd (runConvert uL w numCPU r files))) = []
  /\ removed (trace (snd (runConvert uL w numCPU r files))) = []
  /\ (workDirOf w ∈ fs (snd (runConvert uL w numCPU r files))).
Proof.
  unfold runConvert, staged, inputPathOf, workDirOf. intros Hst Hsel Hno.
  destruct (String.eqb (Method r) "POST") eqn:E1; [|discriminate].
  destruct (parseOk r) eqn:E2; [|discriminate].
  destruct (formFile r) as [header|] eqn:E3; [|discriminate].
  cbn [andb] in Hst.
  destruct (String.eqb (FormValue r "from") "") eqn:E4; [discriminate|].
  destruct (String.eqb (FormValue r "to") "") eqn:E5; [discriminate|].
  destruct (w_mkdirAll w (Join ["tmp"; w_uuid w])) eqn:E6; [discriminate|].
  destruct (w_create w (Join [Join ["tmp"; w_uuid w]; Filename header])) eqn:E7;
    [discriminate|].
  destruct (w_copyIn w (Join [Join ["tmp"; w_uuid w]; Filename header])) eqn:E8;
    [discriminate|].
  clear Hst.
  pose proof (fate_unhandled w numCPU pool Hno) as Hfate.
  unfold HandleConvert. unfold_prims.
  rewrite E1, E2, E3, E4, E5, E6, E7, E8, Hsel. run.
  unfold enqueue.
  destruct (fate w (theHandler w numCPU) pool); [contradiction| |];
    unfold_prims; run;
    (repeat split; try reflexivity);
    apply elem_of_union; right; apply elem_of_union; left;
    now apply elem_of_singleton.
Qed.

(** X19. /compress and /extract/text (and any other operation of the
    shared handler) when no goroutine receives the Job: a request with
    method POST, a parsed form and a file part never returns. No command
    runs, nothing is sent, streamed or answered, and nothing is
    removed. *)
Theorem unhandled_job_blocks_operation (r : Request) (files : gset string)
    (op : string) (header : FileHeader) :
  Method r = "POST" -> parseOk r = true -> formFile r = Some header ->
  numCPU <= 0
  \/ w_fate w (if String.eqb op "compress" then Ghostscript else Poppler) <> Handled ->
  fst (handleGenericPDFOperation w h r op (initSys files)) = Hang
  /\ executed (trace (snd (handleGenericPDFOperation w h r op (initSys files)))) = []
  /\ sent (trace (snd (handleGenericPDFOperation w h r op (initSys files)))) = []
  /\ streamed (trace (snd (handleGenericPDFOperation w h r op (initSys files)))) = []
  /\ statuses (trace (snd (handleGenericPDFOperation w h r op (initSys files)))) = []
  /\ removed (trace (snd (handleGenericPDFOperation w h r op (initSys files)))) = [].
Proof.
  intros E1 E2 E3 Hno.
  pose proof (fate_unhandled w numCPU _ Hno) as Hfate.
  unfold handleGenericPDFOperation. cbv zeta. rewrite E1, E2, E3.
  destruct (String.eqb op "compress");
    [|destruct (String.eqb op "extract-text")];
    cbv iota beta; unfold enqueue;
    destruct (fate w (theHandler w numCPU) _); try contradiction;
    unfold_prims; run;
    destruct (w_mkdirAll w _); run; destruct (w_create w _); run;
    repeat split; reflexivity.
Qed.

(** X12. /rotate passes on whatever number was read: when [Sscanf]
    reads an angle that is not 0, negative or not a multiple of 90 as it
    may be, the one command is qpdf with --rotate=+ followed by that
    number, and the number is checked nowhere. *)
Theorem rotate_passes_any_angle (r : Request) (files : gset string)
    (header : FileHeader) (angle : Z) :
  accepted AtRotate r = true -> formFile r = Some header ->
  GoFmt.scanInt (FormValue r "angle") = Some angle -> angle <> 0 ->
  executed (trace (snd (runRotate w r files)))
  = [("qpdf", [inputPathOf w header; "--rotate=+" +:+ GoFmt.formatInt angle;
               Join [workDirOf w; "rotated.pdf"]])]
  /\ ~ In StatusBadRequest (statuses (trace (snd (runRotate w r files)))).
Proof.
  unfold accepted. intros Hacc E3 Hscan Hnz. rewrite E3 in Hacc.
  destruct (String.eqb (Method r) "POST") eqn:E1; [|discriminate].
  destruct (parseOk r) eqn:E2; [|discriminate]. clear Hacc.
  unfold runRotate, HandleRotate, inputPathOf, workDirOf, GoFmt.Sscanf_d.
  cbv zeta. rewrite E1, E2, E3, Hscan.
  replace (angle =? 0) with false by (symmetry; now apply Z.eqb_neq).
  unfold_calls. unfold_prims. run.
  destruct (w_mkdirAll w (Join ["tmp"; w_uuid w])); run;
    destruct (w_create w (Join [Join ["tmp"; w_uuid w]; Filename header])); run;
    destruct (w_exec w "qpdf" _) as [output [e|]]; run;
    try (destruct (w_open w _); run);
    (split; [reflexivity|]); unfold StatusBadRequest, StatusInternalServerError;
    intros H; repeat (destruct H as [H|H]; [discriminate|]); exact H.
Qed.

Section Zip.

Variable zipError : string -> list string -> error.

(** X13. Every endpoint: a request that fails the checks of its handler
    (method, form, file part or file count, required form values) gets
    one error response and nothing else happens: no directory is made, no
    file written, no command run, no Job queued, and the files on disk
    are as before. The status is 405 exactly when the method is not POST,
    whatever else is wrong with the request, and 400 otherwise. *)
Theorem rejected_request_has_no_effect (e : Endpoint) (r : Request)
    (files : gset string) :
  accepted e r = false ->
  exists msg code,
    serve uL w numCPU zipError e r files
    = (Done, {| fs := files; chan := []; trace := [EvHttpError msg code] |})
    /\ (code = StatusMethodNotAllowed \/ code = StatusBadRequest)
    /\ (code = StatusMethodNotAllowed <-> Method r <> "POST").
Proof.
  unfold accepted, serve, handlerOf. intros Hacc.
  assert (H405 : StatusMethodNotAllowed <> StatusBadRequest) by discriminate.
  destruct (String.eqb (Method r) "POST") eqn:E1.
  - apply String.eqb_eq in E1 as HP.
    destruct (parseOk r) eqn:E2; cbn [andb] in Hacc.
    + destruct e;
        unfold HandleConvert, HandleMerge, HandleSplit, HandleCompress,
          HandleExtractText, HandleExtractImages, HandleRotate, HandleReorder,
          handleGenericPDFOperation;
        cbv zeta; rewrite E1, E2;
        try (destruct (formFile r) as [header|] eqn:E3);
        try (destruct (String.eqb (FormValue r "from") "") eqn:E4);
        try (destruct (String.eqb (FormValue r "to") "") eqn:E5);
        try (destruct (String.eqb (FormValue r "order") "") eqn:E6);
        try discriminate;
        try (apply Nat.leb_gt in Hacc; apply Nat.ltb_lt in Hacc; rewrite Hacc);
        unfold_prims; run;
        eexists _, StatusBadRequest;
        (split; [reflexivity|]);
        (split; [now right|]);
        (split; [intros Heq; now symmetry in Heq | intros Hne; now destruct Hne]).
    + destruct e;
        unfold HandleConvert, HandleMerge, HandleSplit, HandleCompress,
          HandleExtractText, HandleExtractImages, HandleRotate, HandleReorder,
          handleGenericPDFOperation;
        cbv zeta; rewrite E1, E2; unfold_prims; run;
        eexists _, StatusBadRequest;
        (split; [reflexivity|]);
        (split; [now right|]);
        (split; [intros Heq; now symmetry in Heq | intros Hne; now destruct Hne]).
  - apply String.eqb_neq in E1 as HP.
    destruct e;
      unfold HandleConvert, HandleMerge, HandleSplit, HandleCompress,
        HandleExtractText, HandleExtractImages, HandleRotate, HandleReorder,
        handleGenericPDFOperation;
      cbv zeta; rewrite E1; unfold_prims; run;
      eexists _, StatusMethodNotAllowed;
      (split; [reflexivity|]); (split; [now left|]); now split.
Qed.

End Zip.

End Server.

Lemma poppler_target_is_case_sensitive_witness :
  fst (runConvert GoStrings.caselessLower Scenarios.calmWorld 4
      (Scenarios.convertRequest "scan.pdf" "pdf" "PNG") ∅) = Done
  /\ executed (trace (snd (runConvert GoStrings.caselessLower Scenarios.calmWorld 4
      (Scenarios.convertRequest "scan.pdf" "pdf" "PNG") ∅))) = []
  /\ streamed (trace (snd (runConvert GoStrings.caselessLower Scenarios.calmWorld 4
      (Scenarios.convertRequest "scan.pdf" "pdf" "PNG") ∅))) = []
  /\ statuses (trace (snd (runConvert GoStrings.caselessLower Scenarios.calmWorld 4
      (Scenarios.convertRequest "scan.pdf" "pdf" "PNG") ∅)))
     = [StatusInternalServerError]
  /\ messages (trace (snd (runConvert GoStrings.caselessLower Scenarios.calmWorld 4
      (Scenarios.convertRequest "scan.pdf" "pdf" "PNG") ∅)))
     = ["Conversion failed: unsupported image format: " +:+ FormValue
         (Scenarios.convertRequest "scan.pdf" "pdf" "PNG") "to"]
  /\ removed (trace (snd (runConvert GoStrings.caselessLower Scenarios.calmWorld 4
      (Scenarios.convertRequest "scan.pdf" "pdf" "PNG") ∅))) = [workDirOf
      Scenarios.calmWorld].
Proof.
  apply (poppler_target_is_case_sensitive GoStrings.caselessLower Scenarios.calmWorld 4
      (Scenarios.convertRequest "scan.pdf" "pdf" "PNG") ∅).
  - reflexivity.
  - reflexivity.
  - vm_compute; discriminate.
  - lia.
  - reflexivity.
Defined.

Lemma merge_always_cleans_up_witness :
  (fst (runMerge GoStrings.caselessLower Scenarios.calmWorld 4 (Scenarios.mergeRequest
      ["cover.PNG"; "body.pdf"]) ∅) = Done
   \/ fst (runMerge GoStrings.caselessLower Scenarios.calmWorld 4
       (Scenarios.mergeRequest ["cover.PNG"; "body.pdf"]) ∅) = Next tt)
  /\ endsCleanly (trace (snd (runMerge GoStrings.caselessLower Scenarios.calmWorld 4
      (Scenarios.mergeRequest ["cover.PNG"; "body.pdf"]) ∅))) = true
  /\ removed (trace (snd (runMerge GoStrings.caselessLower Scenarios.calmWorld 4
      (Scenarios.mergeRequest ["cover.PNG"; "body.pdf"]) ∅))) = [workDirOf
      Scenarios.calmWorld]
  /\ (workDirOf Scenarios.calmWorld ∉ fs (snd (runMerge GoStrings.caselessLower
      Scenarios.calmWorld 4 (Scenarios.mergeRequest ["cover.PNG"; "body.pdf"]) ∅)))
  /\ enqueued (trace (snd (runMerge GoStrings.caselessLower Scenarios.calmWorld 4
      (Scenarios.mergeRequest ["cover.PNG"; "body.pdf"]) ∅))) = []
  /\ (statuses (trace (snd (runMerge GoStrings.caselessLower Scenarios.calmWorld 4
      (Scenarios.mergeRequest ["cover.PNG"; "body.pdf"]) ∅))) = []
      \/ statuses (trace (snd (runMerge GoStrings.caselessLower Scenarios.calmWorld 4
          (Scenarios.mergeRequest ["cover.PNG"; "body.pdf"]) ∅)))
         = [StatusInternalServerError]).
Proof.
  apply (merge_always_cleans_up GoStrings.caselessLower Scenarios.calmWorld 4
      (Scenarios.mergeRequest ["cover.PNG"; "body.pdf"]) ∅).
  - reflexivity.
  - intros f _; reflexivity.
Defined.


Lemma unhandled_job_blocks_convert_witness :
  fst (runConvert GoStrings.caselessLower MoreScenarios.deadPools 4
         (Scenarios.convertRequest "report.docx" "docx" "pdf") ∅) = Hang
  /\ executed (trace (snd (runConvert GoStrings.caselessLower MoreScenarios.deadPools 4
                             (Scenarios.convertRequest "report.docx" "docx" "pdf") ∅)))
     = []
  /\ sent (trace (snd (runConvert GoStrings.caselessLower MoreScenarios.deadPools 4
                         (Scenarios.convertRequest "report.docx" "docx" "pdf") ∅)))
     = []
  /\ streamed (trace (snd (runConvert GoStrings.caselessLower MoreScenarios.deadPools 4
                             (Scenarios.convertRequest "report.docx" "docx" "pdf") ∅)))
     = []
  /\ statuses (trace (snd (runConvert GoStrings.caselessLower MoreScenarios.deadPools 4
                             (Scenarios.convertRequest "report.docx" "docx" "pdf") ∅)))
     = []
  /\ removed (trace (snd (runConvert GoStrings.caselessLower MoreScenarios.deadPools 4
                            (Scenarios.convertRequest "report.docx" "docx" "pdf") ∅)))
     = []
  /\ (workDirOf MoreScenarios.deadPools
      ∈ fs (snd (runConvert GoStrings.caselessLower MoreScenarios.deadPools 4
                   (Scenarios.convertRequest "report.docx" "docx" "pdf") ∅))).
Proof.
  apply (unhandled_job_blocks_convert GoStrings.caselessLower MoreScenarios.deadPools 4
           (Scenarios.convertRequest "report.docx" "docx" "pdf") ∅ LibreOffice).
  - reflexivity.
  - reflexivity.
  - right. discriminate.
Defined.

Lemma unhandled_job_blocks_operation_witness :
  fst (handleGenericPDFOperation Scenarios.calmWorld (theHandler Scenarios.calmWorld 0)
         (MoreScenarios.fileRequest "book.pdf") "compress" (initSys ∅)) = Hang
  /\ executed (trace (snd (handleGenericPDFOperation Scenarios.calmWorld
                             (theHandler Scenarios.calmWorld 0)
                             (MoreScenarios.fileRequest "book.pdf") "compress"
                             (initSys ∅)))) = []
  /\ sent (trace (snd (handleGenericPDFOperation Scenarios.calmWorld
                         (theHandler Scenarios.calmWorld 0)
                         (MoreScenarios.fileRequest "book.pdf") "compress"
                         (initSys ∅)))) = []
  /\ streamed (trace (snd (handleGenericPDFOperation Scenarios.calmWorld
                             (theHandler Scenarios.calmWorld 0)
                             (MoreScenarios.fileRequest "book.pdf") "compress"
                             (initSys ∅)))) = []
  /\ statuses (trace (snd (handleGenericPDFOperation Scenarios.calmWorld
                             (theHandler Scenarios.calmWorld 0)
                             (MoreScenarios.fileRequest "book.pdf") "compress"
                             (initSys ∅)))) = []
  /\ removed (trace (snd (handleGenericPDFOperation Scenarios.calmWorld
                            (theHandler Scenarios.calmWorld 0)
                            (MoreScenarios.fileRequest "book.pdf") "compress"
                            (initSys ∅)))) = [].
Proof.
  apply (unhandled_job_blocks_operation Scenarios.calmWorld 0
           (MoreScenarios.fileRequest "book.pdf") ∅ "compress"
           (Scenarios.upload "book.pdf")).
  - reflexivity.
  - reflexivity.
  - reflexivity.
  - left. lia.
Defined.

Lemma rotate_passes_any_angle_witness :
  executed (trace (snd (runRotate Scenarios.calmWorld (Scenarios.rotateRequest
      "plan.pdf" (Some "-45")) ∅)))
  = [("qpdf", [inputPathOf Scenarios.calmWorld (Scenarios.upload "plan.pdf");
      "--rotate=+" +:+ GoFmt.formatInt (-45);
               Join [workDirOf Scenarios.calmWorld; "rotated.pdf"]])]
  /\ ~ In StatusBadRequest (statuses (trace (snd (runRotate Scenarios.calmWorld
      (Scenarios.rotateRequest "plan.pdf" (Some "-45")) ∅)))).
Proof.
  apply (rotate_passes_any_angle Scenarios.calmWorld (Scenarios.rotateRequest "plan.pdf"
      (Some "-45")) ∅ (Scenarios.upload "plan.pdf") (-45)).
  - reflexivity.
  - reflexivity.
  - reflexivity.
  - lia.
Defined.

Lemma rejected_request_has_no_effect_witness :
  exists msg code,
    serve GoStrings.caselessLower Scenarios.calmWorld 4 MoreScenarios.zipWorks AtConvert
        (MoreScenarios.getRequest "report.docx" "docx" "pdf") ∅
    = (Done, {| fs := ∅; chan := []; trace := [EvHttpError msg code] |})
    /\ (code = StatusMethodNotAllowed \/ code = StatusBadRequest)
    /\ (code = StatusMethodNotAllowed <-> Method (MoreScenarios.getRequest "report.docx"
        "docx" "pdf") <> "POST").
Proof.
  apply (rejected_request_has_no_effect GoStrings.caselessLower Scenarios.calmWorld 4
      MoreScenarios.zipWorks AtConvert (MoreScenarios.getRequest "report.docx" "docx"
      "pdf") ∅).
  - reflexivity.
Defined.

End EdgeFacts.

(** ** Shutdown of a pool, and the pools of the manager together *)

Module ShutdownFacts.
Import WorkerPoolFacts.

Lemma all_exited_lookup (l : list Goroutine) (i : nat) (g : Goroutine) :
  forallb isExited l = true -> l !! i = Some g -> g = Exited.
Proof.
  revert i. induction l as [|x l IH]; intros i Hall Hi; [discriminate|].
  cbn in Hall. apply andb_prop in Hall as [Hx Hl].
  destruct i as [|i]; cbn in Hi.
  - injection Hi as <-. destruct x; try discriminate; reflexivity.
  - now apply (IH i).
Qed.

Lemma all_exited_running (c : Config) :
  forallb isExited (goroutines c) = true -> running c = 0%nat.
Proof.
  unfold running. induction (goroutines c) as [|x l IH]; [reflexivity|].
  cbn. intros Hall. apply andb_prop in Hall as [Hx Hl].
  destruct x; try discriminate. cbn. now apply IH.
Qed.

Lemma exited_elsewhere (l : list Goroutine) (i j : nat) (g : Goroutine) :
  g <> Exited -> <[ i := g ]> l !! j = Some Exited -> l !! j = Some Exited.
Proof.
  intros Hg Hj. destruct (decide (i = j)) as [->|Hne].
  - destruct (decide (j < List.length l)%nat) as [Hlt|Hge].
    + rewrite list_lookup_insert_eq in Hj by exact Hlt. congruence.
    + rewrite lookup_ge_None_2 in Hj; [discriminate|].
      rewrite length_insert. lia.
  - now rewrite list_lookup_insert_ne in Hj.
Qed.

Lemma step_keeps_drained (c c' : Config) : step c c' -> drained c -> drained c'.
Proof.
  intros Hstep Hc. destruct Hstep; unfold drained in *; cbn; intros Hctx Hex.
  - destruct (Hc Hctx Hex) as [Hcl _]. congruence.
  - discriminate.
  - destruct (Hc Hctx Hex) as [Hcl _]. congruence.
  - congruence.
  - destruct Hex as [j Hj]. apply exited_elsewhere in Hj; [|discriminate].
    destruct (Hc Hctx (ex_intro _ j Hj)) as [_ Hq]. congruence.
  - auto.
  - destruct Hex as [j Hj]. apply exited_elsewhere in Hj; [|discriminate].
    exact (Hc Hctx (ex_intro _ j Hj)).
Qed.

Lemma lookup_repeat {A : Type} (x y : A) (n i : nat) :
  repeat x n !! i = Some y -> y = x.
Proof.
  revert i. induction n as [|n IH]; intros i Hi; [discriminate|].
  destruct i as [|i]; cbn in Hi; [congruence | now apply (IH i)].
Qed.

Lemma Start_drained (p : WorkerPool) : drained (Start p).
Proof.
  intros _ [i Hi]. cbn in Hi. apply lookup_repeat in Hi. discriminate.
Qed.

Lemma reachable_drained (p : WorkerPool) (c : Config) :
  rtc step (Start p) c -> drained c.
Proof.
  intros H. pose proof (Start_drained p) as H0.
  induction H as [|c1 c2 c3 H12 _ IH]; [exact H0|].
  apply IH. now apply (step_keeps_drained c1).
Qed.

(** X14. [Wait] without cancellation: in a pool with at least one worker
    that was started, when the queue is closed and every goroutine has
    returned while the context was never cancelled, no Job is left in the
    queue and no handler runs. Every Job the queue took was handled. *)
Theorem wait_without_cancel_drains_queue (p : WorkerPool) (c : Config) :
  0 < workers p ->
  rtc step (Start p) c ->
  ctxDone c = false ->
  waitReturned c = true ->
  JobQueue c = [] /\ running c = 0%nat.
Proof.
  intros Hw Hreach Hctx Hwait.
  unfold waitReturned in Hwait. apply andb_prop in Hwait as [_ Hall].
  split; [|now apply all_exited_running].
  pose proof (reachable_goroutines p c Hreach) as Hlen.
  destruct (lookup_lt_is_Some_2 (goroutines c) 0) as [g Hg]; [lia|].
  pose proof (all_exited_lookup _ _ _ Hall Hg) as ->.
  now destruct (reachable_drained p c Hreach Hctx (ex_intro _ 0%nat Hg)).
Qed.

(** With the context cancelled every goroutine at the select can
    return, whatever the queue holds. *)
Lemma cancelled_goroutines_exit (q : list Job) (cl : bool) (m k : nat) :
  rtc step
    {| JobQueue := q; closed := cl; ctxDone := true;
       goroutines := repeat Exited k ++ repeat Selecting m |}
    {| JobQueue := q; closed := cl; ctxDone := true;
       goroutines := repeat Exited (k + m) |}.
Proof.
  revert k. induction m as [|m IH]; intros k.
  - cbn. rewrite app_nil_r, Nat.add_0_r. apply rtc_refl.
  - eapply rtc_l.
    + apply (step_ctx_done _ k); [|reflexivity]. cbn.
      rewrite lookup_app_r by (rewrite repeat_length; lia).
      rewrite repeat_length, Nat.sub_diag. reflexivity.
    + unfold setGoroutine. cbn [JobQueue closed ctxDone goroutines].
      replace (<[ k := Exited ]> (repeat Exited k ++ Selecting :: repeat Selecting m))
        with (repeat Exited (S k) ++ repeat Selecting m).
      * replace (k + S m)%nat with (S k + m)%nat by lia. apply IH.
      * rewrite insert_app_r_alt by (rewrite repeat_length; lia).
        rewrite repeat_length, Nat.sub_diag.
        change (repeat Exited (S k)) with (Exited :: repeat Exited k).
        rewrite repeat_cons, <- app_assoc. reflexivity.
Qed.

(** A pool whose goroutines have all returned stays so: no step brings
    a goroutine back, and the queue can only grow. *)
Lemma exited_pool_stays (c c' : Config) :
  forallb isExited (goroutines c) = true ->
  rtc step c c' ->
  forallb isExited (goroutines c') = true
  /\ exists more, JobQueue c' = JobQueue c ++ more.
Proof.
  intros Hall Hrun. induction Hrun as [c|c1 c2 c3 H12 _ IH].
  - split; [exact Hall|]. exists []. now rewrite app_nil_r.
  - assert (H2 : forallb isExited (goroutines c2) = true
                 /\ exists more, JobQueue c2 = JobQueue c1 ++ more).
    { destruct H12; cbn;
        try (split; [exact Hall|]);
        try (eexists; reflexivity);
        try (exists []; now rewrite app_nil_r);
        match goal with
        | H : goroutines _ !! _ = Some _ |- _ =>
            apply (all_exited_lookup _ _ _ Hall) in H; discriminate
        end. }
    destruct H2 as [Hall2 [more2 Hq2]].
    destruct (IH Hall2) as [Hall3 [more3 Hq3]].
    split; [exact Hall3|]. exists (more2 ++ more3).
    now rewrite Hq3, Hq2, app_assoc.
Qed.

(** X15. Cancellation can strand a Job: every started pool has a run in
    which a Job was taken by the queue, the context is cancelled, every
    goroutine has returned, and the Job is still in the queue. From there
    on no handler ever runs again and the Job stays at the head of the
    queue: nothing is ever sent on its result channel. *)
Theorem cancel_can_strand_a_job (p : WorkerPool) (job : Job) :
  exists c,
    rtc step (Start p) c
    /\ ctxDone c = true
    /\ forallb isExited (goroutines c) = true
    /\ JobQueue c = [job]
    /\ (forall c', rtc step c c' ->
          running c' = 0%nat /\ exists more, JobQueue c' = job :: more).
Proof.
  assert (Hall : forall n, forallb isExited (repeat Exited n) = true)
    by (induction n; [reflexivity | assumption]).
  exists {| JobQueue := [job]; closed := false; ctxDone := true;
            goroutines := repeat Exited (0 + Z.to_nat (workers p)) |}.
  split; [|split; [reflexivity|split; [apply Hall|split; [reflexivity|]]]].
  - eapply rtc_l;
      [apply (step_enqueue _ job); [reflexivity | cbn; unfold jobQueueCap; lia]|].
    eapply rtc_l; [apply step_cancel|].
    apply (cancelled_goroutines_exit [job] false (Z.to_nat (workers p)) 0).
  - intros c' Hrun.
    match type of Hrun with
    | rtc step ?c0 _ =>
        destruct (exited_pool_stays c0 c' (Hall _) Hrun) as [Hall' [more Hq]]
    end.
    split; [now apply all_exited_running|]. now exists more.
Qed.

Section Manager.

Variable w : World.
Variable numCPU : Z.

Lemma mstep_keeps_sized (mc mc' : Engine -> Config) :
  mstep mc mc' -> sized (Z.to_nat numCPU) mc -> sized (Z.to_nat numCPU) mc'.
Proof.
  intros Hstep [Hlen Hctx]. destruct Hstep as [mc e c' Hs Hc|mc].
  - split; intros e1; [|intros e2]; unfold setPool;
      repeat destruct (decide _); subst;
      rewrite ?(step_keeps_goroutines _ _ Hs), ?Hc; auto.
  - split; [intros e; apply Hlen | reflexivity].
Qed.

Lemma StartAll_sized : sized (Z.to_nat numCPU) (StartAll (NewEngineManager w numCPU)).
Proof.
  split; [|reflexivity]. intros e. unfold StartAll.
  rewrite Start_goroutines. now destruct e.
Qed.

(** X16. The five pools together: the manager [main] builds with [numCPU]
    workers per pool and starts once runs at most five times [numCPU]
    handlers at any moment, and its pools agree at every moment on
    whether the context is cancelled. *)
Theorem manager_running_bounded (mc : Engine -> Config) :
  rtc mstep (StartAll (NewEngineManager w numCPU)) mc ->
  (runningAll mc <= 5 * Z.to_nat numCPU)%nat
  /\ (forall e e', ctxDone (mc e) = ctxDone (mc e')).
Proof.
  intros Hrun.
  assert (Hs : sized (Z.to_nat numCPU) mc).
  { pose proof StartAll_sized as H0.
    induction Hrun as [|m1 m2 m3 H12 _ IH]; [exact H0|].
    apply IH. now apply (mstep_keeps_sized m1). }
  destruct Hs as [Hlen Hctx]. split; [|exact Hctx].
  unfold runningAll, engines, list_sum. cbn [List.map fold_right].
  pose proof (running_le_goroutines (mc LibreOffice)).
  pose proof (running_le_goroutines (mc Poppler)).
  pose proof (running_le_goroutines (mc ImageMagick)).
  pose proof (running_le_goroutines (mc Pandoc)).
  pose proof (running_le_goroutines (mc Ghostscript)).
  pose proof (Hlen LibreOffice). pose proof (Hlen Poppler).
  pose proof (Hlen ImageMagick). pose proof (Hlen Pandoc).
  pose proof (Hlen Ghostscript). lia.
Qed.

End Manager.

Lemma wait_without_cancel_drains_queue_witness :
  JobQueue {| JobQueue := []; closed := true; ctxDone := false;
              goroutines := [Exited] |} = []
  /\ running {| JobQueue := []; closed := true; ctxDone := false;
                goroutines := [Exited] |} = 0%nat.
Proof.
  apply (wait_without_cancel_drains_queue
           (NewWorkerPool 1 (handlePandoc Scenarios.calmWorld))).
  - reflexivity.
  - eapply rtc_l; [apply (step_enqueue _ (Scenarios.jobTo "md" "pdf" "a.md"));
                   [reflexivity | cbn; unfold jobQueueCap; lia]|].
    eapply rtc_l; [apply (step_dequeue _ 0%nat (Scenarios.jobTo "md" "pdf" "a.md") []);
                   reflexivity|].
    eapply rtc_l; [apply (step_handler_returns _ 0%nat
                            (Scenarios.jobTo "md" "pdf" "a.md")); reflexivity|].
    eapply rtc_l; [apply step_close; reflexivity|].
    eapply rtc_l; [apply (step_queue_closed _ 0%nat); reflexivity|].
    apply rtc_refl.
  - reflexivity.
  - reflexivity.
Defined.

Lemma manager_running_bounded_witness :
  (runningAll (fun e => cancelled (StartAll (NewEngineManager Scenarios.calmWorld 4) e))
   <= 5 * Z.to_nat 4)%nat
  /\ (forall e e',
        ctxDone (cancelled (StartAll (NewEngineManager Scenarios.calmWorld 4) e))
        = ctxDone (cancelled (StartAll (NewEngineManager Scenarios.calmWorld 4) e'))).
Proof.
  apply (manager_running_bounded Scenarios.calmWorld 4).
  eapply rtc_l; [apply mstep_cancel|]. apply rtc_refl.
Defined.

End ShutdownFacts.

(** ** Where the office suite is looked for *)

Module ConverterFacts.

(** X17. [LibreOfficeConvert] runs the first of its four candidate paths
    that exists, in the order of the source, and the bare name soffice,
    to be found on the PATH, when none of them exists. *)
Theorem sofficePath_first_existing (w : World) :
  sofficePath w
  = match List.find (fun p => negb (w_notExist w p)) sofficeCandidates with
    | Some p => p
    | None => "soffice"
    end.
Proof.
  unfold sofficePath, sofficeCandidates. cbn [List.find].
  destruct (w_notExist w "/opt/homebrew/bin/soffice") eqn:E1; cbn [negb];
    [|now rewrite ?E1].
  destruct (w_notExist w "/Applications/LibreOffice.app/Contents/MacOS/soffice")
    eqn:E2; cbn [negb]; [|now rewrite ?E2].
  destruct (w_notExist w "/usr/bin/libreoffice") eqn:E3; cbn [negb];
    [|now rewrite ?E3].
  destruct (w_notExist w "/usr/bin/soffice") eqn:E4; cbn [negb]; reflexivity.
Qed.

End ConverterFacts.
